(** * Paper pipeline: the trace-anchored batch stages

    A shallow embedding of the Go services of the paper pipeline and the
    properties of their batch stages:

    - [Deduplicator]: batch-processor/deduplicator (DeduplicateWithStats,
      Deduplicate);
    - [Writer]: batch-processor/dynamodb (BatchUpsert, BatchUpsertWithStats,
      processBatch, executeBatchWriteWithRetry);
    - [Retriever]: vector-coordinator/retriever (GetCombinedTextsByTraceID);
    - [Storage]: vector-coordinator/storage (BatchStoreVectors, processBatch,
      validateVectorRecord, CreateVectorRecord);
    - [Coordinator]: vector-coordinator/main (processVectorization,
      handleStepFunction);
    - [APIClient]: vector-coordinator/client (GenerateEmbedding,
      validateEmbeddingResponse), and [Wiring], the coordinator over it;
    - [EventProcessor]: batch-processor/processor (ProcessS3Event,
      parseBatchData, convertMapToPaper, splitLines) and batch-processor/main
      (handleS3Event).

    Go's [int] is a 64-bit integer; it is modelled by [Z].  Every integer of
    these packages is a slice length, a counter bounded by one, or a
    difference of two of them, so no wrap-around is reachable and none is
    written out.  An [error] is identified with the text of its [Error()]
    method, a nil error is [None]; a pointer that may be nil is an [option].
    The external collaborators (the table store, the embedding service, the
    clock) are functions of an abstract state [S]; the code runs in a small
    state monad over a [World] that holds this state, the list of the calls
    made to the collaborators with their answers, and the log. *)

From Stdlib Require Import ZArith String List Lia DecimalString.
From Stdlib Require PrimFloat.
From stdpp Require Import gmap strings list sorting.

Open Scope string_scope.
Open Scope Z_scope.

(** ** Go values and helpers *)

Module Go.

(** An error value, identified with the text [Error()] returns. *)
Definition error : Type := string.

(** The outcome of running a function body: it returns, or it panics (nil
    dereference, index out of range).  [OutOfFuel] is an artefact of the
    embedding of loops whose counter does not decrease structurally; the
    development proves it is never produced. *)
Inductive Result (A : Type) : Type :=
| Ret (a : A)
| Panic (reason : string)
| OutOfFuel.
Arguments Ret {A} a.
Arguments Panic {A} reason.
Arguments OutOfFuel {A}.

(** [len(l)] *)
Definition len {A : Type} (l : list A) : Z := Z.of_nat (length l).

(** [l[i:j]] for [0 <= i <= j <= len(l)] *)
Definition slice {A : Type} (l : list A) (i j : nat) : list A :=
  take (j - i) (drop i l).

(** [l[i]]: a negative or too large index panics. *)
Definition index {A : Type} (l : list A) (i : Z) : Result A :=
  if i <? 0 then Panic "index out of range"
  else match l !! Z.to_nat i with
       | Some x => Ret x
       | None => Panic "index out of range"
       end.

(** The verb [%d] of [fmt.Sprintf]. *)
Definition itoa (z : Z) : string := NilZero.string_of_int (Z.to_int z).

(** [strings.Contains(s, substr)] *)
Fixpoint Contains (s substr : string) : bool :=
  if String.prefix substr s then true
  else match s with
       | EmptyString => false
       | String _ s' => Contains s' substr
       end.

(** [s == ""] *)
Definition isEmpty (s : string) : bool := String.eqb s "".

End Go.

Import Go.

(** ** shared/logger *)

Module Logger.

Inductive LogLevel : Type := LevelInfo | LevelWarn | LevelError | LevelDebug.

#[global] Instance LogLevel_eq_dec : EqDecision LogLevel.
Proof. solve_decision. Defined.

(** A log entry; of the structured fields only the level and the message
    are kept. *)
Record LogEntry : Type := mkLogEntry { Level : LogLevel; Message : string }.

End Logger.

Import Logger.

(** ** batch-processor/processor: the record model of the ingestion stage *)

Module Processor.

Record Paper : Type := mkPaper {
  PaperID : string;
  Source : string;
  Title : string;
  Abstract : string;
  Authors : list string;
  PublishedDate : string;
  Categories : list string;
  RawXML : string;
  TraceID : string;
  BatchTimestamp : string;
  ProcessingStatus : string;
  CreatedAt : string;
  UpdatedAt : string
}.

Record DeduplicationStats : Type := mkDeduplicationStats {
  OriginalCount : Z;
  UniqueCount : Z;
  DuplicateCount : Z;
  InvalidCount : Z
}.

Record UpsertStats : Type := mkUpsertStats {
  TotalItems : Z;
  SuccessItems : Z;
  FailedItems : Z;
  BatchCount : Z;
  SuccessBatches : Z;
  FailedBatches : Z
}.

End Processor.

(** ** batch-processor/deduplicator *)

Module Deduplicator.
Import Processor.

(** The variables of the loop of [DeduplicateWithStats]. *)
Record LoopState : Type := mkLoopState {
  seen : gmap string bool;
  deduplicated : list Paper;
  stats : DeduplicationStats
}.

(** [seen[id]]: a missing key reads as [false]. *)
Definition seenGet (m : gmap string bool) (id : string) : bool :=
  default false (m !! id).

(** One iteration of [for _, paper := range papers]. *)
Definition step (st : LoopState) (paper : Paper) : LoopState :=
  if isEmpty (PaperID paper) then
    mkLoopState (seen st) (deduplicated st)
      (mkDeduplicationStats (OriginalCount (stats st)) (UniqueCount (stats st))
         (DuplicateCount (stats st)) (InvalidCount (stats st) + 1))
  else if negb (seenGet (seen st) (PaperID paper)) then
    mkLoopState (<[PaperID paper := true]> (seen st))
      (deduplicated st ++ [paper]) (stats st)
  else
    mkLoopState (seen st) (deduplicated st)
      (mkDeduplicationStats (OriginalCount (stats st)) (UniqueCount (stats st))
         (DuplicateCount (stats st) + 1) (InvalidCount (stats st))).

Definition initial (papers : list Paper) : LoopState :=
  mkLoopState ∅ [] (mkDeduplicationStats (len papers) 0 0 0).

Definition loop (papers : list Paper) : LoopState :=
  fold_left step papers (initial papers).

(** The state of the loop of [DeduplicateWithStats papers] after the
    records of a prefix [l] of the input. *)
Definition run (papers l : list Paper) : LoopState :=
  fold_left step l (initial papers).

Definition DeduplicateWithStats (papers : list Paper)
  : list Paper * DeduplicationStats :=
  let stats0 := mkDeduplicationStats (len papers) 0 0 0 in
  if len papers =? 0 then (papers, stats0)
  else
    let st := loop papers in
    (deduplicated st,
     mkDeduplicationStats (OriginalCount (stats st)) (len (deduplicated st))
       (DuplicateCount (stats st)) (InvalidCount (stats st))).

(** *** Positions of the input, for the statements *)

(** Position [i] holds the first occurrence of a non-empty key. *)
Definition isFirstOccurrence (papers : list Paper) (i : nat) : bool :=
  match papers !! i with
  | Some p =>
      negb (isEmpty (PaperID p))
      && forallb (fun q => negb (String.eqb (PaperID q) (PaperID p))) (take i papers)
  | None => false
  end.

(** Position [i] holds a non-empty key that occurs at an earlier position. *)
Definition isLaterOccurrence (papers : list Paper) (i : nat) : bool :=
  match papers !! i with
  | Some p =>
      negb (isEmpty (PaperID p))
      && existsb (fun q => String.eqb (PaperID q) (PaperID p)) (take i papers)
  | None => false
  end.

Definition firstOccurrences (papers : list Paper) : list nat :=
  filter (fun i => isFirstOccurrence papers i = true) (seq 0 (length papers)).

Definition laterOccurrences (papers : list Paper) : list nat :=
  filter (fun i => isLaterOccurrence papers i = true) (seq 0 (length papers)).

(** The records found at the given positions, in the order of the positions. *)
Definition recordsAt (papers : list Paper) (positions : list nat) : list Paper :=
  omap (fun i => papers !! i) positions.

(** *** [Deduplicate] *)

(** The variables of the loop of [Deduplicate]: [seen], [deduplicated] and
    [duplicateCount]. *)
Record PlainState : Type := mkPlainState {
  plainSeen : gmap string bool;
  plainDeduplicated : list Paper;
  duplicateCount : Z
}.

(** One iteration of [for _, paper := range papers] of [Deduplicate]. *)
Definition plainStep (st : PlainState) (paper : Paper) : PlainState :=
  if isEmpty (PaperID paper) then st
  else if negb (seenGet (plainSeen st) (PaperID paper)) then
    mkPlainState (<[PaperID paper := true]> (plainSeen st))
      (plainDeduplicated st ++ [paper]) (duplicateCount st)
  else
    mkPlainState (plainSeen st) (plainDeduplicated st) (duplicateCount st + 1).

Definition plainLoop (papers : list Paper) : PlainState :=
  fold_left plainStep papers (mkPlainState ∅ [] 0).

(** [Deduplicate] removes duplicate papers based on paper_id. *)
Definition Deduplicate (papers : list Paper) : list Paper :=
  if len papers =? 0 then papers
  else plainDeduplicated (plainLoop papers).

(** The keys of a list of papers. *)
Definition keys (papers : list Paper) : list string := map PaperID papers.

End Deduplicator.

(** ** aws-sdk-go/service/dynamodb: the part of the client the services use *)

Module DynamoDB.

(** [WriteRequest{PutRequest: &PutRequest{Item: item}}] over the marshalled
    items [Item] (a [map[string]*AttributeValue]). *)
Record WriteRequest (Item : Type) : Type := mkWriteRequest { PutRequest : Item }.
Arguments mkWriteRequest {Item} _.
Arguments PutRequest {Item} _.

Record BatchWriteItemInput (Item : Type) : Type := mkBatchWriteItemInput {
  RequestItems : gmap string (list (WriteRequest Item))
}.
Arguments mkBatchWriteItemInput {Item} _.
Arguments RequestItems {Item} _.

(** A nil map and an empty map read alike, both are [∅]. *)
Record BatchWriteItemOutput (Item : Type) : Type := mkBatchWriteItemOutput {
  UnprocessedItems : gmap string (list (WriteRequest Item))
}.
Arguments mkBatchWriteItemOutput {Item} _.
Arguments UnprocessedItems {Item} _.

Record QueryInput (Item : Type) : Type := mkQueryInput {
  TableName : string;
  IndexName : string;
  KeyConditionExpression : string;
  (** the value bound to [":trace_id"] *)
  ExpressionAttributeValue : string;
  ScanIndexForward : bool;
  ExclusiveStartKey : option Item
}.
Arguments mkQueryInput {Item} _ _ _ _ _ _.
Arguments TableName {Item} _.
Arguments IndexName {Item} _.
Arguments KeyConditionExpression {Item} _.
Arguments ExpressionAttributeValue {Item} _.
Arguments ScanIndexForward {Item} _.
Arguments ExclusiveStartKey {Item} _.

Record QueryOutput (Item : Type) : Type := mkQueryOutput {
  Items : list Item;
  LastEvaluatedKey : option Item
}.
Arguments mkQueryOutput {Item} _ _.
Arguments Items {Item} _.
Arguments LastEvaluatedKey {Item} _.

(** [dynamodbiface.DynamoDBAPI]: a call answers with an output pointer and
    an error, and moves the state [S] of the store. *)
Record DynamoDBAPI (S Item : Type) : Type := mkDynamoDBAPI {
  QueryWithContext :
    QueryInput Item -> S -> (option (QueryOutput Item) * option error) * S;
  BatchWriteItemWithContext :
    BatchWriteItemInput Item -> S
    -> (option (BatchWriteItemOutput Item) * option error) * S
}.
Arguments mkDynamoDBAPI {S Item} _ _.
Arguments QueryWithContext {S Item} _ _ _.
Arguments BatchWriteItemWithContext {S Item} _ _ _.

End DynamoDB.

(** ** vector-coordinator/client: the answer of the embedding service *)

Module Client.

Record EmbeddingResponse : Type := mkEmbeddingResponse {
  Embedding : list PrimFloat.float;
  ModelVersion : string;
  Dimension : Z;
  ProcessingTimeMs : Z
}.

(** [VectorAPIClient.GenerateEmbedding] is taken at its boundary: the HTTP
    exchange is a function of the text and of the external state. *)
Definition EmbeddingAPI (S : Type) : Type :=
  string -> S -> (option EmbeddingResponse * option error) * S.

End Client.

(** ** The world the services run in *)

Module Runtime.
Import DynamoDB Client.

Section World.
Context {S Item : Type}.

(** A call made to an external collaborator, with its answer. *)
Inductive Call : Type :=
| CallQuery (input : QueryInput Item)
    (output : option (QueryOutput Item)) (err : option error)
| CallBatchWrite (input : BatchWriteItemInput Item)
    (output : option (BatchWriteItemOutput Item)) (err : option error)
| CallEmbedding (text : string)
    (response : option EmbeddingResponse) (err : option error).

Record World : Type := mkWorld {
  ext : S;
  calls : list Call;
  logs : list LogEntry
}.

Definition M (A : Type) : Type := World -> Result A * World.

Definition ret {A : Type} (a : A) : M A := fun w => (Ret a, w).

Definition bind {A B : Type} (m : M A) (k : A -> M B) : M B :=
  fun w =>
    match m w with
    | (Ret a, w') => k a w'
    | (Panic reason, w') => (Panic reason, w')
    | (OutOfFuel, w') => (OutOfFuel, w')
    end.

Definition panic {A : Type} (reason : string) : M A :=
  fun w => (Panic reason, w).

Definition outOfFuel {A : Type} : M A := fun w => (OutOfFuel, w).

(** Lift the outcome of a pure computation that may panic. *)
Definition lift {A : Type} (r : Result A) : M A := fun w => (r, w).

(** [*p] for a pointer [p]. *)
Definition deref {A : Type} (p : option A) : M A :=
  match p with
  | Some a => ret a
  | None => panic "invalid memory address or nil pointer dereference"
  end.

(** [logger.Info], [logger.Warn], [logger.Error] and their variants write
    one entry.  [logger.Debug] writes one only when LOG_LEVEL is DEBUG: the
    embedding is of the default configuration and has no entry for it;
    where the evaluation of its arguments can panic, that is kept. *)
Definition log (level : LogLevel) (message : string) : M unit :=
  fun w => (Ret tt, mkWorld (ext w) (calls w) (logs w ++ [mkLogEntry level message])).

(** Read the external state (the clock). *)
Definition ask {A : Type} (f : S -> A) : M A := fun w => (Ret (f (ext w)), w).

Definition query (client : DynamoDBAPI S Item) (input : QueryInput Item)
  : M (option (QueryOutput Item) * option error) :=
  fun w =>
    let '(r, s') := QueryWithContext client input (ext w) in
    (Ret r, mkWorld s' (calls w ++ [CallQuery input (fst r) (snd r)]) (logs w)).

Definition batchWriteItem (client : DynamoDBAPI S Item)
    (input : BatchWriteItemInput Item)
  : M (option (BatchWriteItemOutput Item) * option error) :=
  fun w =>
    let '(r, s') := BatchWriteItemWithContext client input (ext w) in
    (Ret r, mkWorld s' (calls w ++ [CallBatchWrite input (fst r) (snd r)]) (logs w)).

Definition generateEmbedding (api : EmbeddingAPI S) (text : string)
  : M (option EmbeddingResponse * option error) :=
  fun w =>
    let '(r, s') := api text (ext w) in
    (Ret r, mkWorld s' (calls w ++ [CallEmbedding text (fst r) (snd r)]) (logs w)).

(** The write requests of the batch-write calls of a list of calls, in
    order, read off the table [table]; and the answers of its queries. *)
Definition batchWrites (table : string) (cs : list Call)
  : list (list (WriteRequest Item)) :=
  omap (fun c => match c with
                 | CallBatchWrite input _ _ =>
                     Some (default [] (RequestItems input !! table))
                 | _ => None
                 end) cs.

Definition queries (cs : list Call) : list (QueryInput Item) :=
  omap (fun c => match c with
                 | CallQuery input _ _ => Some input
                 | _ => None
                 end) cs.

Definition pages (cs : list Call) : list (QueryOutput Item) :=
  omap (fun c => match c with
                 | CallQuery _ (Some output) None => Some output
                 | _ => None
                 end) cs.

Definition embeddings (cs : list Call) : list string :=
  omap (fun c => match c with
                 | CallEmbedding text _ _ => Some text
                 | _ => None
                 end) cs.

End World.

Arguments Call : clear implicits.
Arguments World : clear implicits.
Arguments M : clear implicits.

#[global] Instance M_ret {S Item : Type} : MRet (M S Item) := @ret S Item.
#[global] Instance M_bind {S Item : Type} : MBind (M S Item) :=
  fun A B k m => bind m k.

End Runtime.

(** ** batch-processor/dynamodb: the writer of the ingestion stage *)

Module Writer.
Import DynamoDB Runtime Processor.

(** [MaxBatchSize] is the maximum number of items per batch write request. *)
Definition MaxBatchSize : Z := 25.

Section WithClient.
Context {S Item : Type}.

(** [dynamodbattribute.MarshalMap] on a [processor.Paper]: the item, or
    the text of the error. *)
Variable MarshalMap : Paper -> Item + error.

Record Writer : Type := mkWriter {
  client : DynamoDBAPI S Item;
  tableName : string
}.

Variable w : Writer.

Definition maxRetries : Z := 3.

(** The loop of [executeBatchWriteWithRetry],
    [for attempt := 0; attempt < maxRetries && len(currentRequests) > 0; attempt++];
    leaving it by its condition reaches the final [return] of the
    function. *)
Fixpoint retryLoop (fuel : nat) (attempt : Z)
    (currentRequests : list (WriteRequest Item)) : M S Item (option error) :=
  if (attempt <? maxRetries) && (len currentRequests >? 0) then
    match fuel with
    | O => outOfFuel
    | Datatypes.S fuel' =>
        (if attempt >? 0 then log LevelInfo "Retrying batch write" else mret tt) ;;
        let input := mkBatchWriteItemInput {[ tableName w := currentRequests ]} in
        '(result, err) ← batchWriteItem (client w) input ;
        match err with
        | Some e =>
            mret (Some ("batch write failed on attempt " ++ itoa (attempt + 1)
                        ++ ": " ++ e)%string)
        | None =>
            result ← deref result ;
            match UnprocessedItems result !! tableName w with
            | Some unprocessedItems =>
                if len unprocessedItems >? 0 then
                  log LevelInfo "Batch write partially succeeded" ;;
                  retryLoop fuel' (attempt + 1) unprocessedItems
                else
                  log LevelInfo "Batch write completed successfully" ;;
                  mret None
            | None =>
                log LevelInfo "Batch write completed successfully" ;;
                mret None
            end
        end
    end
  else
    mret (Some ("failed to process " ++ itoa (len currentRequests)
                ++ " items after " ++ itoa maxRetries ++ " retries")%string).

Definition executeBatchWriteWithRetry
    (writeRequests : list (WriteRequest Item)) : M S Item (option error) :=
  retryLoop (Z.to_nat maxRetries) 0 writeRequests.

(** [for _, paper := range papers] of [processBatch]: a paper that does
    not marshal is logged and left out. *)
Fixpoint marshalLoop (papers : list Paper)
    (writeRequests : list (WriteRequest Item))
  : M S Item (list (WriteRequest Item)) :=
  match papers with
  | [] => mret writeRequests
  | paper :: papers' =>
      match MarshalMap paper with
      | inr _ =>
          log LevelWarn "Failed to marshal paper" ;;
          marshalLoop papers' writeRequests
      | inl item =>
          marshalLoop papers' (writeRequests ++ [mkWriteRequest item])
      end
  end.

Definition processBatch (papers : list Paper) : M S Item (option error) :=
  if len papers =? 0 then mret None
  else if len papers >? MaxBatchSize then
    mret (Some ("batch size " ++ itoa (len papers) ++ " exceeds maximum "
                ++ itoa MaxBatchSize)%string)
  else
    writeRequests ← marshalLoop papers [] ;
    if len writeRequests =? 0 then
      mret (Some "no valid write requests generated from batch")
    else executeBatchWriteWithRetry writeRequests.

(** [papers[i:end]] with [end = min(i + MaxBatchSize, len(papers))]. *)
Definition batchAt (papers : list Paper) (i : Z) : list Paper :=
  let end_ := if i + MaxBatchSize >? len papers then len papers
              else i + MaxBatchSize in
  slice papers (Z.to_nat i) (Z.to_nat end_).

Definition batchEnd (papers : list Paper) (i : Z) : Z :=
  if i + MaxBatchSize >? len papers then len papers else i + MaxBatchSize.

(** The loop of [BatchUpsert],
    [for i := 0; i < len(papers); i += MaxBatchSize]: the first batch that
    fails ends the function with its error. *)
Fixpoint upsertLoop (fuel : nat) (papers : list Paper) (i : Z)
  : M S Item (option error) :=
  if i <? len papers then
    match fuel with
    | O => outOfFuel
    | Datatypes.S fuel' =>
        err ← processBatch (batchAt papers i) ;
        match err with
        | Some e =>
            mret (Some ("failed to process batch " ++ itoa i ++ "-"
                        ++ itoa (batchEnd papers i - 1) ++ ": " ++ e)%string)
        | None =>
            log LevelInfo "Successfully processed batch" ;;
            upsertLoop fuel' papers (i + MaxBatchSize)
        end
    end
  else mret None.

Definition BatchUpsert (papers : list Paper) : M S Item (option error) :=
  if len papers =? 0 then
    log LevelInfo "No papers to upsert" ;; mret None
  else
    log LevelInfo "Starting batch upsert" ;;
    err ← upsertLoop (length papers) papers 0 ;
    match err with
    | Some e => mret (Some e)
    | None => log LevelInfo "Completed batch upsert" ;; mret None
    end.

(** The loop of [BatchUpsertWithStats]: a failed batch is counted and the
    loop goes on. *)
Fixpoint statsLoop (fuel : nat) (papers : list Paper) (i : Z)
    (stats : UpsertStats) : M S Item UpsertStats :=
  if i <? len papers then
    match fuel with
    | O => outOfFuel
    | Datatypes.S fuel' =>
        let batch := batchAt papers i in
        err ← processBatch batch ;
        match err with
        | Some _ =>
            log LevelError "Batch failed" ;;
            statsLoop fuel' papers (i + MaxBatchSize)
              (mkUpsertStats (TotalItems stats) (SuccessItems stats)
                 (FailedItems stats + len batch) (BatchCount stats)
                 (SuccessBatches stats) (FailedBatches stats + 1))
        | None =>
            statsLoop fuel' papers (i + MaxBatchSize)
              (mkUpsertStats (TotalItems stats) (SuccessItems stats + len batch)
                 (FailedItems stats) (BatchCount stats)
                 (SuccessBatches stats + 1) (FailedBatches stats))
        end
    end
  else mret stats.

Definition BatchUpsertWithStats (papers : list Paper)
  : M S Item (option UpsertStats * option error) :=
  let stats := mkUpsertStats (len papers)
                 0 0 (Z.quot (len papers + MaxBatchSize - 1) MaxBatchSize) 0 0 in
  if len papers =? 0 then mret (Some stats, None)
  else
    log LevelInfo "Starting batch upsert with stats tracking" ;;
    stats ← statsLoop (length papers) papers 0 stats ;
    log LevelInfo "Batch upsert completed" ;;
    mret (Some stats, None).

End WithClient.

Arguments Writer : clear implicits.

End Writer.

(** ** vector-coordinator/retriever *)

Module Retriever.
Import DynamoDB Runtime.

(** A research paper record as read from the table. *)
Record Paper : Type := mkPaper {
  PaperID : string;
  Source : string;
  Title : string;
  Abstract : string;
  Authors : list string;
  PublishedDate : string;
  Categories : list string;
  TraceID : string;
  BatchTimestamp : string
}.

(** The combined title and abstract of a paper ([PaperID], [Text]). *)
Record CombinedText : Type := mkCombinedText {
  CombinedText_PaperID : string;
  CombinedText_Text : string
}.

Definition validatePaper (paper : Paper) : option error :=
  if isEmpty (PaperID paper) then Some "paper_id is empty"
  else if isEmpty (TraceID paper) then Some "trace_id is empty"
  else if isEmpty (Title paper) && isEmpty (Abstract paper) then
    Some "both title and abstract are empty"
  else None.

(** [strings.Join(parts, sep)] *)
Fixpoint Join (parts : list string) (sep : string) : string :=
  match parts with
  | [] => ""
  | [p] => p
  | p :: parts' => (p ++ sep ++ Join parts' sep)%string
  end.

(** [maxPages := 100 // Prevent infinite loops] *)
Definition maxPages : Z := 100.

Section WithClient.
Context {S Item : Type}.

(** [dynamodbattribute.UnmarshalListOfMaps] into a [[]Paper]. *)
Variable UnmarshalListOfMaps : list Item -> list Paper + error.
(** [strings.TrimSpace] *)
Variable TrimSpace : string -> string.

Record DataRetriever : Type := mkDataRetriever {
  client : DynamoDBAPI S Item;
  tableName : string;
  indexName : string
}.

Variable r : DataRetriever.

(** [for i, paper := range papers] of the validation of one page. *)
Fixpoint validateLoop (papers validPapers : list Paper)
  : M S Item (list Paper) :=
  match papers with
  | [] => mret validPapers
  | paper :: papers' =>
      match validatePaper paper with
      | Some _ =>
          log LevelWarn "Invalid paper data found" ;;
          validateLoop papers' validPapers
      | None => validateLoop papers' (validPapers ++ [paper])
      end
  end.

(** The page loop, [for pageCount < maxPages { pageCount++ ... }].  It is
    left by a [return] with an error ([inl]), or by [break] or its
    condition with the page count and the papers gathered ([inr]). *)
Fixpoint pageLoop (fuel : nat) (traceID : string) (pageCount : Z)
    (allPapers : list Paper) (lastEvaluatedKey : option Item)
  : M S Item (error + Z * list Paper) :=
  if pageCount <? maxPages then
    match fuel with
    | O => outOfFuel
    | Datatypes.S fuel' =>
        let pageCount := pageCount + 1 in
        let input :=
          mkQueryInput (tableName r) (indexName r) "trace_id = :trace_id"
            traceID false lastEvaluatedKey in
        '(result, err) ← query (client r) input ;
        match err with
        | Some e =>
            log LevelError "Failed to query papers by traceID" ;;
            mret (inl ("failed to query papers by traceID on page "
                       ++ itoa pageCount ++ ": " ++ e)%string)
        | None =>
            result ← deref result ;
            match UnmarshalListOfMaps (Items result) with
            | inr e =>
                log LevelError "Failed to unmarshal papers" ;;
                mret (inl ("failed to unmarshal papers on page "
                           ++ itoa pageCount ++ ": " ++ e)%string)
            | inl papers =>
                validPapers ← validateLoop papers [] ;
                let allPapers := (allPapers ++ validPapers)%list in
                log LevelInfo "Retrieved paper batch" ;;
                match LastEvaluatedKey result with
                | None => mret (inr (pageCount, allPapers))
                | Some key => pageLoop fuel' traceID pageCount allPapers (Some key)
                end
            end
        end
    end
  else mret (inr (pageCount, allPapers)).

(** [for _, paper := range allPapers] of the text combination. *)
Fixpoint combineLoop (allPapers : list Paper) (combinedTexts : list CombinedText)
  : M S Item (list CombinedText) :=
  match allPapers with
  | [] => mret combinedTexts
  | paper :: allPapers' =>
      if isEmpty (Title paper) && isEmpty (Abstract paper) then
        log LevelWarn "Skipping paper with empty title and abstract" ;;
        combineLoop allPapers' combinedTexts
      else
        let textParts := [] in
        let textParts :=
          if negb (isEmpty (Title paper))
          then (textParts ++ [TrimSpace (Title paper)])%list else textParts in
        let textParts :=
          if negb (isEmpty (Abstract paper))
          then (textParts ++ [TrimSpace (Abstract paper)])%list else textParts in
        let combinedText := mkCombinedText (PaperID paper) (Join textParts ". ") in
        combineLoop allPapers' (combinedTexts ++ [combinedText])
  end.

(** A nil slice and an empty slice are both [[]]. *)
Definition GetCombinedTextsByTraceID (traceID : string)
  : M S Item (list CombinedText * option error) :=
  if isEmpty traceID then mret ([], Some "traceID cannot be empty")
  else
    log LevelInfo "Starting paper retrieval by traceID" ;;
    exit ← pageLoop (Z.to_nat maxPages) traceID 0 [] None ;
    match exit with
    | inl e => mret ([], Some e)
    | inr (pageCount, allPapers) =>
        (if pageCount >=? maxPages
         then log LevelWarn "Hit maximum page limit during retrieval"
         else mret tt) ;;
        log LevelInfo "Completed paper retrieval by traceID" ;;
        if len allPapers =? 0 then mret ([], None)
        else
          log LevelInfo "Starting text combination" ;;
          combinedTexts ← combineLoop allPapers [] ;
          log LevelInfo "Completed text combination" ;;
          mret (combinedTexts, None)
    end.

End WithClient.

Arguments DataRetriever : clear implicits.

End Retriever.

(** ** vector-coordinator/storage *)

Module Storage.
Import DynamoDB Runtime.

Record EmbeddingMetadata : Type := mkEmbeddingMetadata {
  ModelName : string;
  ModelVersion : string;
  Dimension : Z;
  TextLength : Z;
  Preprocessing : string
}.

Record SourceText : Type := mkSourceText {
  Content : string;
  SourceFields : list string;
  Language : string
}.

Record ProcessingInfo : Type := mkProcessingInfo {
  CreatedAt : string;
  TraceID : string;
  ProcessingTimeMs : Z
}.

(** The fields [EmbeddingMetadata], [SourceText] and [ProcessingInfo] of
    the Go struct bear the names of their types; they are [Metadata],
    [Source] and [Info] here. *)
Record VectorRecord : Type := mkVectorRecord {
  PaperID : string;
  VectorType : string;
  Embedding : list PrimFloat.float;
  Metadata : EmbeddingMetadata;
  Source : SourceText;
  Info : ProcessingInfo
}.

(** The results of a batch write operation. *)
Record BatchWriteResult : Type := mkBatchWriteResult {
  SuccessCount : Z;
  FailedItems : list VectorRecord;
  Errors : list error
}.

Definition extractModelName (modelVersion : string) : string := modelVersion.

(** [for i, val := range record.Embedding { if val != val { ... } }]: the
    index of the first NaN. *)
Fixpoint firstNaN (i : Z) (embedding : list PrimFloat.float) : option Z :=
  match embedding with
  | [] => None
  | val :: embedding' =>
      if negb (PrimFloat.eqb val val) then Some i else firstNaN (i + 1) embedding'
  end.

Definition validateVectorRecord (record : VectorRecord) : option error :=
  if isEmpty (PaperID record) then Some "paper_id is empty"
  else if isEmpty (VectorType record) then Some "vector_type is empty"
  else if len (Embedding record) =? 0 then Some "embedding vector is empty"
  else if negb (Dimension (Metadata record) =? len (Embedding record)) then
    Some ("dimension mismatch: metadata says " ++ itoa (Dimension (Metadata record))
          ++ ", embedding has " ++ itoa (len (Embedding record)))%string
  else if isEmpty (ModelVersion (Metadata record)) then Some "model_version is empty"
  else if isEmpty (TraceID (Info record)) then Some "trace_id is empty"
  else match firstNaN 0 (Embedding record) with
       | Some i => Some ("embedding contains NaN at index " ++ itoa i)%string
       | None => None
       end.

(** The loop that maps the unprocessed count back to records,
    [for i := 0; i < unprocessedCount && startIndex+i < len(validRecords); i++]. *)
Fixpoint unprocessedLoop (fuel : nat) (i unprocessedCount startIndex : Z)
    (validRecords failedItems : list VectorRecord) : Result (list VectorRecord) :=
  if (i <? unprocessedCount) && (startIndex + i <? len validRecords) then
    match fuel with
    | O => OutOfFuel
    | Datatypes.S fuel' =>
        match index validRecords (startIndex + i) with
        | Ret record =>
            unprocessedLoop fuel' (i + 1) unprocessedCount startIndex validRecords
              (failedItems ++ [record])
        | Panic reason => Panic reason
        | OutOfFuel => OutOfFuel
        end
    end
  else Ret failedItems.

Definition batchSize : Z := 25.

(** [records[i:end]] with [end = min(i + batchSize, len(records))]. *)
Definition batchAt (records : list VectorRecord) (i : Z) : list VectorRecord :=
  let end_ := if i + batchSize >? len records then len records
              else i + batchSize in
  slice records (Z.to_nat i) (Z.to_nat end_).

Section WithClient.
Context {S Item : Type}.

(** [dynamodbattribute.MarshalMap] on a [VectorRecord]. *)
Variable MarshalMap : VectorRecord -> Item + error.
(** [time.Now()] in milliseconds, and [Format(time.RFC3339)]. *)
Variable clock : S -> Z.
Variable RFC3339 : Z -> string.

Record VectorStorage : Type := mkVectorStorage {
  client : DynamoDBAPI S Item;
  tableName : string
}.

Definition CreateVectorRecord (paperID text traceID : string)
    (embedding : list PrimFloat.float) (modelVersion : string)
    (processingTimeMs : Z) : M S Item VectorRecord :=
  now ← ask (fun s => RFC3339 (clock s)) ;
  mret (mkVectorRecord paperID "title_abstract" embedding
          (mkEmbeddingMetadata (extractModelName modelVersion) modelVersion
             (len embedding) (Z.of_nat (String.length text))
             "title_abstract_combination")
          (mkSourceText text ["title"; "abstract"] "en")
          (mkProcessingInfo now traceID processingTimeMs)).

Variable s : VectorStorage.

(** [for i, record := range records] of [processBatch]: an invalid record
    goes to the failed items. *)
Fixpoint validateLoop (records : list VectorRecord) (result : BatchWriteResult)
    (validRecords : list VectorRecord)
  : M S Item (BatchWriteResult * list VectorRecord) :=
  match records with
  | [] => mret (result, validRecords)
  | record :: records' =>
      match validateVectorRecord record with
      | Some e =>
          log LevelWarn "Invalid vector record found" ;;
          validateLoop records'
            (mkBatchWriteResult (SuccessCount result)
               (FailedItems result ++ [record])
               (Errors result
                ++ [("invalid record " ++ PaperID record ++ ": " ++ e)%string]))
            validRecords
      | None => validateLoop records' result (validRecords ++ [record])
      end
  end.

(** [for _, record := range validRecords] of [processBatch]. *)
Fixpoint marshalLoop (validRecords : list VectorRecord) (result : BatchWriteResult)
    (writeRequests : list (WriteRequest Item))
  : M S Item (BatchWriteResult * list (WriteRequest Item)) :=
  match validRecords with
  | [] => mret (result, writeRequests)
  | record :: validRecords' =>
      match MarshalMap record with
      | inr e =>
          log LevelError "Failed to marshal record in batch" ;;
          marshalLoop validRecords'
            (mkBatchWriteResult (SuccessCount result)
               (FailedItems result ++ [record])
               (Errors result
                ++ [("failed to marshal record " ++ PaperID record ++ ": " ++ e)%string]))
            writeRequests
      | inl item =>
          marshalLoop validRecords' result (writeRequests ++ [mkWriteRequest item])
      end
  end.

(** [processBatch] processes a single batch of vector records. *)
Definition processBatch (records : list VectorRecord)
  : M S Item (option BatchWriteResult * option error) :=
  let result := mkBatchWriteResult 0 [] [] in
  '(result, validRecords) ← validateLoop records result [] ;
  if len validRecords =? 0 then
    log LevelWarn "No valid records to process in batch" ;;
    mret (Some result, None)
  else
    '(result, writeRequests) ← marshalLoop validRecords result [] ;
    if len writeRequests =? 0 then
      log LevelWarn "No valid write requests to process" ;;
      mret (Some result, None)
    else
      let input := mkBatchWriteItemInput {[ tableName s := writeRequests ]} in
      '(output, err) ← batchWriteItem (client s) input ;
      (** [contextLogger.Debug(..., "consumed_capacity": output.ConsumedCapacity)]
          reads through [output] before [err] is looked at. *)
      output ← deref output ;
      match err with
      | Some e =>
          log LevelError "Batch write failed" ;;
          mret (Some (mkBatchWriteResult (SuccessCount result)
                        (FailedItems result ++ validRecords)
                        (Errors result ++ [("batch write failed: " ++ e)%string])),
                None)
      | None =>
          let totalRequested := len writeRequests in
          let unprocessedCount :=
            match UnprocessedItems output !! tableName s with
            | Some unprocessedItems => len unprocessedItems
            | None => 0
            end in
          let result :=
            mkBatchWriteResult (totalRequested - unprocessedCount)
              (FailedItems result) (Errors result) in
          result ←
            (if unprocessedCount >? 0 then
               log LevelWarn "Some items were not processed" ;;
               let startIndex := SuccessCount result in
               failedItems ←
                 lift (unprocessedLoop (Z.to_nat unprocessedCount) 0
                         unprocessedCount startIndex validRecords
                         (FailedItems result)) ;
               mret (mkBatchWriteResult (SuccessCount result) failedItems
                       (Errors result))
             else mret result) ;
          log LevelInfo "Batch write completed" ;;
          mret (Some result, None)
      end.

(** The loop of [BatchStoreVectors],
    [for i := 0; i < len(records); i += batchSize]. *)
Fixpoint storeLoop (fuel : nat) (records : list VectorRecord) (i : Z)
    (result : BatchWriteResult) : M S Item BatchWriteResult :=
  if i <? len records then
    match fuel with
    | O => outOfFuel
    | Datatypes.S fuel' =>
        let batch := batchAt records i in
        '(batchResult, err) ← processBatch batch ;
        match err with
        | Some e =>
            log LevelError "Batch processing failed" ;;
            storeLoop fuel' records (i + batchSize)
              (mkBatchWriteResult (SuccessCount result)
                 (FailedItems result ++ batch) (Errors result ++ [e]))
        | None =>
            batchResult ← deref batchResult ;
            storeLoop fuel' records (i + batchSize)
              (mkBatchWriteResult
                 (SuccessCount result + SuccessCount batchResult)
                 (FailedItems result ++ FailedItems batchResult)
                 (Errors result ++ Errors batchResult))
        end
    end
  else mret result.

(** [BatchStoreVectors] stores multiple vector records in batches. *)
Definition BatchStoreVectors (records : list VectorRecord)
  : M S Item (option BatchWriteResult * option error) :=
  if len records =? 0 then mret (Some (mkBatchWriteResult 0 [] []), None)
  else
    log LevelInfo "Starting batch vector storage" ;;
    result ← storeLoop (length records) records 0 (mkBatchWriteResult 0 [] []) ;
    log LevelInfo "Completed batch vector storage" ;;
    mret (Some result, None).

End WithClient.

Arguments VectorStorage : clear implicits.

End Storage.

(** ** vector-coordinator/main *)

Module Coordinator.
Import DynamoDB Client Runtime.
Import Retriever(CombinedText, CombinedText_PaperID, CombinedText_Text).
Import Storage(VectorRecord, BatchWriteResult, SuccessCount, FailedItems, Errors).

Record StepFunctionInput : Type := mkStepFunctionInput { Input_TraceID : string }.

(** The status of vectorization processing. *)
Inductive ProcessingStatus : Type :=
| StatusStarted | StatusInProgress | StatusCompleted | StatusFailed | StatusPartial.

#[global] Instance ProcessingStatus_eq_dec : EqDecision ProcessingStatus.
Proof. solve_decision. Defined.

(** The result of vectorization processing. *)
Record ProcessingResult : Type := mkProcessingResult {
  TraceID : string;
  Status : ProcessingStatus;
  TotalPapers : Z;
  EmbeddingsGenerated : Z;
  VectorsStored : Z;
  FailedEmbeddings : Z;
  FailedStorage : Z;
  ProcessingTimeMs : Z;
  ErrorMessage : string;
  Timestamp : string
}.

(** Assignments to the fields of [result]. *)
Definition setStatus (st : ProcessingStatus) (r : ProcessingResult) :=
  mkProcessingResult (TraceID r) st (TotalPapers r) (EmbeddingsGenerated r)
    (VectorsStored r) (FailedEmbeddings r) (FailedStorage r) (ProcessingTimeMs r)
    (ErrorMessage r) (Timestamp r).
Definition setTotalPapers (n : Z) (r : ProcessingResult) :=
  mkProcessingResult (TraceID r) (Status r) n (EmbeddingsGenerated r)
    (VectorsStored r) (FailedEmbeddings r) (FailedStorage r) (ProcessingTimeMs r)
    (ErrorMessage r) (Timestamp r).
Definition setEmbeddingsGenerated (n : Z) (r : ProcessingResult) :=
  mkProcessingResult (TraceID r) (Status r) (TotalPapers r) n
    (VectorsStored r) (FailedEmbeddings r) (FailedStorage r) (ProcessingTimeMs r)
    (ErrorMessage r) (Timestamp r).
Definition setVectorsStored (n : Z) (r : ProcessingResult) :=
  mkProcessingResult (TraceID r) (Status r) (TotalPapers r) (EmbeddingsGenerated r)
    n (FailedEmbeddings r) (FailedStorage r) (ProcessingTimeMs r)
    (ErrorMessage r) (Timestamp r).
Definition setFailedEmbeddings (n : Z) (r : ProcessingResult) :=
  mkProcessingResult (TraceID r) (Status r) (TotalPapers r) (EmbeddingsGenerated r)
    (VectorsStored r) n (FailedStorage r) (ProcessingTimeMs r)
    (ErrorMessage r) (Timestamp r).
Definition setFailedStorage (n : Z) (r : ProcessingResult) :=
  mkProcessingResult (TraceID r) (Status r) (TotalPapers r) (EmbeddingsGenerated r)
    (VectorsStored r) (FailedEmbeddings r) n (ProcessingTimeMs r)
    (ErrorMessage r) (Timestamp r).
Definition setProcessingTimeMs (n : Z) (r : ProcessingResult) :=
  mkProcessingResult (TraceID r) (Status r) (TotalPapers r) (EmbeddingsGenerated r)
    (VectorsStored r) (FailedEmbeddings r) (FailedStorage r) n
    (ErrorMessage r) (Timestamp r).
Definition setErrorMessage (m : string) (r : ProcessingResult) :=
  mkProcessingResult (TraceID r) (Status r) (TotalPapers r) (EmbeddingsGenerated r)
    (VectorsStored r) (FailedEmbeddings r) (FailedStorage r) (ProcessingTimeMs r)
    m (Timestamp r).

(** A structured error with context. *)
Record ProcessingError : Type := mkProcessingError {
  Stage : string;
  Message : string;
  Cause : option error
}.

(** [func (e *ProcessingError) Error() string] *)
Definition Error (e : ProcessingError) : string :=
  match Cause e with
  | Some cause =>
      (Stage e ++ ": " ++ Message e ++ " (caused by: " ++ cause ++ ")")%string
  | None => (Stage e ++ ": " ++ Message e)%string
  end.

Section WithCollaborators.
Context {S Item : Type}.

Variable clock : S -> Z.
Variable RFC3339 : Z -> string.

(** The three interfaces of the coordinator, [DataRetrieverInterface],
    [VectorAPIClientInterface] and [VectorStorageInterface]. *)
Record VectorCoordinator : Type := mkVectorCoordinator {
  retriever : string -> M S Item (list CombinedText * option error);
  apiClient : string -> M S Item (option EmbeddingResponse * option error);
  vectorStorage :
    list VectorRecord -> M S Item (option BatchWriteResult * option error)
}.

(** [time.Since(t).Milliseconds()] *)
Definition since (t : Z) : M S Item Z := ask (fun s => clock s - t).

(** [logSystemMetrics] logs system-level metrics for monitoring. *)
Definition logSystemMetrics (result : ProcessingResult) : M S Item unit :=
  log LevelInfo "Processing metrics" ;;
  (if TotalPapers result >? 0
   then log LevelInfo "Embedding success rate" else mret tt) ;;
  (if EmbeddingsGenerated result >? 0
   then log LevelInfo "Storage success rate" else mret tt) ;;
  (if TotalPapers result >? 0
   then log LevelInfo "Overall success rate" else mret tt) ;;
  (if ProcessingTimeMs result >? 0
   then log LevelInfo "Processing throughput" else mret tt).

Variable vc : VectorCoordinator.

(** [for i, combinedText := range combinedTexts] of
    [processVectorization]; [total] is [len(combinedTexts)]. *)
Fixpoint embeddingLoop (traceID : string) (total : Z)
    (combinedTexts : list CombinedText) (i : Z)
    (vectorRecords : list VectorRecord) (embeddingErrors : list ProcessingError)
    (result : ProcessingResult)
  : M S Item (list VectorRecord * list ProcessingError * ProcessingResult) :=
  match combinedTexts with
  | [] => mret (vectorRecords, embeddingErrors, result)
  | combinedText :: combinedTexts' =>
      embeddingStartTime ← ask clock ;
      (if (Z.rem (i + 1) 10 =? 0) || (i =? total - 1)
       then log LevelInfo "Embedding generation progress" else mret tt) ;;
      '(embeddingResponse, err) ← apiClient vc (CombinedText_Text combinedText) ;
      match err with
      | Some e =>
          let embeddingErr :=
            mkProcessingError "embedding_generation"
              ("failed to generate embedding for paper "
               ++ CombinedText_PaperID combinedText)%string
              (Some e) in
          let result := setFailedEmbeddings (FailedEmbeddings result + 1) result in
          log LevelError "Failed to generate embedding" ;;
          embeddingLoop traceID total combinedTexts' (i + 1) vectorRecords
            (embeddingErrors ++ [embeddingErr]) result
      | None =>
          processingTimeMs ← since embeddingStartTime ;
          embeddingResponse ← deref embeddingResponse ;
          vectorRecord ←
            Storage.CreateVectorRecord clock RFC3339
              (CombinedText_PaperID combinedText)
              (CombinedText_Text combinedText) traceID
              (Embedding embeddingResponse) (ModelVersion embeddingResponse)
              processingTimeMs ;
          let result :=
            setEmbeddingsGenerated (EmbeddingsGenerated result + 1) result in
          embeddingLoop traceID total combinedTexts' (i + 1)
            (vectorRecords ++ [vectorRecord]) embeddingErrors result
      end
  end.

(** [for i, storageErr := range batchResult.Errors] *)
Fixpoint storageErrorLoop (errors : list error) : M S Item unit :=
  match errors with
  | [] => mret tt
  | _ :: errors' => log LevelError "Storage error detail" ;; storageErrorLoop errors'
  end.

Definition processVectorization (traceID : string)
  : M S Item (option ProcessingResult * option ProcessingError) :=
  startTime ← ask clock ;
  timestamp ← ask (fun s => RFC3339 (clock s)) ;
  let result := mkProcessingResult traceID StatusStarted 0 0 0 0 0 0 "" timestamp in
  log LevelInfo "Starting vectorization processing" ;;
  (* Validate input *)
  if isEmpty traceID then
    let err := mkProcessingError "validation" "traceID cannot be empty" None in
    let result := setStatus StatusFailed result in
    let result := setErrorMessage (Error err) result in
    log LevelError "Input validation failed" ;;
    mret (Some result, Some err)
  else
    let result := setStatus StatusInProgress result in
    log LevelInfo "Retrieving papers for vectorization" ;;
    (* Retrieve papers and combine text *)
    '(combinedTexts, err) ← retriever vc traceID ;
    match err with
    | Some e =>
        let processingErr :=
          mkProcessingError "data_retrieval"
            "failed to retrieve papers for vectorization" (Some e) in
        let result := setStatus StatusFailed result in
        let result := setErrorMessage (Error processingErr) result in
        elapsed ← since startTime ;
        let result := setProcessingTimeMs elapsed result in
        log LevelError "Failed to retrieve and combine texts" ;;
        mret (Some result, Some processingErr)
    | None =>
        let result := setTotalPapers (len combinedTexts) result in
        log LevelInfo "Retrieved papers for vectorization" ;;
        (* Handle case where no papers are found *)
        if TotalPapers result =? 0 then
          let result := setStatus StatusCompleted result in
          elapsed ← since startTime ;
          let result := setProcessingTimeMs elapsed result in
          log LevelInfo "No papers found for vectorization - processing completed" ;;
          mret (Some result, None)
        else
          log LevelInfo "Starting embedding generation" ;;
          '(vectorRecords, embeddingErrors, result) ←
            embeddingLoop traceID (len combinedTexts) combinedTexts 0 [] [] result ;
          log LevelInfo "Completed embedding generation" ;;
          (* Check if we have any embeddings to store *)
          if len vectorRecords =? 0 then
            let processingErr :=
              mkProcessingError "embedding_generation"
                "no embeddings were generated successfully" None in
            let result := setStatus StatusFailed result in
            let result := setErrorMessage (Error processingErr) result in
            elapsed ← since startTime ;
            let result := setProcessingTimeMs elapsed result in
            log LevelError "No embeddings generated" ;;
            mret (Some result, Some processingErr)
          else
            (* Store vector records in batch *)
            log LevelInfo "Starting vector storage" ;;
            '(batchResult, err) ← vectorStorage vc vectorRecords ;
            match err with
            | Some e =>
                let processingErr :=
                  mkProcessingError "vector_storage"
                    "failed to store vector records" (Some e) in
                let result := setStatus StatusFailed result in
                let result := setErrorMessage (Error processingErr) result in
                elapsed ← since startTime ;
                let result := setProcessingTimeMs elapsed result in
                log LevelError "Failed to store vector records" ;;
                mret (Some result, Some processingErr)
            | None =>
                (* Update result with storage statistics *)
                batchResult ← deref batchResult ;
                let result := setVectorsStored (SuccessCount batchResult) result in
                let result := setFailedStorage (len (FailedItems batchResult)) result in
                elapsed ← since startTime ;
                let result := setProcessingTimeMs elapsed result in
                (* Determine final status based on success/failure rates *)
                let result :=
                  if (FailedEmbeddings result =? 0) && (FailedStorage result =? 0)
                  then setStatus StatusCompleted result
                  else if VectorsStored result >? 0
                  then setStatus StatusPartial result
                  else setErrorMessage "all vectorization operations failed"
                         (setStatus StatusFailed result) in
                log LevelInfo "Vectorization processing completed" ;;
                (if FailedEmbeddings result >? 0
                 then log LevelWarn "Some embeddings failed to generate"
                 else mret tt) ;;
                (if FailedStorage result >? 0
                 then log LevelWarn "Some vector records failed to store" ;;
                      storageErrorLoop (Errors batchResult)
                 else mret tt) ;;
                logSystemMetrics result ;;
                (* Return error for failures and for partial failures *)
                if decide (Status result = StatusFailed) then
                  mret (Some result,
                        Some (mkProcessingError "overall_processing"
                                ("vectorization failed for traceID " ++ traceID
                                 ++ ": " ++ ErrorMessage result)%string None))
                else if decide (Status result = StatusPartial) then
                  mret (Some result,
                        Some (mkProcessingError "partial_processing"
                                ("partial vectorization failure for traceID "
                                 ++ traceID ++ ": " ++ itoa (VectorsStored result)
                                 ++ "/" ++ itoa (TotalPapers result)
                                 ++ " papers processed successfully")%string None))
                else mret (Some result, None)
            end
    end.

End WithCollaborators.

Arguments VectorCoordinator : clear implicits.

Section Deployment.
Context {S Item : Type}.

(** What the components built by [handleStepFunction] talk to: the table
    store behind [dynamodb.New(sess)], the embedding service, the clock,
    the marshalling library; and the names read from the environment. *)
Variable store : DynamoDBAPI S Item.
Variable embeddingAPI : EmbeddingAPI S.
Variable clock : S -> Z.
Variable RFC3339 : Z -> string.
Variable UnmarshalListOfMaps : list Item -> list Retriever.Paper + error.
Variable TrimSpace : string -> string.
Variable MarshalMap : VectorRecord -> Item + error.
Variables papersTableName indexName vectorsTableName : string.

Definition coordinator : VectorCoordinator S Item :=
  mkVectorCoordinator
    (Retriever.GetCombinedTextsByTraceID UnmarshalListOfMaps TrimSpace
       (Retriever.mkDataRetriever store papersTableName indexName))
    (generateEmbedding embeddingAPI)
    (Storage.BatchStoreVectors MarshalMap
       (Storage.mkVectorStorage store vectorsTableName)).

Definition handleStepFunction (input : StepFunctionInput)
  : M S Item (option ProcessingResult * option ProcessingError) :=
  '(result, err) ← processVectorization clock RFC3339 coordinator
                      (Input_TraceID input) ;
  match err with
  | Some e => mret (result, Some e)
  | None => mret (result, None)
  end.

End Deployment.

End Coordinator.

(** ** Auxiliary definitions for the statements *)

Module Spec.
Import DynamoDB Client Runtime.

Section World.
Context {S Item : Type}.

(** The world after some more log entries. *)
Definition addLogs (w : World S Item) (entries : list LogEntry) : World S Item :=
  mkWorld (ext w) (calls w) (logs w ++ entries).

(** The world after one more call, which moved the external state to [s]. *)
Definition addCall (w : World S Item) (s : S) (c : Call Item) : World S Item :=
  mkWorld s (calls w ++ [c]) (logs w).

(** The calls made between two worlds. *)
Definition callsBetween (w w' : World S Item) (tr : list (Call Item)) : Prop :=
  calls w' = (calls w ++ tr)%list.

(** The log entries written between two worlds. *)
Definition logsBetween (w w' : World S Item) (entries : list LogEntry) : Prop :=
  logs w' = (logs w ++ entries)%list.

(** The store wrote everything of a batch: no error, nothing unprocessed
    for the table. *)
Definition wroteAll (table : string)
    (r : option (BatchWriteItemOutput Item) * option error) : Prop :=
  exists output, r = (Some output, None)
    /\ len (default [] (UnprocessedItems output !! table)) = 0.

(** A store that writes everything, whatever it is asked and whenever. *)
Definition alwaysWritesAll (client : DynamoDBAPI S Item) (table : string) : Prop :=
  forall input s, wroteAll table (fst (BatchWriteItemWithContext client input s)).

(** A store whose every query answers with a page and a next cursor. *)
Definition alwaysHasNextPage (client : DynamoDBAPI S Item) : Prop :=
  forall input s, exists items key s',
    QueryWithContext client input s
    = ((Some (mkQueryOutput items (Some key)), None), s').

(** An answer to a batch write of [requested] items that a store can give
    under its contract: an output comes with it, and the items it leaves
    unprocessed are among the requested ones. *)
Definition answersWithinRequest (table : string) (requested : Z)
    (r : option (BatchWriteItemOutput Item) * option error) : Prop :=
  exists output, fst r = Some output
    /\ (snd r = None ->
        len (default [] (UnprocessedItems output !! table)) <= requested).

Definition respectsRequests (client : DynamoDBAPI S Item) (table : string) : Prop :=
  forall input s,
    answersWithinRequest table (len (default [] (RequestItems input !! table)))
      (fst (BatchWriteItemWithContext client input s)).

End World.

(** The sizes of the consecutive chunks of at most [c] items of a list of
    [n] items. *)
Fixpoint chunkSizesFrom (fuel : nat) (c n : nat) : list nat :=
  match fuel with
  | O => []
  | Datatypes.S fuel' =>
      if (n =? 0)%nat then [] else Nat.min c n :: chunkSizesFrom fuel' c (n - c)
  end.

Definition chunkSizes (c n : nat) : list nat := chunkSizesFrom n c n.

(** The ceiling of [n / c]. *)
Definition ceilDiv (n c : Z) : Z := (n + c - 1) / c.

End Spec.

Module StorageSpec.
Import DynamoDB Runtime Storage.

Section Marshalling.
Context {Item : Type}.
Variable MarshalMap : VectorRecord -> Item + error.

(** The records of a batch that pass, respectively fail, the validation. *)
Definition validOf (records : list VectorRecord) : list VectorRecord :=
  filter (fun r => validateVectorRecord r = None) records.

Definition invalidOf (records : list VectorRecord) : list VectorRecord :=
  filter (fun r => validateVectorRecord r <> None) records.

Definition marshals (r : VectorRecord) : bool :=
  match MarshalMap r with inl _ => true | inr _ => false end.

(** The write requests of the records that marshal, and the records that
    do not. *)
Definition requestsOf (records : list VectorRecord) : list (WriteRequest Item) :=
  omap (fun r => match MarshalMap r with
                 | inl item => Some (mkWriteRequest item)
                 | inr _ => None
                 end) records.

Definition unmarshalledOf (records : list VectorRecord) : list VectorRecord :=
  filter (fun r => marshals r = false) records.

End Marshalling.

(** The errors [processBatch] reports for the records that fail the
    validation, in the order of the records. *)
Definition validationErrors (records : list VectorRecord) : list error :=
  omap (fun r => match validateVectorRecord r with
                 | Some e => Some ("invalid record " ++ PaperID r ++ ": " ++ e)%string
                 | None => None
                 end) records.

(** [val != val] holds of no value of the embedding. *)
Definition noNaN (embedding : list PrimFloat.float) : Prop :=
  Forall (fun val => PrimFloat.eqb val val = true) embedding.

End StorageSpec.

Module WriterSpec.
Import DynamoDB Runtime Processor.

Section Marshalling.
Context {Item : Type}.
Variable MarshalMap : Paper -> Item + error.

Definition marshals (p : Paper) : bool :=
  match MarshalMap p with inl _ => true | inr _ => false end.

(** The write requests of the papers that marshal. *)
Definition requestsOf (papers : list Paper) : list (WriteRequest Item) :=
  omap (fun p => match MarshalMap p with
                 | inl item => Some (mkWriteRequest item)
                 | inr _ => None
                 end) papers.

End Marshalling.

Section Retry.
Context {Item : Type}.

(** The items a batch-write answer reports unprocessed for the table. *)
Definition unprocessedOf (table : string) (output : BatchWriteItemOutput Item)
  : list (WriteRequest Item) :=
  default [] (UnprocessedItems output !! table).

(** A chain of batch writes: the first carries [requests]; each later
    one follows an answer without error that reported unprocessed items,
    and carries exactly those. *)
Fixpoint retryChain (table : string) (requests : list (WriteRequest Item))
    (tr : list (Call Item)) : Prop :=
  match tr with
  | [] => True
  | CallBatchWrite input output err :: rest =>
      RequestItems input = {[ table := requests ]}
      /\ match rest with
         | [] => True
         | _ :: _ =>
             exists out, output = Some out /\ err = None
               /\ 0 < len (unprocessedOf table out)
               /\ retryChain table (unprocessedOf table out) rest
         end
  | _ :: _ => False
  end.

(** The re-submissions among the calls of one [executeBatchWriteWithRetry]:
    all its batch writes but the first. *)
Definition retryPasses (table : string) (tr : list (Call Item)) : nat :=
  (length (batchWrites table tr) - 1)%nat.

End Retry.

End WriterSpec.

Module RetrieverSpec.
Import DynamoDB Runtime Retriever.

(** The papers of a page that pass the validation. *)
Definition validOf (papers : list Paper) : list Paper :=
  filter (fun p => validatePaper p = None) papers.

Section Projection.
Context {Item : Type}.
Variable UnmarshalListOfMaps : list Item -> list Paper + error.
Variable TrimSpace : string -> string.

(** The combined text of one paper, if it has a title or an abstract. *)
Definition combineOne (paper : Paper) : option CombinedText :=
  if isEmpty (Title paper) && isEmpty (Abstract paper) then None
  else
    Some (mkCombinedText (PaperID paper)
            (Join ((if negb (isEmpty (Title paper))
                    then [TrimSpace (Title paper)] else [])
                   ++ (if negb (isEmpty (Abstract paper))
                       then [TrimSpace (Abstract paper)] else []))
               ". ")).

Definition combineOf (papers : list Paper) : list CombinedText :=
  omap combineOne papers.

(** The valid papers of a retrieved page. *)
Definition pagePapers (page : QueryOutput Item) : list Paper :=
  match UnmarshalListOfMaps (Items page) with
  | inl papers => validOf papers
  | inr _ => []
  end.

(** The valid papers of the retrieved pages, in order. *)
Definition papersOf (retrieved : list (QueryOutput Item)) : list Paper :=
  concat (map pagePapers retrieved).

End Projection.

(** The entries of a log at the error level. *)
Definition errorEntries (entries : list LogEntry) : list LogEntry :=
  filter (fun e => Level e = LevelError) entries.

Section Cursor.
Context {Item : Type}.

(** A chain of page queries for one trace id: every call is a query of
    the index of the table for the trace id, newest first; the first
    starts at [key], and each later one follows an answer without error
    that carried a cursor, and starts at that cursor. *)
Fixpoint cursorChain (table index traceID : string) (key : option Item)
    (tr : list (Call Item)) : Prop :=
  match tr with
  | [] => True
  | CallQuery input output err :: rest =>
      input = mkQueryInput table index "trace_id = :trace_id" traceID false key
      /\ match rest with
         | [] => True
         | _ :: _ =>
             exists out cursor, output = Some out /\ err = None
               /\ LastEvaluatedKey out = Some cursor
               /\ cursorChain table index traceID (Some cursor) rest
         end
  | _ :: _ => False
  end.

End Cursor.

Section Outcome.
Context {Item : Type}.
Variable UnmarshalListOfMaps : list Item -> list Paper + error.

(** How the page loop is left when it was entered at the page count
    [pageCount] with the papers [allPapers] and made the calls [tr]: by
    [break] or its condition, with the valid papers of the pages added;
    by the [return] of an error, of the query or of the unmarshalling of
    the last page; by a panic on a nil output. *)
Definition pageLoopOutcome (pageCount : Z) (allPapers : list Paper)
    (tr : list (Call Item)) (res : Result (error + Z * list Paper)) : Prop :=
  match res with
  | Ret (inr (pageCount', allPapers')) =>
      pageCount' = pageCount + Z.of_nat (length tr)
      /\ allPapers' = (allPapers ++ papersOf UnmarshalListOfMaps (pages tr))%list
      /\ length (pages tr) = length tr
  | Ret (inl e) =>
      exists input output err,
        last tr = Some (CallQuery input output err)
        /\ ((exists e0,
               err = Some e0
               /\ e = ("failed to query papers by traceID on page "
                       ++ itoa (pageCount + Z.of_nat (length tr)) ++ ": "
                       ++ e0)%string)
            \/ (exists out e0,
                  err = None /\ output = Some out
                  /\ UnmarshalListOfMaps (Items out) = inr e0
                  /\ e = ("failed to unmarshal papers on page "
                          ++ itoa (pageCount + Z.of_nat (length tr)) ++ ": "
                          ++ e0)%string))
  | Panic _ => exists input, last tr = Some (CallQuery input None None)
  | OutOfFuel => False
  end.

End Outcome.

End RetrieverSpec.

Module CoordinatorSpec.
Import Coordinator.

(** The errors [processVectorization] returns. *)
Definition validationError : ProcessingError :=
  mkProcessingError "validation" "traceID cannot be empty" None.

Definition retrievalError (cause : error) : ProcessingError :=
  mkProcessingError "data_retrieval"
    "failed to retrieve papers for vectorization" (Some cause).

Definition noEmbeddingsError : ProcessingError :=
  mkProcessingError "embedding_generation"
    "no embeddings were generated successfully" None.

Definition storageError (cause : error) : ProcessingError :=
  mkProcessingError "vector_storage" "failed to store vector records" (Some cause).

Definition overallError (traceID : string) : ProcessingError :=
  mkProcessingError "overall_processing"
    ("vectorization failed for traceID " ++ traceID
     ++ ": all vectorization operations failed")%string None.

Definition partialError (traceID : string) (stored total : Z) : ProcessingError :=
  mkProcessingError "partial_processing"
    ("partial vectorization failure for traceID " ++ traceID ++ ": "
     ++ itoa stored ++ "/" ++ itoa total ++ " papers processed successfully")%string
    None.

(** The final classification of an invocation that stored its vectors,
    with the error that goes with each status. *)
Definition classified (traceID : string) (res : ProcessingResult)
    (err : option ProcessingError) : Prop :=
  (Status res = StatusCompleted
   /\ FailedEmbeddings res = 0 /\ FailedStorage res = 0 /\ err = None)
  \/ (Status res = StatusPartial
      /\ ~ (FailedEmbeddings res = 0 /\ FailedStorage res = 0)
      /\ 0 < VectorsStored res
      /\ err = Some (partialError traceID (VectorsStored res) (TotalPapers res)))
  \/ (Status res = StatusFailed
      /\ ~ (FailedEmbeddings res = 0 /\ FailedStorage res = 0)
      /\ VectorsStored res <= 0
      /\ err = Some (overallError traceID)).

End CoordinatorSpec.

(** ** Proof steps shared by the properties *)

Module Tactics.

(** The facts about the trace of a retry loop that made one call, whose
    requests the hypothesis [H] gives. *)
Ltac single H :=
  split; [done|]; split; [simpl; lia|];
  split; [simpl; unfold Writer.maxRetries in *; lia|];
  split; [done|]; split; [by rewrite H|].

End Tactics.

(** ** Concrete stores, services and inputs

    The inputs of the tests of the repository, for the examples: a marshalled
    item is stood for by the key of its record, and the state of the
    external collaborators is the number of calls they have answered. *)

Module Fixtures.
Import DynamoDB Client Runtime.
Import PrimFloat.

Definition Item : Type := string.

Definition world0 : World nat Item := mkWorld 0%nat [] [].

Definition clock (s : nat) : Z := 1000 + Z.of_nat s.
Definition RFC3339 (t : Z) : string := "2024-01-01T00:00:00Z".
Definition TrimSpace (s : string) : string := s.

(** *** The ingestion stage *)

Definition paper (id title : string) : Processor.Paper :=
  Processor.mkPaper id "arxiv" title "Test abstract" ["A"] "2023-01-01"
    ["cs.AI"] "" "" "" "" "" "".

(** Three records with one key: positions 0, 1 and 2. *)
Definition sameKeyPapers : list Processor.Paper :=
  [paper "paper-1" "first"; paper "paper-1" "second"; paper "paper-1" "third"].

(** The records of TestDeduplicator_DeduplicateWithStats_Success. *)
Definition statsPapers : list Processor.Paper :=
  [paper "paper-1" "Paper 1"; paper "paper-2" "Paper 2";
   paper "paper-1" "Paper 1 Duplicate"; paper "" "Invalid paper";
   paper "paper-3" "Paper 3"].

Definition marshalPaper (p : Processor.Paper) : Item + error :=
  inl (Processor.PaperID p).

(** The 30 papers of TestWriter_BatchUpsert_LargeBatch. *)
Definition thirtyPapers : list Processor.Paper :=
  map (fun i => paper ("paper-" ++ itoa (Z.of_nat i)) "Test Paper") (seq 1 30).

(** A store that writes every item of every batch. *)
Definition writingStore : DynamoDBAPI nat Item :=
  mkDynamoDBAPI
    (fun _ s => ((Some (mkQueryOutput [] None), None), Datatypes.S s))
    (fun _ s => ((Some (mkBatchWriteItemOutput ∅), None), Datatypes.S s)).

(** A store that leaves the last item of every batch unprocessed. *)
Definition throttlingStore (table : string) : DynamoDBAPI nat Item :=
  mkDynamoDBAPI
    (fun _ s => ((Some (mkQueryOutput [] None), None), Datatypes.S s))
    (fun input s =>
       let requests := default [] (RequestItems input !! table) in
       ((Some (mkBatchWriteItemOutput
                 {[ table := drop (length requests - 1) requests ]}), None),
        Datatypes.S s)).

Definition writer : Writer.Writer nat Item := Writer.mkWriter writingStore "test-table".

Definition throttledWriter : Writer.Writer nat Item :=
  Writer.mkWriter (throttlingStore "test-table") "test-table".

Definition twoRequests : list (WriteRequest Item) :=
  [mkWriteRequest "paper-1"; mkWriteRequest "paper-2"].

(** *** The vectorization stage *)

(** [createTestVectorRecord] of the storage tests. *)
Definition vectorRecord (paperID : string) : Storage.VectorRecord :=
  Storage.mkVectorRecord paperID "title_abstract" [0.5; 0.25; 0.125; 1; 2]%float
    (Storage.mkEmbeddingMetadata "test-model" "v1.0" 5 100
       "title_abstract_combination")
    (Storage.mkSourceText "Test title. Test abstract." ["title"; "abstract"] "en")
    (Storage.mkProcessingInfo "2024-01-01T00:00:00Z" "test-trace-123" 150).

Definition marshalVector (r : Storage.VectorRecord) : Item + error :=
  inl (Storage.PaperID r).

(** The store of TestBatchStoreVectors_DynamoDBError: the mock hands back
    a nil output with its error. *)
Definition failingStore : DynamoDBAPI nat Item :=
  mkDynamoDBAPI
    (fun _ s => ((None, Some "database connection failed"), Datatypes.S s))
    (fun _ s => ((None, Some "DynamoDB service unavailable"), Datatypes.S s)).

Definition storage : Storage.VectorStorage nat Item :=
  Storage.mkVectorStorage writingStore "test-vectors-table".

Definition throttledStorage : Storage.VectorStorage nat Item :=
  Storage.mkVectorStorage (throttlingStore "test-vectors-table") "test-vectors-table".

Definition failingStorage : Storage.VectorStorage nat Item :=
  Storage.mkVectorStorage failingStore "test-vectors-table".

Definition threeRecords : list Storage.VectorRecord :=
  [vectorRecord "paper1"; vectorRecord "paper2"; vectorRecord "paper3"].

(** A record that fails the validation: its paper id is empty. *)
Definition invalidRecord : Storage.VectorRecord := vectorRecord "".

(** *** The retriever and the coordinator *)

Definition retrievedPaper (id : string) : Retriever.Paper :=
  Retriever.mkPaper id "arxiv" ("Title " ++ id) "Abstract" ["Author 1"]
    "2023-01-01" ["cs.AI"] "test-trace-123" "2023-01-01T00:00:00Z".

Definition unmarshal (items : list Item) : list Retriever.Paper + error :=
  inl (map retrievedPaper items).

(** A store whose every query answers with one item and a next cursor. *)
Definition endlessStore : DynamoDBAPI nat Item :=
  mkDynamoDBAPI
    (fun _ s => ((Some (mkQueryOutput ["paper"] (Some "cursor")), None),
                 Datatypes.S s))
    (fun _ s => ((Some (mkBatchWriteItemOutput ∅), None), Datatypes.S s)).

Definition endlessRetriever : Retriever.DataRetriever nat Item :=
  Retriever.mkDataRetriever endlessStore "papers-table" "trace-id-index".

(** A store with one page of three papers, which writes every batch. *)
Definition pipelineStore : DynamoDBAPI nat Item :=
  mkDynamoDBAPI
    (fun _ s => ((Some (mkQueryOutput ["paper1"; "paper2"; "paper3"] None), None),
                 Datatypes.S s))
    (fun _ s => ((Some (mkBatchWriteItemOutput ∅), None), Datatypes.S s)).

(** The embedding service of TestProcessVectorization_PartialEmbeddingFailure:
    it fails on the second paper. *)
Definition embeddingService : EmbeddingAPI nat :=
  fun text s =>
    if String.eqb text "Title paper2. Abstract"
    then ((None, Some "API rate limit exceeded"), Datatypes.S s)
    else ((Some (mkEmbeddingResponse [0.5; 0.25; 0.125]%float "test-model-v1" 3 0),
           None), Datatypes.S s).

Definition deployed (store : DynamoDBAPI nat Item)
  : Coordinator.VectorCoordinator nat Item :=
  Coordinator.coordinator store embeddingService unmarshal TrimSpace marshalVector
    "papers-table" "trace-id-index" "vectors-table".

End Fixtures.

(** ** vector-coordinator/client: the HTTP client of the embedding service *)

Module APIClient.
Import DynamoDB Client Runtime.

(** An [http.Request]: method, URL, body and header. *)
Record Request : Type := mkRequest {
  Method : string;
  URL : string;
  RequestBody : string;
  Header : gmap string (list string)
}.

(** An [http.Response]: the status code and the body, which may be nil;
    reading it with [io.ReadAll] gives its bytes or an error. *)
Record Response : Type := mkResponse {
  StatusCode : Z;
  Body : option (string + error)
}.

(** [APIError], the error payload of the service. *)
Record APIError : Type := mkAPIError {
  Code : string;
  APIMessage : string;
  APITimestamp : Z
}.

(** [http.StatusOK] *)
Definition StatusOK : Z := 200.

(** [const maxTextLength = 10000] *)
Definition maxTextLength : Z := 10000.

(** [validateEmbeddingResponse] validates the structure and content of the
    embedding response. *)
Definition validateEmbeddingResponse (response : option EmbeddingResponse)
  : option error :=
  match response with
  | None => Some "response is nil"
  | Some response =>
      if len (Embedding response) =? 0 then Some "embedding vector is empty"
      else if negb (Dimension response =? len (Embedding response)) then
        Some ("dimension mismatch: expected " ++ itoa (Dimension response)
              ++ ", got " ++ itoa (len (Embedding response)))%string
      else if isEmpty (ModelVersion response) then Some "model version is empty"
      else match Storage.firstNaN 0 (Embedding response) with
           | Some i => Some ("embedding contains NaN at index " ++ itoa i)%string
           | None => None
           end
  end.

Section WithHTTPClient.
Context {S Item : Type}.

(** [json.Marshal] of an [EmbeddingRequest] with the given text, and
    [json.Unmarshal] into an [APIError] and into an [EmbeddingResponse]. *)
Variable MarshalRequest : string -> string + error.
Variable UnmarshalAPIError : string -> APIError + error.
Variable UnmarshalEmbeddingResponse : string -> EmbeddingResponse + error.
(** The error of [url.Parse] on a URL, if it has one. *)
Variable urlError : string -> option error.

(** [HTTPClient]: [Do] answers with a response pointer and an error, and
    moves the state [S] of the network. *)
Record VectorAPIClient : Type := mkVectorAPIClient {
  baseURL : string;
  httpClient : Request -> S -> (option Response * option error) * S
}.

(** [http.NewRequestWithContext] with a valid method and a context: it
    fails on a URL that does not parse. *)
Definition NewRequestWithContext (method url body : string) : Request + error :=
  match urlError url with
  | Some e => inr e
  | None => inl (mkRequest method url body ∅)
  end.

(** [req.Header.Set(key, value)] *)
Definition HeaderSet (key value : string) (req : Request) : Request :=
  mkRequest (Method req) (URL req) (RequestBody req)
    (<[key := [value]]> (Header req)).

(** [c.httpClient.Do(req)] *)
Definition Do (c : VectorAPIClient) (req : Request)
  : M S Item (option Response * option error) :=
  fun w =>
    let '(r, s') := httpClient c req (ext w) in
    (Ret r, mkWorld s' (calls w) (logs w)).

Variable c : VectorAPIClient.

(** [GenerateEmbedding] calls the service to generate an embedding for
    the given text. *)
Definition GenerateEmbedding (text : string)
  : M S Item (option EmbeddingResponse * option error) :=
  if isEmpty text then mret (None, Some "text cannot be empty")
  else
    log LevelInfo "Starting embedding generation" ;;
    (* Validate text length *)
    text ←
      (if Z.of_nat (String.length text) >? maxTextLength then
         log LevelWarn "Text length exceeds maximum" ;;
         mret (String.substring 0 (Z.to_nat maxTextLength) text)
       else mret text) ;
    match MarshalRequest text with
    | inr e =>
        log LevelError "Failed to marshal request" ;;
        mret (None, Some ("failed to marshal request: " ++ e)%string)
    | inl requestBody =>
        match NewRequestWithContext "POST" (baseURL c) requestBody with
        | inr e =>
            log LevelError "Failed to create HTTP request" ;;
            mret (None, Some ("failed to create HTTP request: " ++ e)%string)
        | inl req =>
            let req := HeaderSet "Content-Type" "application/json" req in
            let req := HeaderSet "Accept" "application/json" req in
            '(resp, err) ← Do c req ;
            match err with
            | Some e =>
                log LevelError "HTTP request failed" ;;
                mret (None, Some ("HTTP request failed: " ++ e)%string)
            | None =>
                resp ← deref resp ;
                (* defer resp.Body.Close() *)
                body ← deref (Body resp) ;
                match body with
                | inr e =>
                    log LevelError "Failed to read response body" ;;
                    mret (None,
                          Some ("failed to read response body: " ++ e)%string)
                | inl responseBody =>
                    (* Handle non-200 status codes *)
                    if negb (StatusCode resp =? StatusOK) then
                      match UnmarshalAPIError responseBody with
                      | inr _ =>
                          log LevelError "Failed to parse error response" ;;
                          mret (None,
                                Some ("API request failed with status "
                                      ++ itoa (StatusCode resp) ++ ": "
                                      ++ responseBody)%string)
                      | inl apiError =>
                          log LevelError "API returned error" ;;
                          mret (None,
                                Some ("API error (" ++ Code apiError ++ "): "
                                      ++ APIMessage apiError)%string)
                      end
                    else
                      (* Parse successful response *)
                      match UnmarshalEmbeddingResponse responseBody with
                      | inr e =>
                          log LevelError "Failed to parse embedding response" ;;
                          mret (None,
                                Some ("failed to parse embedding response: "
                                      ++ e)%string)
                      | inl embeddingResponse =>
                          match validateEmbeddingResponse
                                  (Some embeddingResponse) with
                          | Some e =>
                              log LevelError "Invalid embedding response" ;;
                              mret (None,
                                    Some ("invalid embedding response: "
                                          ++ e)%string)
                          | None =>
                              log LevelInfo "Successfully generated embedding" ;;
                              mret (Some embeddingResponse, None)
                          end
                      end
                end
            end
        end
    end.

(** The request [GenerateEmbedding] sends for a text whose marshalled,
    cut form is [requestBody]. *)
Definition embeddingRequest (requestBody : string) : Request :=
  HeaderSet "Accept" "application/json"
    (HeaderSet "Content-Type" "application/json"
       (mkRequest "POST" (baseURL c) requestBody ∅)).

(** The text that is sent for [text]: its first [maxTextLength] bytes. *)
Definition sentText (text : string) : string :=
  if Z.of_nat (String.length text) >? maxTextLength
  then String.substring 0 (Z.to_nat maxTextLength) text
  else text.

End WithHTTPClient.

Arguments VectorAPIClient : clear implicits.

End APIClient.

(** ** vector-coordinator/main: the coordinator with its HTTP client *)

Module Wiring.
Import DynamoDB Client Runtime Coordinator.

Section Deployment.
Context {S Item : Type}.

(** What the components built by [handleStepFunction] talk to: the table
    store behind [dynamodb.New(sess)], the HTTP client of
    [client.NewVectorAPIClient] with the JSON and URL libraries, and the
    marshalling library of the store; and the names read from the
    environment. *)
Variable store : DynamoDBAPI S Item.
Variable MarshalRequest : string -> string + error.
Variable UnmarshalAPIError : string -> APIClient.APIError + error.
Variable UnmarshalEmbeddingResponse : string -> EmbeddingResponse + error.
Variable urlError : string -> option error.
Variable apiClient : APIClient.VectorAPIClient S.
Variable UnmarshalListOfMaps : list Item -> list Retriever.Paper + error.
Variable TrimSpace : string -> string.
Variable MarshalMap : Storage.VectorRecord -> Item + error.
Variables papersTableName indexName vectorsTableName : string.

(** The [VectorCoordinator] of [handleStepFunction]. *)
Definition coordinator : VectorCoordinator S Item :=
  mkVectorCoordinator
    (Retriever.GetCombinedTextsByTraceID UnmarshalListOfMaps TrimSpace
       (Retriever.mkDataRetriever store papersTableName indexName))
    (APIClient.GenerateEmbedding MarshalRequest UnmarshalAPIError
       UnmarshalEmbeddingResponse urlError apiClient)
    (Storage.BatchStoreVectors MarshalMap
       (Storage.mkVectorStorage store vectorsTableName)).

End Deployment.

End Wiring.

(** ** batch-processor/processor: the processing of an S3 event *)

Module EventProcessor.
Import DynamoDB Client Runtime Processor.

(** A value decoded by [json.Unmarshal] into an [interface{}]. *)
#[warnings="-register-all"]
Inductive JSON : Type :=
| JNull
| JBool (b : bool)
| JNumber (f : PrimFloat.float)
| JString (s : string)
| JArray (elements : list JSON)
| JObject (fields : list (string * JSON)).

(** [v, ok := data[key].(string)] on a [map[string]interface{}]; a nil map
    reads as the empty one. *)
Definition stringAt (data : gmap string JSON) (key : string) : option string :=
  match data !! key with
  | Some (JString s) => Some s
  | _ => None
  end.

(** The strings of [data[key]] when it is a [[]interface{}], appended in
    order to a nil slice; the elements that are not strings are left
    out. *)
Definition stringsAt (data : gmap string JSON) (key : string) : list string :=
  match data !! key with
  | Some (JArray elements) =>
      omap (fun element => match element with
                            | JString s => Some s
                            | _ => None
                            end) elements
  | _ => []
  end.

(** The bucket and the key of an [events.S3EventRecord]. *)
Record S3EventRecord : Type := mkS3EventRecord {
  Bucket : string;
  Key : string
}.

(** [ProcessResult] represents the result of batch processing. *)
Record ProcessResult : Type := mkProcessResult {
  Result_TraceID : string;
  ProcessedCount : Z;
  Timestamp : Z;
  Status : string;
  ErrorMessage : string;
  Result_DeduplicationStats : option DeduplicationStats;
  Result_UpsertStats : option UpsertStats
}.

(** Assignments to the fields of [result]. *)
Definition setProcessedCount (n : Z) (r : ProcessResult) :=
  mkProcessResult (Result_TraceID r) n (Timestamp r) (Status r) (ErrorMessage r)
    (Result_DeduplicationStats r) (Result_UpsertStats r).
Definition setStatus (st : string) (r : ProcessResult) :=
  mkProcessResult (Result_TraceID r) (ProcessedCount r) (Timestamp r) st
    (ErrorMessage r) (Result_DeduplicationStats r) (Result_UpsertStats r).
Definition setErrorMessage (m : string) (r : ProcessResult) :=
  mkProcessResult (Result_TraceID r) (ProcessedCount r) (Timestamp r) (Status r) m
    (Result_DeduplicationStats r) (Result_UpsertStats r).
Definition setDeduplicationStats (d : option DeduplicationStats) (r : ProcessResult) :=
  mkProcessResult (Result_TraceID r) (ProcessedCount r) (Timestamp r) (Status r)
    (ErrorMessage r) d (Result_UpsertStats r).
Definition setUpsertStats (u : option UpsertStats) (r : ProcessResult) :=
  mkProcessResult (Result_TraceID r) (ProcessedCount r) (Timestamp r) (Status r)
    (ErrorMessage r) (Result_DeduplicationStats r) u.

(** The bytes carriage return and line feed. *)
Definition CR : Ascii.ascii := Ascii.ascii_of_nat 13.
Definition LF : Ascii.ascii := Ascii.ascii_of_nat 10.

(** [strings.ReplaceAll(text, "\r\n", "\n")] *)
Fixpoint replaceCRLF (text : string) : string :=
  match text with
  | EmptyString => EmptyString
  | String c text' =>
      if Ascii.eqb c CR then
        match text' with
        | String c' text'' =>
            if Ascii.eqb c' LF then String LF (replaceCRLF text'')
            else String c (replaceCRLF text')
        | EmptyString => String c EmptyString
        end
      else String c (replaceCRLF text')
  end.

(** [strings.ReplaceAll(text, "\r", "\n")] *)
Fixpoint replaceCR (text : string) : string :=
  match text with
  | EmptyString => EmptyString
  | String c text' => String (if Ascii.eqb c CR then LF else c) (replaceCR text')
  end.

(** [strings.Split(text, "\n")] *)
Fixpoint Split (text : string) : list string :=
  match text with
  | EmptyString => [EmptyString]
  | String c text' =>
      if Ascii.eqb c LF then EmptyString :: Split text'
      else match Split text' with
           | line :: lines => String c line :: lines
           | [] => [String c EmptyString]
           end
  end.

(** [splitLines] splits text into lines, handling different line endings. *)
Definition splitLines (text : string) : list string :=
  let text := replaceCRLF text in
  let text := replaceCR text in
  Split text.

(** Whether a byte occurs in a string. *)
Fixpoint hasByte (c : Ascii.ascii) (s : string) : bool :=
  match s with
  | EmptyString => false
  | String c' s' => Ascii.eqb c' c || hasByte c s'
  end.

(** What [convertMapToPaper] sets on every paper it returns without
    error, for the statements. *)
Definition stamped (RFC3339 : Z -> string) (traceID : string) (batchTimestamp : Z)
    (paper : Paper) : Prop :=
  PaperID paper <> "" /\ TraceID paper = traceID
  /\ BatchTimestamp paper = RFC3339 batchTimestamp
  /\ ProcessingStatus paper = "processed".

(** The three values of the status of a [ProcessResult]. *)
Definition isStatus (status : string) : Prop :=
  status = "success" \/ status = "partial_success" \/ status = "failed".

Section WithCollaborators.
Context {S Item : Type}.

(** [time.Now()] in milliseconds, [Format(time.RFC3339)] in the local
    zone, and [uuid.New().String()], which draws from the state. *)
Variable clock : S -> Z.
Variable RFC3339 : Z -> string.
Variable newUUID : S -> string * S.
(** [json.Unmarshal] into a [[]map[string]interface{}] and into a
    [map[string]interface{}]. *)
Variable UnmarshalArray : string -> list (gmap string JSON) + error.
Variable UnmarshalObject : string -> gmap string JSON + error.

(** The three interfaces of the processor, [S3Downloader],
    [Deduplicator] and [DynamoWriter]. *)
Record S3EventProcessor : Type := mkS3EventProcessor {
  downloader : string -> string -> M S Item (string * option error);
  deduplicator : list Paper -> list Paper * DeduplicationStats;
  dynamoWriter : list Paper -> M S Item (option UpsertStats * option error)
}.

(** A step of the external state that is not a call to a collaborator. *)
Definition draw {A : Type} (f : S -> A * S) : M S Item A :=
  fun w => let '(a, s') := f (ext w) in (Ret a, mkWorld s' (calls w) (logs w)).

(** [convertMapToPaper] converts a map to a Paper struct. *)
Definition convertMapToPaper (data : gmap string JSON) (traceID : string)
    (batchTimestamp : Z) : M S Item (Paper * option error) :=
  now ← ask (fun s => RFC3339 (clock s)) ;
  let paper := mkPaper "" "" "" "" [] "" [] "" traceID (RFC3339 batchTimestamp)
                 "processed" now now in
  let withID (id : string) : M S Item (Paper * option error) :=
    let paper :=
      mkPaper id
        (match stringAt data "source" with
         | Some source => source
         | None => "unknown"
         end)
        (default "" (stringAt data "title"))
        (default "" (stringAt data "abstract"))
        (stringsAt data "authors")
        (default "" (stringAt data "published_date"))
        (stringsAt data "categories")
        (default "" (stringAt data "raw_xml"))
        (TraceID paper) (BatchTimestamp paper) (ProcessingStatus paper)
        (CreatedAt paper) (UpdatedAt paper) in
    mret (paper, None) in
  match stringAt data "paper_id" with
  | Some id =>
      if negb (isEmpty id) then withID id
      else match stringAt data "id" with
           | Some id =>
               if negb (isEmpty id) then withID id
               else mret (paper, Some "missing or invalid paper_id")
           | None => mret (paper, Some "missing or invalid paper_id")
           end
  | None =>
      match stringAt data "id" with
      | Some id =>
          if negb (isEmpty id) then withID id
          else mret (paper, Some "missing or invalid paper_id")
      | None => mret (paper, Some "missing or invalid paper_id")
      end
  end.

(** [for _, paperData := range jsonPapers] of [parseBatchData]. *)
Fixpoint arrayLoop (jsonPapers : list (gmap string JSON)) (traceID : string)
    (batchTimestamp : Z) (papers : list Paper) : M S Item (list Paper) :=
  match jsonPapers with
  | [] => mret papers
  | paperData :: jsonPapers' =>
      '(paper, err) ← convertMapToPaper paperData traceID batchTimestamp ;
      match err with
      | Some _ =>
          log LevelWarn "Failed to convert paper data" ;;
          arrayLoop jsonPapers' traceID batchTimestamp papers
      | None => arrayLoop jsonPapers' traceID batchTimestamp (papers ++ [paper])
      end
  end.

(** [for i, line := range lines] of [parseBatchData]. *)
Fixpoint lineLoop (lines : list string) (traceID : string)
    (batchTimestamp : Z) (papers : list Paper) : M S Item (list Paper) :=
  match lines with
  | [] => mret papers
  | line :: lines' =>
      if Z.of_nat (String.length line) =? 0 then
        lineLoop lines' traceID batchTimestamp papers
      else
        match UnmarshalObject line with
        | inr _ =>
            log LevelWarn "Failed to parse line as JSON" ;;
            lineLoop lines' traceID batchTimestamp papers
        | inl paperData =>
            '(paper, err) ← convertMapToPaper paperData traceID batchTimestamp ;
            match err with
            | Some _ =>
                log LevelWarn "Failed to convert paper data from line" ;;
                lineLoop lines' traceID batchTimestamp papers
            | None => lineLoop lines' traceID batchTimestamp (papers ++ [paper])
            end
        end
  end.

(** [parseBatchData] parses raw data into Paper structs. *)
Definition parseBatchData (data : string) (traceID : string)
    (batchTimestamp : Z) : M S Item (list Paper * option error) :=
  match UnmarshalArray data with
  | inl jsonPapers =>
      (* Successfully parsed as JSON array *)
      papers ← arrayLoop jsonPapers traceID batchTimestamp [] ;
      mret (papers, None)
  | inr _ =>
      (* Try to parse as newline-delimited JSON *)
      let lines := splitLines data in
      papers ← lineLoop lines traceID batchTimestamp [] ;
      if len papers =? 0 then mret ([], Some "no valid papers found in data")
      else mret (papers, None)
  end.

Variable p : S3EventProcessor.

(** [for _, record := range s3Event.Records] of [ProcessS3Event]. *)
Fixpoint recordLoop (records : list S3EventRecord) (traceID : string)
    (batchTimestamp : Z) (allPapers : list Paper) (lastError : option error)
  : M S Item (list Paper * option error) :=
  match records with
  | [] => mret (allPapers, lastError)
  | record :: records' =>
      let bucket := Bucket record in
      let key := Key record in
      log LevelInfo "Processing S3 object" ;;
      (* Download and decompress file *)
      '(data, err) ← downloader p bucket key ;
      match err with
      | Some e =>
          let lastError :=
            ("failed to download/decompress " ++ bucket ++ "/" ++ key ++ ": "
             ++ e)%string in
          log LevelError "Error occurred during processing" ;;
          recordLoop records' traceID batchTimestamp allPapers (Some lastError)
      | None =>
          (* Parse batch data *)
          '(papers, err) ← parseBatchData data traceID batchTimestamp ;
          match err with
          | Some e =>
              let lastError :=
                ("failed to parse batch data from " ++ bucket ++ "/" ++ key
                 ++ ": " ++ e)%string in
              log LevelError "Error occurred during processing" ;;
              recordLoop records' traceID batchTimestamp allPapers
                (Some lastError)
          | None =>
              log LevelInfo "Data parsing completed" ;;
              recordLoop records' traceID batchTimestamp
                (allPapers ++ papers) lastError
          end
      end
  end.

(** The end of [ProcessS3Event], [// Handle parsing errors]. *)
Definition handleErrors (lastError : option error) (result : ProcessResult)
  : ProcessResult :=
  match lastError with
  | Some e =>
      if ProcessedCount result =? 0 then
        let result := setStatus "failed" result in
        if isEmpty (ErrorMessage result) then setErrorMessage e result else result
      else
        let result := setStatus "partial_success" result in
        if isEmpty (ErrorMessage result) then setErrorMessage e result else result
  | None => result
  end.

(** [ProcessS3Event] processes an S3 event and returns processing
    results. *)
Definition ProcessS3Event (records : list S3EventRecord)
  : M S Item (option ProcessResult * option error) :=
  if len records =? 0 then mret (None, Some "no S3 records to process")
  else
    (* Generate trace ID for this batch *)
    traceID ← draw newUUID ;
    batchTimestamp ← ask clock ;
    startTime ← ask clock ;
    log LevelInfo "Starting batch processing" ;;
    (* Process each S3 record *)
    '(allPapers, lastError) ← recordLoop records traceID batchTimestamp [] None ;
    (* Initialize result with default values *)
    let result := mkProcessResult traceID 0 batchTimestamp "success" "" None None in
    '(result, lastError) ←
      (if len allPapers >? 0 then
         (* Deduplicate papers *)
         let '(uniquePapers, dedupStats) := deduplicator p allPapers in
         let result := setDeduplicationStats (Some dedupStats) result in
         log LevelInfo "Deduplication completed" ;;
         let papers := uniquePapers in
         (* Upsert to DynamoDB *)
         if len papers >? 0 then
           '(upsertStats, err) ← dynamoWriter p papers ;
           match err with
           | Some e =>
               let lastError :=
                 ("failed to upsert papers to DynamoDB: " ++ e)%string in
               log LevelError "Error occurred during processing" ;;
               mret (setErrorMessage lastError (setStatus "failed" result),
                     Some lastError)
           | None =>
               let result := setUpsertStats upsertStats result in
               log LevelInfo "DynamoDB upsert completed" ;;
               upsertStats ← deref upsertStats ;
               let result :=
                 setProcessedCount (SuccessItems upsertStats) result in
               if FailedItems upsertStats >? 0 then
                 mret (setErrorMessage
                         (itoa (FailedItems upsertStats)
                          ++ " items failed to upsert")%string
                         (setStatus "partial_success" result),
                       lastError)
               else mret (result, lastError)
           end
         else
           log LevelWarn "No unique papers to upsert after deduplication" ;;
           mret (setProcessedCount 0 result, lastError)
       else
         log LevelWarn "No papers parsed from S3 objects" ;;
         mret (setProcessedCount 0 result, lastError)) ;
    let result := handleErrors lastError result in
    (* Log performance metrics *)
    processingTime ← ask (fun s => clock s - startTime) ;
    log LevelInfo "Performance metrics" ;;
    log LevelInfo "Batch processing completed" ;;
    mret (Some result, None).

End WithCollaborators.

Arguments S3EventProcessor : clear implicits.

Section Deployment.
Context {S Item : Type}.

(** What the components built by [handleS3Event] talk to: the
    downloader of the s3 package, taken at its interface, the table
    store behind [dynamodb.New(sess)] and its marshalling library; and
    the table name read from the environment, "Papers" when it is not
    set. *)
Variable downloadAndDecompress : string -> string -> M S Item (string * option error).
Variable store : DynamoDBAPI S Item.
Variable MarshalMap : Paper -> Item + error.
Variable PAPERS_TABLE_NAME : string.

Definition tableName : string :=
  if isEmpty PAPERS_TABLE_NAME then "Papers" else PAPERS_TABLE_NAME.

(** The processor of [handleS3Event]. *)
Definition eventProcessor : S3EventProcessor S Item :=
  mkS3EventProcessor downloadAndDecompress Deduplicator.DeduplicateWithStats
    (Writer.BatchUpsertWithStats MarshalMap (Writer.mkWriter store tableName)).

Variable clock : S -> Z.
Variable RFC3339 : Z -> string.
Variable newUUID : S -> string * S.
Variable UnmarshalArray : string -> list (gmap string JSON) + error.
Variable UnmarshalObject : string -> gmap string JSON + error.

(** [handleS3Event], the Lambda handler of the ingestion stage. *)
Definition handleS3Event (records : list S3EventRecord)
  : M S Item (option ProcessResult * option error) :=
  log LevelInfo "Processing S3 records" ;;
  '(result, err) ←
    ProcessS3Event clock RFC3339 newUUID UnmarshalArray UnmarshalObject
      eventProcessor records ;
  match err with
  | Some e =>
      log LevelError "Error processing S3 event" ;;
      mret (None, Some e)
  | None =>
      log LevelInfo "Processing completed successfully" ;;
      mret (result, None)
  end.

End Deployment.

End EventProcessor.

(** ** Concrete services for the HTTP client and the event processor *)

Module ServiceFixtures.
Import DynamoDB Client Runtime Fixtures.
Import PrimFloat.

(** *** The embedding service over HTTP *)

(** The JSON of a request is stood for by its text. *)
Definition marshalRequest (text : string) : string + error := inl text.

Definition unmarshalAPIError (body : string) : APIClient.APIError + error :=
  inr "invalid character".

(** The response of the client tests: three components. *)
Definition embeddingResponse : EmbeddingResponse :=
  mkEmbeddingResponse [0.5; 0.25; 0.125]%float "test-model-v1" 3 0.

Definition unmarshalEmbeddingResponse (body : string) : EmbeddingResponse + error :=
  if String.eqb body "embedding" then inl embeddingResponse
  else inr "unexpected end of JSON input".

Definition urlError (url : string) : option error := None.

(** A service that answers every request with status 200 and an embedding. *)
Definition httpService : APIClient.VectorAPIClient nat :=
  APIClient.mkVectorAPIClient "http://localhost:8000/embed"
    (fun _ s => ((Some (APIClient.mkResponse 200 (Some (inl "embedding"))), None),
                 Datatypes.S s)).

(** The coordinator of [handleStepFunction] over the store with one page
    of three papers. *)
Definition wired : Coordinator.VectorCoordinator nat Item :=
  Wiring.coordinator pipelineStore marshalRequest unmarshalAPIError
    unmarshalEmbeddingResponse urlError httpService unmarshal TrimSpace
    marshalVector "papers-table" "trace-id-index" "vectors-table".

Definition pipelineRetriever : Retriever.DataRetriever nat Item :=
  Retriever.mkDataRetriever pipelineStore "papers-table" "trace-id-index".

Definition failingRetriever : Retriever.DataRetriever nat Item :=
  Retriever.mkDataRetriever failingStore "papers-table" "trace-id-index".

(** *** The event processor *)

Definition newUUID (s : nat) : string * nat :=
  (("trace-" ++ itoa (Z.of_nat s))%string, Datatypes.S s).

(** The object "batch.json" decodes to an array of three maps: a paper
    with a paper id, the same paper again under the key id, and a map
    without either; line-delimited data has one paper id per line. *)
Definition unmarshalArray (data : string)
  : list (gmap string EventProcessor.JSON) + error :=
  if String.eqb data "batch" then
    inl [ {[ "paper_id" := EventProcessor.JString "paper-1" ]};
          {[ "id" := EventProcessor.JString "paper-1" ]};
          {[ "title" := EventProcessor.JString "No id" ]} ]
  else inr "cannot unmarshal".

Definition unmarshalObject (line : string)
  : gmap string EventProcessor.JSON + error :=
  inl {[ "paper_id" := EventProcessor.JString line ]}.

Definition download (bucket key : string) : M nat Item (string * option error) :=
  if String.eqb key "batch.json" then mret ("batch"%string, None)
  else mret (""%string, Some "NoSuchKey"%string).

Definition processor : EventProcessor.S3EventProcessor nat Item :=
  EventProcessor.mkS3EventProcessor download Deduplicator.DeduplicateWithStats
    (Writer.BatchUpsertWithStats marshalPaper writer).

Definition s3Records : list EventProcessor.S3EventRecord :=
  [EventProcessor.mkS3EventRecord "papers-bucket" "batch.json";
   EventProcessor.mkS3EventRecord "papers-bucket" "missing.json"].

End ServiceFixtures.

(** * Properties *)

(** ** Go values *)

Module GoProps.

Lemma isEmpty_true (s : string) : isEmpty s = true <-> s = "".
Proof. unfold isEmpty. apply String.eqb_eq. Qed.

Lemma isEmpty_false (s : string) : isEmpty s = false <-> s <> "".
Proof. unfold isEmpty. apply String.eqb_neq. Qed.

Lemma len_app {A : Type} (l1 l2 : list A) : len (l1 ++ l2) = len l1 + len l2.
Proof. unfold len. rewrite length_app. lia. Qed.

Lemma len_nonneg {A : Type} (l : list A) : 0 <= len l.
Proof. unfold len. lia. Qed.

Lemma len_nil {A : Type} : len (@nil A) = 0.
Proof. reflexivity. Qed.

Lemma len_cons {A : Type} (x : A) (l : list A) : len (x :: l) = len l + 1.
Proof. unfold len. simpl length. lia. Qed.

Lemma len_zero {A : Type} (l : list A) : len l = 0 <-> l = [].
Proof. unfold len. destruct l; simpl; split; intros; try done; lia. Qed.

Lemma prefix_app (t s : string) : String.prefix t (t ++ s) = true.
Proof.
  induction t as [|c t IH].
  - by destruct s.
  - change (String c t ++ s)%string with (String c (t ++ s)). simpl.
    destruct (Ascii.ascii_dec c c); [done|congruence].
Qed.

Lemma Contains_unfold (s t : string) :
  Contains s t
  = if String.prefix t s then true
    else match s with
         | EmptyString => false
         | String _ s' => Contains s' t
         end.
Proof. by destruct s. Qed.

(** A text contains what was spliced into it. *)
Lemma Contains_app (a t b : string) : Contains (a ++ t ++ b) t = true.
Proof.
  induction a as [|c a IH].
  - change ("" ++ t ++ b)%string with (t ++ b)%string.
    rewrite Contains_unfold. by rewrite prefix_app.
  - change (String c a ++ t ++ b)%string with (String c (a ++ t ++ b)).
    rewrite Contains_unfold.
    destruct (String.prefix t (String c (a ++ t ++ b))); [done|apply IH].
Qed.

(** The chunk of at most [c] items that starts at [i]. *)
Lemma slice_chunk {A : Type} (l : list A) (i c : Z) :
  0 <= i < len l -> 0 < c ->
  slice l (Z.to_nat i) (Z.to_nat (if i + c >? len l then len l else i + c))
  = take (Z.to_nat c) (drop (Z.to_nat i) l).
Proof.
  intros Hi Hc. unfold slice.
  destruct (Z.gtb_spec (i + c) (len l)) as [Hgt|Hle].
  - rewrite !take_ge; [done| |]; rewrite length_drop; unfold len in *; lia.
  - f_equal. lia.
Qed.

End GoProps.

(** ** The deduplication engine *)

Module DeduplicatorProps.
Import Processor Deduplicator GoProps.

Lemma run_snoc papers l p : run papers (l ++ [p]) = step (run papers l) p.
Proof. unfold run. rewrite fold_left_app. reflexivity. Qed.

(** What the seen set holds: the non-empty keys met so far. *)
Lemma run_seen papers l k :
  seenGet (seen (run papers l)) k
  = negb (isEmpty k) && existsb (fun q => String.eqb (PaperID q) k) l.
Proof.
  induction l as [|p l IH] using rev_ind.
  - unfold run, seenGet. simpl. rewrite lookup_empty. simpl.
    by rewrite andb_false_r.
  - rewrite run_snoc, existsb_app. simpl. rewrite orb_false_r.
    unfold step. destruct (isEmpty (PaperID p)) eqn:He.
    + simpl. rewrite IH. apply isEmpty_true in He.
      destruct (String.eqb_spec (PaperID p) k) as [Heq|Hne].
      * rewrite <- Heq, He. simpl. reflexivity.
      * by rewrite orb_false_r.
    + destruct (seenGet (seen (run papers l)) (PaperID p)) eqn:Hs; simpl.
      * rewrite IH. destruct (String.eqb_spec (PaperID p) k) as [<-|Hne].
        -- rewrite <- IH, Hs, He. simpl. by rewrite orb_true_r.
        -- by rewrite orb_false_r.
      * unfold seenGet in *. destruct (String.eqb_spec (PaperID p) k) as [<-|Hne].
        -- rewrite lookup_insert_eq. simpl. rewrite He. simpl.
           by rewrite orb_true_r.
        -- rewrite lookup_insert_ne by done. rewrite IH. by rewrite orb_false_r.
Qed.

Lemma run_seen_empty papers l : seen (run papers l) !! "" = None.
Proof.
  induction l as [|p l IH] using rev_ind.
  - apply lookup_empty.
  - rewrite run_snoc. unfold step.
    destruct (isEmpty (PaperID p)) eqn:He; [done|].
    destruct (negb _); simpl; [|done].
    rewrite lookup_insert_ne; [done|]. by apply isEmpty_false.
Qed.

(** The counters, by one pass over the input. *)
Lemma run_counts papers l :
  let st := run papers l in
  len (deduplicated st) + DuplicateCount (stats st) + InvalidCount (stats st) = len l
  /\ OriginalCount (stats st) = len papers
  /\ InvalidCount (stats st) = len (filter (fun p => PaperID p = "") l)
  /\ Forall (fun p => PaperID p <> "") (deduplicated st).
Proof.
  induction l as [|p l IH] using rev_ind.
  - simpl. unfold run. simpl. repeat split; try done; constructor.
  - simpl in *. rewrite run_snoc. destruct IH as (Hsum & Ho & Hi & Hne).
    rewrite filter_app, !len_app. unfold step.
    destruct (isEmpty (PaperID p)) eqn:He.
    + apply isEmpty_true in He. simpl.
      rewrite filter_cons_True by done. rewrite filter_nil, !len_cons, !len_nil.
      repeat split; try done; lia.
    + apply isEmpty_false in He.
      rewrite filter_cons_False by done. rewrite filter_nil, len_nil.
      destruct (negb _); simpl.
      * rewrite len_app, !len_cons, !len_nil. repeat split; try done; try lia.
        apply Forall_app. split; [done|]. by constructor.
      * rewrite !len_cons, !len_nil. repeat split; try done; lia.
Qed.

(** *** Positions *)

Lemma isFirstOccurrence_prefix l p (i : nat) :
  (i < length l)%nat ->
  isFirstOccurrence (l ++ [p]) i = isFirstOccurrence l i.
Proof.
  intros Hi. unfold isFirstOccurrence.
  rewrite lookup_app_l by done. rewrite take_app_le by lia. reflexivity.
Qed.

Lemma isLaterOccurrence_prefix l p (i : nat) :
  (i < length l)%nat ->
  isLaterOccurrence (l ++ [p]) i = isLaterOccurrence l i.
Proof.
  intros Hi. unfold isLaterOccurrence.
  rewrite lookup_app_l by done. rewrite take_app_le by lia. reflexivity.
Qed.

Lemma filter_seq_ext (P Q : nat -> Prop) `{!forall i, Decision (P i)}
    `{!forall i, Decision (Q i)} (a n : nat) :
  (forall i, (a <= i < a + n)%nat -> P i <-> Q i) ->
  filter P (seq a n) = filter Q (seq a n).
Proof.
  revert a. induction n as [|n IH]; intros a Hext; [done|].
  simpl. rewrite !filter_cons.
  rewrite (IH (Datatypes.S a)) by (intros i Hi; apply Hext; lia).
  destruct (decide (P a)) as [HP|HP], (decide (Q a)) as [HQ|HQ]; try done;
    exfalso; apply HQ || apply HP; apply (Hext a); (lia || done).
Qed.

Lemma StronglySorted_filter_lt (P : nat -> Prop) `{!forall i, Decision (P i)}
    (l : list nat) :
  StronglySorted lt l -> StronglySorted lt (filter P l).
Proof.
  induction 1 as [|x l Hs IH Hx]; [constructor|].
  rewrite filter_cons. destruct (decide (P x)); [|done].
  constructor; [done|]. apply Forall_forall. intros y Hy.
  apply list_elem_of_filter in Hy as [_ Hy].
  rewrite Forall_forall in Hx. by apply Hx.
Qed.

Lemma firstOccurrences_snoc l p :
  firstOccurrences (l ++ [p])
  = (firstOccurrences l
     ++ if isFirstOccurrence (l ++ [p]) (length l) then [length l] else [])%list.
Proof.
  unfold firstOccurrences. rewrite length_app. simpl length.
  rewrite Nat.add_1_r, seq_S, filter_app. simpl. f_equal.
  - apply filter_seq_ext. intros i Hi. rewrite isFirstOccurrence_prefix by lia. done.
  - destruct (isFirstOccurrence (l ++ [p]) (length l)) eqn:E.
    + by rewrite filter_cons_True.
    + rewrite filter_cons_False; [done|]. congruence.
Qed.

Lemma laterOccurrences_snoc l p :
  laterOccurrences (l ++ [p])
  = (laterOccurrences l
     ++ if isLaterOccurrence (l ++ [p]) (length l) then [length l] else [])%list.
Proof.
  unfold laterOccurrences. rewrite length_app. simpl length.
  rewrite Nat.add_1_r, seq_S, filter_app. simpl. f_equal.
  - apply filter_seq_ext. intros i Hi. rewrite isLaterOccurrence_prefix by lia. done.
  - destruct (isLaterOccurrence (l ++ [p]) (length l)) eqn:E.
    + by rewrite filter_cons_True.
    + rewrite filter_cons_False; [done|]. congruence.
Qed.

Lemma recordsAt_prefix l p positions :
  Forall (fun i => (i < length l)%nat) positions ->
  recordsAt (l ++ [p]) positions = recordsAt l positions.
Proof.
  unfold recordsAt. induction 1 as [|i positions Hi _ IH]; [done|].
  simpl. rewrite lookup_app_l by done.
  change (list_omap nat Paper) with (@omap list _ nat Paper) in *. by rewrite IH.
Qed.

Lemma firstOccurrences_bound l :
  Forall (fun i => (i < length l)%nat) (firstOccurrences l).
Proof.
  apply Forall_forall. intros i Hi. unfold firstOccurrences in Hi.
  apply list_elem_of_filter in Hi as [_ Hi]. apply elem_of_seq in Hi. lia.
Qed.

Lemma isFirstOccurrence_last l p :
  isFirstOccurrence (l ++ [p]) (length l)
  = negb (isEmpty (PaperID p))
    && negb (existsb (fun q => String.eqb (PaperID q) (PaperID p)) l).
Proof.
  unfold isFirstOccurrence.
  rewrite list_lookup_middle by done.
  rewrite take_app_length. f_equal.
  induction l as [|q l IH]; [done|]. simpl. rewrite IH.
  by destruct (String.eqb _ _).
Qed.

Lemma isLaterOccurrence_last l p :
  isLaterOccurrence (l ++ [p]) (length l)
  = negb (isEmpty (PaperID p))
    && existsb (fun q => String.eqb (PaperID q) (PaperID p)) l.
Proof.
  unfold isLaterOccurrence.
  rewrite list_lookup_middle by done.
  by rewrite take_app_length.
Qed.

(** The loop keeps the records at the first occurrences, and counts the
    later ones. *)
Lemma run_positions papers l :
  deduplicated (run papers l) = recordsAt l (firstOccurrences l)
  /\ DuplicateCount (stats (run papers l)) = len (laterOccurrences l).
Proof.
  induction l as [|p l [IHd IHc]] using rev_ind; [done|].
  rewrite run_snoc, firstOccurrences_snoc, laterOccurrences_snoc.
  rewrite isFirstOccurrence_last, isLaterOccurrence_last.
  unfold recordsAt in *. rewrite omap_app. fold (recordsAt (l ++ [p]) (firstOccurrences l)).
  rewrite recordsAt_prefix by apply firstOccurrences_bound.
  unfold step. destruct (isEmpty (PaperID p)) eqn:He; simpl.
  - rewrite app_nil_r. split; [done|]. by rewrite app_nil_r.
  - rewrite run_seen, He. simpl.
    destruct (existsb _ l); simpl.
    + rewrite app_nil_r. split; [done|].
      rewrite len_app, len_cons, len_nil. lia.
    + rewrite list_lookup_middle by done. simpl.
      rewrite app_nil_r. split; [by rewrite IHd|done].
Qed.

Lemma firstOccurrences_sorted l : StronglySorted lt (firstOccurrences l).
Proof.
  unfold firstOccurrences. apply StronglySorted_filter_lt.
  generalize 0%nat. induction (length l) as [|n IH]; intros a; simpl.
  - constructor.
  - constructor; [apply IH|]. apply Forall_forall. intros i Hi.
    apply elem_of_seq in Hi. lia.
Qed.

Lemma DeduplicateWithStats_loop papers :
  DeduplicateWithStats papers
  = (deduplicated (run papers papers),
     mkDeduplicationStats (len papers) (len (deduplicated (run papers papers)))
       (DuplicateCount (stats (run papers papers)))
       (InvalidCount (stats (run papers papers)))).
Proof.
  unfold DeduplicateWithStats, loop. fold (run papers papers).
  destruct (Z.eqb_spec (len papers) 0) as [H0|H0].
  - apply len_zero in H0. subst. reflexivity.
  - by destruct (run_counts papers papers) as (_ & -> & _).
Qed.

(** C4: for every input sequence, the empty one included, the statistics
    of [DeduplicateWithStats] satisfy
    UniqueCount + DuplicateCount + InvalidCount = OriginalCount, where
    OriginalCount is the input length, InvalidCount is the number of records
    with an empty primary key, none of which is returned or entered into
    the seen set, and UniqueCount is the length of the returned list. *)
Theorem C4_dedup_partition (papers : list Paper) :
  let '(unique, stats) := DeduplicateWithStats papers in
  UniqueCount stats + DuplicateCount stats + InvalidCount stats = OriginalCount stats
  /\ OriginalCount stats = len papers
  /\ InvalidCount stats = len (filter (fun p => PaperID p = "") papers)
  /\ UniqueCount stats = len unique
  /\ Forall (fun p => PaperID p <> "") unique
  /\ seen (loop papers) !! "" = None.
Proof.
  rewrite DeduplicateWithStats_loop. simpl.
  destruct (run_counts papers papers) as (Hsum & Ho & Hi & Hne).
  repeat split; try done. apply run_seen_empty.
Qed.

Lemma elem_of_firstOccurrences l (i : nat) :
  i ∈ firstOccurrences l <-> isFirstOccurrence l i = true.
Proof.
  unfold firstOccurrences. rewrite list_elem_of_filter, elem_of_seq.
  split; [tauto|]. intros H. split; [done|].
  unfold isFirstOccurrence in H. destruct (l !! i) eqn:E; [|done].
  apply lookup_lt_Some in E. lia.
Qed.

Lemma elem_of_laterOccurrences l (i : nat) :
  i ∈ laterOccurrences l <-> isLaterOccurrence l i = true.
Proof.
  unfold laterOccurrences. rewrite list_elem_of_filter, elem_of_seq.
  split; [tauto|]. intros H. split; [done|].
  unfold isLaterOccurrence in H. destruct (l !! i) eqn:E; [|done].
  apply lookup_lt_Some in E. lia.
Qed.

Lemma elem_of_recordsAt l positions q :
  q ∈ recordsAt l positions <-> exists i, i ∈ positions /\ l !! i = Some q.
Proof. unfold recordsAt. apply list_elem_of_omap. Qed.

(** C3, as amended: for every input sequence and every non-empty primary
    key K whose first occurrence is at position i and that occurs again at a
    position j > i, [DeduplicateWithStats] retains the record at position
    i (it is the only record with key K that is returned), drops the
    record at position j and counts it as a duplicate; the returned records
    are the records at the first occurrences, in input order. *)
Theorem C3_first_occurrence_retained (papers : list Paper) (i j : nat)
    (pi pj : Paper) :
  (i < j)%nat ->
  papers !! i = Some pi -> papers !! j = Some pj ->
  PaperID pi = PaperID pj -> PaperID pi <> "" ->
  (forall (h : nat) ph, (h < i)%nat -> papers !! h = Some ph ->
                        PaperID ph <> PaperID pi) ->
  let '(unique, stats) := DeduplicateWithStats papers in
  unique = recordsAt papers (firstOccurrences papers)
  /\ StronglySorted lt (firstOccurrences papers)
  /\ (i ∈ firstOccurrences papers)
  /\ (j ∉ firstOccurrences papers)
  /\ (j ∈ laterOccurrences papers)
  /\ DuplicateCount stats = len (laterOccurrences papers)
  /\ (forall q, q ∈ unique -> PaperID q = PaperID pi -> q = pi).
Proof.
  intros Hij Hi Hj Hkey Hne Hfirst.
  rewrite DeduplicateWithStats_loop.
  destruct (run_positions papers papers) as [Hd Hc].
  assert (Hfi : isFirstOccurrence papers i = true).
  { unfold isFirstOccurrence. rewrite Hi.
    apply andb_true_intro. split.
    - apply negb_true_iff. by apply isEmpty_false.
    - apply forallb_forall. intros q Hq. apply negb_true_iff, String.eqb_neq.
      apply list_elem_of_In, list_elem_of_lookup in Hq as [h Hh].
      apply lookup_take_Some in Hh as [Hh Hlt]. by apply (Hfirst h). }
  assert (Hex : existsb (fun q => String.eqb (PaperID q) (PaperID pj)) (take j papers)
                = true).
  { apply existsb_exists. exists pi. split.
    - apply list_elem_of_In, list_elem_of_lookup. exists i.
      by rewrite lookup_take_lt.
    - by apply String.eqb_eq. }
  repeat split.
  - done.
  - apply firstOccurrences_sorted.
  - by apply elem_of_firstOccurrences.
  - rewrite elem_of_firstOccurrences. unfold isFirstOccurrence. rewrite Hj.
    intros H. apply andb_prop in H as [_ H].
    rewrite forallb_forall in H. apply existsb_exists in Hex as (q & Hq & Hqk).
    specialize (H q Hq). rewrite Hqk in H. done.
  - apply elem_of_laterOccurrences. unfold isLaterOccurrence. rewrite Hj, Hex.
    rewrite andb_true_r. apply negb_true_iff, isEmpty_false. congruence.
  - done.
  - intros q Hq Hqk. rewrite Hd in Hq.
    apply elem_of_recordsAt in Hq as (h & Hh & Hhq).
    apply elem_of_firstOccurrences in Hh. unfold isFirstOccurrence in Hh.
    rewrite Hhq in Hh. apply andb_prop in Hh as [_ Hh].
    rewrite forallb_forall in Hh.
    destruct (Nat.lt_trichotomy h i) as [Hlt|[->|Hgt]].
    + exfalso. by apply (Hfirst h q).
    + congruence.
    + exfalso. assert (Hin : In pi (take h papers)).
      { apply list_elem_of_In, list_elem_of_lookup. exists i.
        by rewrite lookup_take_lt. }
      specialize (Hh pi Hin). apply negb_true_iff, String.eqb_neq in Hh.
      congruence.
Qed.

End DeduplicatorProps.

(** ** Chunk sizes *)

Module SpecProps.
Import Spec.

Lemma chunkSizesFrom_fuel (c : nat) : forall fuel1 fuel2 n,
  (0 < c)%nat -> (n <= fuel1)%nat -> (n <= fuel2)%nat ->
  chunkSizesFrom fuel1 c n = chunkSizesFrom fuel2 c n.
Proof.
  induction fuel1 as [|fuel1 IH]; intros fuel2 n Hc H1 H2.
  - assert (n = 0)%nat as -> by lia. by destruct fuel2.
  - destruct fuel2 as [|fuel2].
    + assert (n = 0)%nat as -> by lia. done.
    + simpl. destruct (Nat.eqb_spec n 0%nat); [done|].
      f_equal. apply IH; lia.
Qed.

Lemma chunkSizes_zero (c : nat) : chunkSizes c 0 = [].
Proof. reflexivity. Qed.

Lemma chunkSizes_pos (c n : nat) :
  (0 < c)%nat -> (0 < n)%nat ->
  chunkSizes c n = Nat.min c n :: chunkSizes c (n - c).
Proof.
  intros Hc Hn. unfold chunkSizes. destruct n as [|n]; [lia|].
  simpl. f_equal. apply chunkSizesFrom_fuel; lia.
Qed.

(** There are ceil(n/c) chunks, each of at most [c] items, [n] items in all. *)
Lemma chunkSizes_length (c : nat) : forall n,
  (0 < c)%nat ->
  Z.of_nat (length (chunkSizes c n)) = ceilDiv (Z.of_nat n) (Z.of_nat c).
Proof.
  intros n Hc. induction n as [n IH] using lt_wf_ind.
  destruct (Nat.eq_dec n 0%nat) as [->|Hn].
  - rewrite chunkSizes_zero. unfold ceilDiv. simpl.
    symmetry. apply Z.div_small. lia.
  - rewrite chunkSizes_pos by lia. simpl length.
    rewrite Nat2Z.inj_succ, IH by lia. unfold ceilDiv.
    destruct (Nat.le_gt_cases n c) as [Hle|Hgt].
    + replace (n - c)%nat with 0%nat by lia.
      rewrite (Z.div_small (Z.of_nat 0 + _ - 1)) by lia.
      symmetry. replace (Z.of_nat n + Z.of_nat c - 1)
        with (1 * Z.of_nat c + (Z.of_nat n - 1)) by lia.
      rewrite Z.div_add_l by lia. rewrite Z.div_small by lia. lia.
    + rewrite Nat2Z.inj_sub by lia.
      replace (Z.of_nat n + Z.of_nat c - 1)
        with (1 * Z.of_nat c + (Z.of_nat n - Z.of_nat c + Z.of_nat c - 1)) by lia.
      rewrite Z.div_add_l by lia. lia.
Qed.

Lemma chunkSizes_bound (c : nat) : forall n,
  (0 < c)%nat -> Forall (fun k => (k <= c)%nat) (chunkSizes c n).
Proof.
  intros n Hc. induction n as [n IH] using lt_wf_ind.
  destruct (Nat.eq_dec n 0%nat) as [->|Hn]; [constructor|].
  rewrite chunkSizes_pos by lia. constructor; [lia|]. apply IH. lia.
Qed.

Lemma chunkSizes_sum (c : nat) : forall n,
  (0 < c)%nat -> list_sum (chunkSizes c n) = n.
Proof.
  intros n Hc. induction n as [n IH] using lt_wf_ind.
  destruct (Nat.eq_dec n 0%nat) as [->|Hn]; [done|].
  rewrite chunkSizes_pos by lia. simpl. rewrite IH by lia. lia.
Qed.

End SpecProps.

(** ** The state monad *)

Module RuntimeProps.
Import DynamoDB Client Runtime Spec.

Section World.
Context {S Item : Type}.
Implicit Types w : World S Item.

Lemma bind_Ret {A B : Type} (m : M S Item A) (k : A -> M S Item B) w a w1 :
  m w = (Ret a, w1) -> (m ≫= k) w = k a w1.
Proof. intros H. unfold mbind, M_bind, bind. by rewrite H. Qed.

Lemma bind_Panic {A B : Type} (m : M S Item A) (k : A -> M S Item B) w reason w1 :
  m w = (Panic reason, w1) -> (m ≫= k) w = (Panic reason, w1).
Proof. intros H. unfold mbind, M_bind, bind. by rewrite H. Qed.

Lemma bind_inv {A B : Type} (m : M S Item A) (k : A -> M S Item B) w b w' :
  (m ≫= k) w = (Ret b, w') ->
  exists a w1, m w = (Ret a, w1) /\ k a w1 = (Ret b, w').
Proof.
  unfold mbind, M_bind, bind. destruct (m w) as [[a| |] w1]; try done.
  intros H. by exists a, w1.
Qed.

Lemma mret_run {A : Type} (a : A) w : (mret a : M S Item A) w = (Ret a, w).
Proof. reflexivity. Qed.

Lemma log_run level message w :
  log level message w = (Ret tt, addLogs w [mkLogEntry level message]).
Proof. reflexivity. Qed.

Lemma addLogs_nil w : addLogs w [] = w.
Proof. destruct w. unfold addLogs. simpl. by rewrite app_nil_r. Qed.

Lemma addLogs_addLogs w l1 l2 : addLogs (addLogs w l1) l2 = addLogs w (l1 ++ l2).
Proof. unfold addLogs. simpl. by rewrite app_assoc. Qed.

Lemma calls_addLogs w l : calls (addLogs w l) = calls w.
Proof. reflexivity. Qed.

Lemma ext_addLogs w l : ext (addLogs w l) = ext w.
Proof. reflexivity. Qed.

Lemma callsBetween_refl w : callsBetween w w [].
Proof. unfold callsBetween. by rewrite app_nil_r. Qed.

Lemma callsBetween_trans w1 w2 w3 t1 t2 :
  callsBetween w1 w2 t1 -> callsBetween w2 w3 t2 -> callsBetween w1 w3 (t1 ++ t2).
Proof. unfold callsBetween. intros H1 H2. by rewrite H2, H1, app_assoc. Qed.

Lemma callsBetween_addLogs_r w1 w2 t l :
  callsBetween w1 w2 t -> callsBetween w1 (addLogs w2 l) t.
Proof. done. Qed.

Lemma callsBetween_addLogs_l w1 w2 t l :
  callsBetween w1 w2 t -> callsBetween (addLogs w1 l) w2 t.
Proof. done. Qed.

Lemma callsBetween_inj w1 w2 t1 t2 :
  callsBetween w1 w2 t1 -> callsBetween w1 w2 t2 -> t1 = t2.
Proof. unfold callsBetween. intros H1 H2. rewrite H1 in H2. by apply app_inv_head in H2. Qed.

Lemma batchWrites_app table (t1 t2 : list (Call Item)) :
  batchWrites table (t1 ++ t2) = (batchWrites table t1 ++ batchWrites table t2)%list.
Proof. unfold batchWrites. apply omap_app. Qed.

Lemma queries_app (t1 t2 : list (Call Item)) :
  queries (t1 ++ t2) = (queries t1 ++ queries t2)%list.
Proof. unfold queries. apply omap_app. Qed.

Lemma pages_app (t1 t2 : list (Call Item)) :
  pages (t1 ++ t2) = (pages t1 ++ pages t2)%list.
Proof. unfold pages. apply omap_app. Qed.

Lemma embeddings_app (t1 t2 : list (Call Item)) :
  embeddings (t1 ++ t2) = (embeddings t1 ++ embeddings t2)%list.
Proof. unfold embeddings. apply omap_app. Qed.

End World.

End RuntimeProps.

(** ** The vector storage *)

Module StorageProps.
Import DynamoDB Client Runtime Spec Storage StorageSpec GoProps RuntimeProps.

Section WithClient.
Context {S Item : Type}.
Variable MarshalMap : VectorRecord -> Item + error.
Variable s : VectorStorage S Item.
Implicit Types w : World S Item.
Implicit Types records : list VectorRecord.

Lemma validateLoop_run records : forall result valid w,
  exists entries errors,
    validateLoop (S:=S) (Item:=Item) records result valid w
    = (Ret (mkBatchWriteResult (SuccessCount result)
              (FailedItems result ++ invalidOf records)
              (Errors result ++ errors),
            (valid ++ validOf records)%list),
       addLogs w entries).
Proof.
  induction records as [|r records IH]; intros result valid w.
  - exists [], []. simpl. rewrite !app_nil_r, addLogs_nil. by destruct result.
  - cbn [validateLoop]. unfold validOf, invalidOf. rewrite ?filter_cons.
    destruct (validateVectorRecord r) as [e|] eqn:Hv.
    + repeat (destruct (decide _); try done).
      erewrite bind_Ret by apply log_run.
      edestruct IH as (entries & errors & ->).
      eexists (_ :: entries), (_ :: errors). simpl.
      rewrite addLogs_addLogs. simpl.
      by rewrite <- !app_assoc.
    + repeat (destruct (decide _); try done).
      edestruct IH as (entries & errors & ->).
      exists entries, errors. by rewrite <- app_assoc.
Qed.

Lemma marshalLoop_run records : forall result requests w,
  exists entries errors,
    marshalLoop MarshalMap records result requests w
    = (Ret (mkBatchWriteResult (SuccessCount result)
              (FailedItems result ++ unmarshalledOf MarshalMap records)
              (Errors result ++ errors),
            (requests ++ requestsOf MarshalMap records)%list),
       addLogs w entries).
Proof.
  induction records as [|r records IH]; intros result requests w.
  - exists [], []. simpl. rewrite !app_nil_r, addLogs_nil. by destruct result.
  - cbn [marshalLoop]. unfold unmarshalledOf, requestsOf, marshals. rewrite ?filter_cons. cbn [omap list_omap].
    destruct (MarshalMap r) as [item|e] eqn:Hm.
    + repeat (destruct (decide _); try done).
      edestruct IH as (entries & errors & ->).
      exists entries, errors. by rewrite <- app_assoc.
    + repeat (destruct (decide _); try done).
      erewrite bind_Ret by apply log_run.
      edestruct IH as (entries & errors & ->).
      eexists (_ :: entries), (_ :: errors). simpl.
      rewrite addLogs_addLogs. simpl.
      by rewrite <- !app_assoc.
Qed.

Lemma length_validOf_invalidOf records :
  len (validOf records) + len (invalidOf records) = len records.
Proof.
  induction records as [|r records IH]; [done|].
  unfold validOf, invalidOf in *. rewrite !filter_cons.
  destruct (validateVectorRecord r); simpl;
    repeat (destruct (decide _); try done); rewrite ?len_cons; lia.
Qed.

Lemma length_requestsOf records :
  len (requestsOf MarshalMap records) + len (unmarshalledOf MarshalMap records)
  = len records.
Proof.
  induction records as [|r records IH]; [done|].
  unfold requestsOf, unmarshalledOf, marshals in *. rewrite filter_cons. simpl.
  destruct (MarshalMap r); simpl;
    repeat (destruct (decide _); try done); rewrite ?len_cons;
    change (list_omap VectorRecord (WriteRequest Item))
      with (@omap list _ VectorRecord (WriteRequest Item)); lia.
Qed.

(** The unprocessed loop: with the start index inside the valid records
    it takes the [unprocessedCount] records from it on. *)
Lemma unprocessedLoop_ok (fuel : nat) : forall (i u start : Z) valid failed,
  0 <= i -> 0 <= start -> start + u <= len valid -> u - i <= Z.of_nat fuel ->
  unprocessedLoop fuel i u start valid failed
  = Ret (failed ++ take (Z.to_nat (u - i)) (drop (Z.to_nat (start + i)) valid))%list.
Proof.
  induction fuel as [|fuel IH]; intros i u start valid failed Hi Hs Hu Hf.
  - simpl. destruct (Z.ltb_spec i u); [lia|]. simpl.
    replace (Z.to_nat (u - i)) with 0%nat by lia. simpl. by rewrite app_nil_r.
  - simpl. destruct (Z.ltb_spec i u) as [Hlt|Hge]; simpl.
    + destruct (Z.ltb_spec (start + i) (len valid)) as [_|?]; [|lia].
      unfold index. destruct (Z.ltb_spec (start + i) 0) as [?|_]; [lia|].
      destruct (valid !! Z.to_nat (start + i)) as [r|] eqn:Hr.
      * rewrite IH by lia. f_equal. rewrite <- app_assoc. f_equal.
        replace (Z.to_nat (u - i)) with (Datatypes.S (Z.to_nat (u - (i + 1)))) by lia.
        rewrite (drop_S _ _ _ Hr). simpl.
        by replace (Z.to_nat (start + (i + 1)))
          with (Datatypes.S (Z.to_nat (start + i))) by lia.
      * apply lookup_ge_None in Hr. unfold len in *. lia.
    + replace (Z.to_nat (u - i)) with 0%nat by lia. simpl. by rewrite app_nil_r.
Qed.

(** With more unprocessed items than requests the start index is
    negative and the first access panics. *)
Lemma unprocessedLoop_panic (u start : Z) valid failed :
  0 < u -> start < 0 ->
  unprocessedLoop (Z.to_nat u) 0 u start valid failed = Panic "index out of range".
Proof.
  intros Hu Hs. destruct (Z.to_nat u) as [|fuel] eqn:E; [lia|].
  simpl. destruct (Z.ltb_spec 0 u); [|lia]. simpl.
  destruct (Z.ltb_spec (start + 0) (len valid)) as [_|?];
    [|pose proof (len_nonneg valid); lia].
  unfold index. by destruct (Z.ltb_spec (start + 0) 0); [|lia].
Qed.

(** What [processBatch] does, by the answer of the store. *)
Lemma processBatch_run records w :
  let valid := validOf records in
  let reqs := requestsOf MarshalMap valid in
  let failed0 := (invalidOf records ++ unmarshalledOf MarshalMap valid)%list in
  if (len valid =? 0) || (len reqs =? 0) then
    exists entries errors,
      processBatch MarshalMap s records w
      = (Ret (Some (mkBatchWriteResult 0 failed0 errors), None), addLogs w entries)
  else
    let input := mkBatchWriteItemInput {[ tableName s := reqs ]} in
    exists entries0,
      match BatchWriteItemWithContext (client s) input (ext w) with
      | ((output, err), s') =>
          let w1 := addCall (addLogs w entries0) s' (CallBatchWrite input output err) in
          match output with
          | None =>
              processBatch MarshalMap s records w
              = (Panic "invalid memory address or nil pointer dereference", w1)
          | Some out =>
              match err with
              | Some e =>
                  exists entries errors,
                    processBatch MarshalMap s records w
                    = (Ret (Some (mkBatchWriteResult 0 (failed0 ++ valid) errors),
                            None), addLogs w1 entries)
              | None =>
                  let u := len (default [] (UnprocessedItems out !! tableName s)) in
                  if u =? 0 then
                    exists entries errors,
                      processBatch MarshalMap s records w
                      = (Ret (Some (mkBatchWriteResult (len reqs) failed0 errors),
                              None), addLogs w1 entries)
                  else if u <=? len reqs then
                    exists entries errors,
                      processBatch MarshalMap s records w
                      = (Ret (Some (mkBatchWriteResult (len reqs - u)
                                      (failed0
                                       ++ take (Z.to_nat u)
                                            (drop (Z.to_nat (len reqs - u)) valid))
                                      errors),
                              None), addLogs w1 entries)
                  else
                    exists entries,
                      processBatch MarshalMap s records w
                      = (Panic "index out of range", addLogs w1 entries)
              end
          end
      end.
Proof.
  intros valid reqs failed0.
  remember (processBatch MarshalMap s records w) as R eqn:HR.
  unfold processBatch in HR.
  destruct (validateLoop_run records (mkBatchWriteResult 0 [] []) [] w)
    as (e1 & errs1 & Hv).
  erewrite bind_Ret in HR by apply Hv.
  cbn [FailedItems Errors SuccessCount app] in HR. fold valid in HR.
  destruct (Z.eqb_spec (len valid) 0) as [Hz|Hnz]; cbn [orb].
  { erewrite bind_Ret in HR by apply log_run.
    rewrite mret_run, addLogs_addLogs in HR.
    apply len_zero in Hz. subst failed0. rewrite Hz. cbn. rewrite app_nil_r.
    by eexists _, _. }
  destruct (marshalLoop_run valid
              (mkBatchWriteResult 0 (invalidOf records) errs1) [] (addLogs w e1))
    as (e2 & errs2 & Hm).
  erewrite bind_Ret in HR by apply Hm.
  cbn [FailedItems Errors SuccessCount app] in HR.
  fold reqs in HR. fold failed0 in HR. rewrite addLogs_addLogs in HR.
  destruct (Z.eqb_spec (len reqs) 0) as [Hrz|Hrnz].
  { erewrite bind_Ret in HR by apply log_run.
    rewrite mret_run, addLogs_addLogs in HR.
    by eexists _, _. }
  exists (e1 ++ e2)%list.
  unfold batchWriteItem in HR. unfold mbind at 1, M_bind at 1, bind at 1 in HR.
  rewrite ext_addLogs in HR.
  destruct (BatchWriteItemWithContext (client s) _ (ext w)) as [[output err] s'].
  cbn [fst snd] in HR.
  fold (addCall (addLogs w (e1 ++ e2)) s' (CallBatchWrite
    (mkBatchWriteItemInput {[ tableName s := reqs ]}) output err)) in HR.
  set (w1 := addCall _ _ _) in *.
  destruct output as [out|]; [|by subst R].
  erewrite bind_Ret in HR by reflexivity.
  destruct err as [e|].
  { erewrite bind_Ret in HR by apply log_run. rewrite mret_run in HR.
    by eexists _, _. }
  set (u := match UnprocessedItems out !! tableName s with
            | Some unprocessedItems => len unprocessedItems
            | None => 0
            end) in *.
  replace (len (default [] (UnprocessedItems out !! tableName s))) with u
    by (subst u; by destruct (UnprocessedItems out !! tableName s)).
  assert (Hu0 : 0 <= u).
  { subst u. destruct (UnprocessedItems out !! tableName s);
      [apply len_nonneg|lia]. }
  cbn [SuccessCount FailedItems Errors] in HR.
  destruct (Z.eqb_spec u 0) as [Huz|Hunz].
  { rewrite Huz in HR. cbn [Z.gtb Z.compare] in HR.
    erewrite bind_Ret in HR by reflexivity.
    erewrite bind_Ret in HR by apply log_run.
    rewrite mret_run, Z.sub_0_r in HR.
    by eexists _, _. }
  destruct (Z.gtb_spec u 0) as [_|?]; [|lia].
  assert (Hlen : len reqs <= len valid).
  { pose proof (length_requestsOf valid) as H.
    pose proof (len_nonneg (unmarshalledOf MarshalMap valid)). fold reqs in H. lia. }
  destruct (Z.leb_spec u (len reqs)) as [Hle|Hgt].
  - erewrite (bind_Ret (log _ _ ≫= _)) in HR.
    2:{ erewrite bind_Ret by apply log_run.
        rewrite unprocessedLoop_ok by lia.
        unfold lift. unfold mbind at 1, M_bind at 1, bind at 1.
        rewrite mret_run. reflexivity. }
    erewrite bind_Ret in HR by apply log_run.
    rewrite mret_run, addLogs_addLogs in HR.
    rewrite Z.sub_0_r, Z.add_0_r in HR. by eexists _, _.
  - erewrite (bind_Panic (log _ _ ≫= _)) in HR.
    2:{ erewrite bind_Ret by apply log_run.
        rewrite unprocessedLoop_panic by lia.
        unfold lift. unfold mbind at 1, M_bind at 1, bind at 1. reflexivity. }
    by eexists.
Qed.

Lemma batchWrites_single table (reqs : list (WriteRequest Item)) output err :
  batchWrites table [CallBatchWrite (mkBatchWriteItemInput {[ table := reqs ]})
                       output err] = [reqs].
Proof. unfold batchWrites. simpl. by rewrite lookup_singleton_eq. Qed.

Lemma validOf_all records :
  Forall (fun r => validateVectorRecord r = None) records ->
  validOf records = records /\ invalidOf records = [].
Proof.
  induction 1 as [|r records Hr _ [IH1 IH2]]; [done|].
  unfold validOf, invalidOf in *. rewrite !filter_cons.
  repeat (destruct (decide _); try done). by rewrite IH1, IH2.
Qed.

Lemma unmarshalledOf_all records :
  Forall (fun r => marshals MarshalMap r = true) records ->
  unmarshalledOf MarshalMap records = [].
Proof.
  induction 1 as [|r records Hr _ IH]; [done|].
  unfold unmarshalledOf in *. rewrite filter_cons.
  destruct (decide _); [congruence|done].
Qed.

Lemma Forall_validOf (P : VectorRecord -> Prop) records :
  Forall P records -> Forall P (validOf records).
Proof.
  intros H. apply Forall_forall. intros r Hr.
  apply list_elem_of_filter in Hr as [_ Hr].
  rewrite Forall_forall in H. by apply H.
Qed.

(** The outcome of [processBatch]: at most one call, which carries the
    requests of the valid records; a result with a nil error whose counts
    account for the batch; a panic only on an answer outside the
    contract of the store. *)
Lemma processBatch_spec records w r w' :
  processBatch MarshalMap s records w = (r, w') ->
  let valid := validOf records in
  let reqs := requestsOf MarshalMap valid in
  exists tr,
    callsBetween w w' tr
    /\ batchWrites (tableName s) tr
       = (if (len valid =? 0) || (len reqs =? 0) then [] else [reqs])
    /\ match r with
       | Ret x =>
           exists res, x = (Some res, None)
             /\ 0 <= SuccessCount res
             /\ (SuccessCount res = 0 -> FailedItems res = [] -> records = [])
             /\ (unmarshalledOf MarshalMap valid = [] ->
                 SuccessCount res + len (FailedItems res) = len records)
       | Panic _ =>
           exists input s0,
             ~ answersWithinRequest (tableName s)
                 (len (default [] (RequestItems input !! tableName s)))
                 (fst (BatchWriteItemWithContext (client s) input s0))
       | OutOfFuel => False
       end.
Proof.
  intros Hrun valid reqs. pose proof (processBatch_run records w) as Hc.
  cbv zeta in Hc. fold valid reqs in Hc.
  pose proof (length_validOf_invalidOf records) as Hlv. fold valid in Hlv.
  pose proof (length_requestsOf valid) as Hlr. fold reqs in Hlr.
  pose proof (len_nonneg (invalidOf records)) as Hn1.
  pose proof (len_nonneg (unmarshalledOf MarshalMap valid)) as Hn2.
  pose proof (len_nonneg reqs) as Hn3.
  pose proof (len_nonneg valid) as Hn4.
  destruct ((len valid =? 0) || (len reqs =? 0)) eqn:Hnone.
  { destruct Hc as (entries & errors & Hc). rewrite Hc in Hrun.
    injection Hrun as <- <-. exists [].
    split; [apply callsBetween_addLogs_r, callsBetween_refl|].
    split; [done|]. eexists. split; [done|]. cbn [SuccessCount FailedItems].
    rewrite len_app. split; [lia|]. split.
    - intros _ Hf. apply app_eq_nil in Hf as [Hf1 Hf2].
      rewrite Hf1, Hf2 in *. rewrite len_nil in *.
      apply orb_prop in Hnone as [H|H]; apply Z.eqb_eq in H; apply len_zero; lia.
    - intros Hm. rewrite Hm in *.
      apply orb_prop in Hnone as [H|H]; apply Z.eqb_eq in H;
        unfold len in *; simpl length in *; lia. }
  apply orb_false_elim in Hnone as [Hv Hr]. apply Z.eqb_neq in Hv, Hr.
  destruct Hc as (entries0 & Hc).
  destruct (BatchWriteItemWithContext (client s) _ (ext w))
    as [[output err] s'] eqn:Hcall.
  set (input := mkBatchWriteItemInput {[ tableName s := reqs ]}) in *.
  assert (Hin : default [] (RequestItems input !! tableName s) = reqs).
  { subst input. simpl. by rewrite lookup_singleton_eq. }
  exists [CallBatchWrite input output err].
  assert (Htr : forall l, callsBetween w
            (addLogs (addCall (addLogs w entries0) s'
                        (CallBatchWrite input output err)) l)
            [CallBatchWrite input output err]) by done.
  destruct output as [out|].
  2:{ rewrite Hc in Hrun. injection Hrun as <- <-.
      split; [apply (Htr [])|]. split; [apply batchWrites_single|].
      exists input, (ext w). rewrite Hcall, Hin.
      intros (o & Ho & _). done. }
  destruct err as [e|].
  { destruct Hc as (entries & errors & Hc). rewrite Hc in Hrun.
    injection Hrun as <- <-. split; [apply Htr|].
    split; [apply batchWrites_single|].
    eexists. split; [done|]. cbn [SuccessCount FailedItems].
    rewrite !len_app. split; [lia|]. split.
    - intros _ Hf. apply app_eq_nil in Hf as [_ Hf]. fold valid in Hf.
      rewrite Hf, len_nil in Hv. done.
    - intros Hm. rewrite Hm in *. unfold len in *; simpl length in *; lia. }
  set (u := len (default [] (UnprocessedItems out !! tableName s))) in *.
  assert (Hu0 : 0 <= u) by apply len_nonneg.
  destruct (Z.eqb_spec u 0) as [Huz|Hunz].
  { destruct Hc as (entries & errors & Hc). rewrite Hc in Hrun.
    injection Hrun as <- <-. split; [apply Htr|].
    split; [apply batchWrites_single|].
    eexists. split; [done|]. cbn [SuccessCount FailedItems].
    rewrite !len_app. repeat split; try lia.
    all: intros Hm; rewrite Hm in *; unfold len in *; simpl length in *; lia. }
  destruct (Z.leb_spec u (len reqs)) as [Hle|Hgt].
  - destruct Hc as (entries & errors & Hc). rewrite Hc in Hrun.
    injection Hrun as <- <-. split; [apply Htr|].
    split; [apply batchWrites_single|].
    eexists. split; [done|]. cbn [SuccessCount FailedItems].
    assert (Htake : len (take (Z.to_nat u)
                           (drop (Z.to_nat (len reqs - u)) valid)) = u).
    { unfold len in *. rewrite length_take, length_drop. lia. }
    rewrite !len_app, Htake. split; [lia|]. split.
    + intros _ Hf. apply app_eq_nil in Hf as [_ Hf].
      rewrite Hf, len_nil in Htake. lia.
    + intros Hm. rewrite Hm in *. unfold len in *; simpl length in *; lia.
  - destruct Hc as (entries & Hc). rewrite Hc in Hrun.
    injection Hrun as <- <-. split; [apply Htr|].
    split; [apply batchWrites_single|].
    exists input, (ext w). rewrite Hcall, Hin.
    intros (o & Ho & Hle). simpl in Ho. injection Ho as <-.
    specialize (Hle eq_refl). fold u in Hle. lia.
Qed.

Lemma batchAt_take records (i : Z) :
  0 <= i < len records ->
  batchAt records i = take (Z.to_nat batchSize) (drop (Z.to_nat i) records).
Proof.
  intros Hi. unfold batchAt, slice, batchSize in *.
  destruct (Z.gtb_spec (i + 25) (len records)) as [Hgt|Hle].
  - rewrite !take_ge; [done| |]; rewrite length_drop; unfold len in *; lia.
  - f_equal. lia.
Qed.

Lemma batchAt_length records (i : Z) :
  0 <= i < len records ->
  len (batchAt records i) = Z.min batchSize (len records - i).
Proof.
  intros Hi. rewrite batchAt_take by done. unfold len, batchSize in *.
  rewrite length_take, length_drop. lia.
Qed.

Lemma batchAt_drop records (i : Z) :
  0 <= i < len records ->
  drop (Z.to_nat i) records
  = (batchAt records i ++ drop (Z.to_nat (i + batchSize)) records)%list.
Proof.
  intros Hi. rewrite batchAt_take by done.
  replace (Z.to_nat (i + batchSize)) with (Z.to_nat i + Z.to_nat batchSize)%nat
    by (unfold batchSize; lia).
  rewrite <- drop_drop. by rewrite take_drop.
Qed.

Lemma Forall_batchAt (P : VectorRecord -> Prop) records (i : Z) :
  Forall P records -> Forall P (batchAt records i).
Proof. intros H. unfold batchAt, slice. by apply Forall_take, Forall_drop. Qed.

Lemma len_requestsOf_le records :
  len (requestsOf MarshalMap (validOf records)) <= len records.
Proof.
  pose proof (length_validOf_invalidOf records).
  pose proof (length_requestsOf (validOf records)).
  pose proof (len_nonneg (invalidOf records)).
  pose proof (len_nonneg (unmarshalledOf MarshalMap (validOf records))). lia.
Qed.

(** The loop of [BatchStoreVectors] from the chunk that starts at [i]. *)
Lemma storeLoop_spec (fuel : nat) : forall records (i : Z) result w r w',
  0 <= i -> len records - i <= Z.of_nat fuel ->
  storeLoop MarshalMap s fuel records i result w = (r, w') ->
  exists tr,
    callsBetween w w' tr
    /\ Forall (fun reqs => len reqs <= batchSize) (batchWrites (tableName s) tr)
    /\ (length (batchWrites (tableName s) tr)
        <= length (chunkSizes 25 (Z.to_nat (len records - i))))%nat
    /\ match r with
       | Ret res =>
           SuccessCount result <= SuccessCount res
           /\ exists failed,
               FailedItems res = (FailedItems result ++ failed)%list
               /\ (SuccessCount res = SuccessCount result -> failed = [] ->
                   len records <= i)
               /\ (Forall (fun r => marshals MarshalMap r = true) records ->
                   SuccessCount res - SuccessCount result + len failed
                   = len (drop (Z.to_nat i) records))
               /\ (Forall (fun r => validateVectorRecord r = None) records ->
                   Forall (fun r => marshals MarshalMap r = true) records ->
                   map length (batchWrites (tableName s) tr)
                   = chunkSizes 25 (Z.to_nat (len records - i)))
       | Panic _ =>
           exists input s0,
             ~ answersWithinRequest (tableName s)
                 (len (default [] (RequestItems input !! tableName s)))
                 (fst (BatchWriteItemWithContext (client s) input s0))
       | OutOfFuel => False
       end.
Proof.
  induction fuel as [|fuel IH]; intros records i result w r w' Hi Hfuel Hrun.
  - simpl in Hrun. destruct (Z.ltb_spec i (len records)) as [?|Hge]; [lia|].
    injection Hrun as <- <-. exists []. split; [apply callsBetween_refl|].
    replace (Z.to_nat (len records - i)) with 0%nat by lia.
    split; [constructor|]. split; [done|]. split; [lia|].
    exists []. rewrite app_nil_r. repeat split; try done.
    intros _. rewrite drop_ge by (unfold len in *; lia).
    rewrite len_nil. lia.
  - cbn [storeLoop] in Hrun.
    destruct (Z.ltb_spec i (len records)) as [Hlt|Hge].
    2:{ injection Hrun as <- <-. exists []. split; [apply callsBetween_refl|].
        replace (Z.to_nat (len records - i)) with 0%nat by lia.
        split; [constructor|]. split; [done|]. split; [lia|].
        exists []. rewrite app_nil_r. repeat split; try done.
        intros _. rewrite drop_ge by (unfold len in *; lia).
        rewrite len_nil. lia. }
    set (batch := batchAt records i) in *.
    assert (Hblen : len batch = Z.min batchSize (len records - i))
      by (apply batchAt_length; lia).
    destruct (processBatch MarshalMap s batch w) as [rb wb] eqn:Hb.
    pose proof (processBatch_spec batch w rb wb Hb) as Hspec. cbv zeta in Hspec.
    destruct Hspec as (tr1 & Htr1 & Hbw1 & Hrb).
    pose proof (len_requestsOf_le batch) as Hreq.
    assert (Hsz1 : Forall (fun reqs => len reqs <= batchSize)
                     (batchWrites (tableName s) tr1)).
    { rewrite Hbw1. destruct (_ || _); constructor; [|constructor].
      unfold batchSize in *. lia. }
    assert (Hchunks : chunkSizes 25 (Z.to_nat (len records - i))
                      = Nat.min 25 (Z.to_nat (len records - i))
                        :: chunkSizes 25 (Z.to_nat (len records - (i + batchSize)))).
    { rewrite SpecProps.chunkSizes_pos by lia. do 2 f_equal.
      unfold batchSize. lia. }
    destruct rb as [x| |].
    + destruct Hrb as (res & -> & Hs0 & Hzero & Hsum).
      erewrite bind_Ret in Hrun by apply Hb. cbn beta iota in Hrun.
      erewrite bind_Ret in Hrun by reflexivity.
      apply IH in Hrun; [|unfold batchSize; lia|unfold batchSize; lia].
      destruct Hrun as (tr2 & Htr2 & Hsz2 & Hcnt2 & Hr).
      exists (tr1 ++ tr2)%list. split; [by eapply callsBetween_trans|].
      rewrite batchWrites_app. split; [by apply Forall_app|].
      split.
      { rewrite length_app, Hchunks. simpl length.
        assert (length (batchWrites (tableName s) tr1) <= 1)%nat
          by (rewrite Hbw1; destruct (_ || _); simpl; lia).
        lia. }
      destruct r as [res'| |]; [|done|done].
      cbn [SuccessCount FailedItems] in Hr.
      destruct Hr as (Hmono & failed & Hf & Hz & Hs & Hx).
      split; [lia|]. exists (FailedItems res ++ failed)%list.
      split; [by rewrite Hf, app_assoc|]. split.
      { intros Heq Hnil. apply app_eq_nil in Hnil as [Hn1 Hn2].
        assert (batch = []) as Hbn by (apply Hzero; [lia|done]).
        rewrite Hbn, len_nil in Hblen. unfold batchSize in *. lia. }
      split.
      { intros Hm. rewrite (batchAt_drop records i) by lia. fold batch.
        rewrite !len_app.
        rewrite <- (Hs Hm), <- Hsum; [lia|].
        apply unmarshalledOf_all, Forall_validOf. by apply Forall_batchAt. }
      { intros Hv Hm. rewrite map_app, (Hx Hv Hm), Hchunks.
        destruct (validOf_all batch (Forall_batchAt _ _ i Hv)) as [Hvb _].
        pose proof (length_requestsOf (validOf batch)) as Hl.
        rewrite unmarshalledOf_all in Hl
          by (apply Forall_validOf; by apply Forall_batchAt).
        rewrite Hvb in Hl, Hbw1. rewrite len_nil in Hl.
        destruct (Z.eqb_spec (len batch) 0) as [?|_];
          [unfold batchSize in *; lia|].
        destruct (Z.eqb_spec (len (requestsOf MarshalMap batch)) 0) as [?|_];
          [unfold batchSize in *; lia|].
        rewrite Hbw1. cbn [map app orb]. f_equal.
        unfold len, batchSize in *. lia. }
    + erewrite bind_Panic in Hrun by apply Hb. injection Hrun as <- <-.
      exists tr1. split; [done|]. split; [done|]. split; [|done].
      rewrite Hchunks. simpl length.
      assert (length (batchWrites (tableName s) tr1) <= 1)%nat
        by (rewrite Hbw1; destruct (_ || _); simpl; lia).
      lia.
    + done.
Qed.

(** The outcome of [BatchStoreVectors]. *)
Lemma BatchStoreVectors_spec records w r w' :
  BatchStoreVectors MarshalMap s records w = (r, w') ->
  exists tr,
    callsBetween w w' tr
    /\ Forall (fun reqs => len reqs <= batchSize) (batchWrites (tableName s) tr)
    /\ (length (batchWrites (tableName s) tr)
        <= length (chunkSizes 25 (length records)))%nat
    /\ match r with
       | Ret x =>
           exists res, x = (Some res, None)
             /\ 0 <= SuccessCount res
             /\ (SuccessCount res = 0 -> FailedItems res = [] -> records = [])
             /\ (Forall (fun r => marshals MarshalMap r = true) records ->
                 SuccessCount res + len (FailedItems res) = len records)
             /\ (Forall (fun r => validateVectorRecord r = None) records ->
                 Forall (fun r => marshals MarshalMap r = true) records ->
                 map length (batchWrites (tableName s) tr)
                 = chunkSizes 25 (length records))
       | Panic _ =>
           exists input s0,
             ~ answersWithinRequest (tableName s)
                 (len (default [] (RequestItems input !! tableName s)))
                 (fst (BatchWriteItemWithContext (client s) input s0))
       | OutOfFuel => False
       end.
Proof.
  unfold BatchStoreVectors. intros Hrun.
  destruct (Z.eqb_spec (len records) 0) as [Hz|Hnz].
  { apply len_zero in Hz. subst records. injection Hrun as <- <-.
    exists []. split; [apply callsBetween_refl|]. split; [constructor|].
    split; [done|]. eexists. split; [done|]. by repeat split. }
  erewrite bind_Ret in Hrun by apply log_run.
  destruct (storeLoop MarshalMap s (length records) records 0
              (mkBatchWriteResult 0 [] []) (addLogs w [mkLogEntry LevelInfo
                 "Starting batch vector storage"])) as [rl wl] eqn:Hl.
  pose proof Hl as Hl'.
  apply storeLoop_spec in Hl' as (tr & Htr & Hsz & Hcnt & Hr);
    [|lia|unfold len; lia].
  replace (Z.to_nat (len records - 0)) with (length records) in *
    by (unfold len; lia).
  destruct rl as [res|reason|].
  - erewrite bind_Ret in Hrun by apply Hl.
    erewrite bind_Ret in Hrun by apply log_run. injection Hrun as <- <-.
    exists tr. split; [done|]. split; [done|]. split; [done|].
    cbn [SuccessCount FailedItems app] in Hr.
    destruct Hr as (Hmono & failed & Hf & Hzero & Hsum & Hx).
    exists res. rewrite Hf. repeat split; try done.
    + intros H1 H2. specialize (Hzero H1 H2).
      pose proof (len_nonneg records). apply len_zero. lia.
    + intros Hm. specialize (Hsum Hm).
      change (Z.to_nat 0) with 0%nat in Hsum. rewrite drop_0 in Hsum. lia.
  - erewrite bind_Panic in Hrun by apply Hl. injection Hrun as <- <-.
    by exists tr.
  - done.
Qed.

(** A store that answers within its contract never makes
    [BatchStoreVectors] panic. *)
Lemma BatchStoreVectors_returns records w :
  respectsRequests (client s) (tableName s) ->
  exists res w',
    BatchStoreVectors MarshalMap s records w = (Ret (Some res, None), w').
Proof.
  intros Hc. destruct (BatchStoreVectors MarshalMap s records w) as [r w'] eqn:Hrun.
  pose proof (BatchStoreVectors_spec records w r w' Hrun) as (tr & _ & _ & _ & Hr).
  destruct r as [x|reason|].
  - destruct Hr as (res & -> & _). by exists res, w'.
  - destruct Hr as (input & s0 & Hn). exfalso. apply Hn, Hc.
  - done.
Qed.

(** C6: for every input list of vector records and every behaviour of
    the store, the outcome [BatchStoreVectors] returns satisfies
    SuccessCount + length of FailedItems = number of input records, and
    so does the outcome of [processBatch] for each chunk; an outcome is
    returned whenever the store answers within its contract (an output
    with every answer, at most the requested items unprocessed).  The
    marshalling library is taken to marshal every record, as it does for
    the field types of [VectorRecord]. *)
Theorem C6_success_plus_failed_is_total records w :
  Forall (fun r => marshals MarshalMap r = true) records ->
  (forall x w',
     BatchStoreVectors MarshalMap s records w = (Ret x, w') ->
     exists res, x = (Some res, None)
       /\ SuccessCount res + len (FailedItems res) = len records)
  /\ (forall (i : Z) w0 x w',
        processBatch MarshalMap s (batchAt records i) w0 = (Ret x, w') ->
        exists res, x = (Some res, None)
          /\ SuccessCount res + len (FailedItems res) = len (batchAt records i))
  /\ (respectsRequests (client s) (tableName s) ->
      exists res w',
        BatchStoreVectors MarshalMap s records w = (Ret (Some res, None), w')).
Proof.
  intros Hm. split; [|split].
  - intros x w' Hrun.
    apply BatchStoreVectors_spec in Hrun as (tr & _ & _ & _ & res & -> & _ & _ & Hsum & _).
    exists res. split; [done|]. by apply Hsum.
  - intros i w0 x w' Hrun.
    apply processBatch_spec in Hrun as (tr & _ & _ & res & -> & _ & _ & Hsum).
    exists res. split; [done|]. apply Hsum.
    apply unmarshalledOf_all, Forall_validOf. by apply Forall_batchAt.
  - apply BatchStoreVectors_returns.
Qed.

End WithClient.

End StorageProps.

(** ** The writer of the ingestion stage *)

Module WriterProps.
Import DynamoDB Client Runtime Spec Processor Writer WriterSpec GoProps RuntimeProps.
Import Tactics.

Section WithClient.
Context {S Item : Type}.
Variable MarshalMap : Paper -> Item + error.
Variable wr : Writer.Writer S Item.
Implicit Types w : World S Item.

Lemma batchWriteItem_run (client : DynamoDBAPI S Item) input w :
  exists output err s',
    BatchWriteItemWithContext client input (ext w) = ((output, err), s')
    /\ batchWriteItem client input w
       = (Ret (output, err), addCall w s' (CallBatchWrite input output err)).
Proof.
  unfold batchWriteItem.
  destruct (BatchWriteItemWithContext client input (ext w)) as [[output err] s'].
  by exists output, err, s'.
Qed.

(** The retry loop from attempt number [attempt] (counted from 0) on. *)
Lemma retryLoop_spec (fuel : nat) : forall (attempt : Z) current w r w',
  0 <= attempt -> maxRetries - attempt <= Z.of_nat fuel ->
  retryLoop wr fuel attempt current w = (r, w') ->
  if (attempt <? maxRetries) && (len current >? 0) then
    exists tr,
      callsBetween w w' tr
      /\ (1 <= length tr)%nat
      /\ Z.of_nat (length tr) <= maxRetries - attempt
      /\ retryChain (tableName wr) current tr
      /\ length (batchWrites (tableName wr) tr) = length tr
      /\ exists input output err,
          last tr = Some (CallBatchWrite input output err)
          /\ match r with
             | Ret None =>
                 err = None
                 /\ exists out, output = Some out
                      /\ len (unprocessedOf (tableName wr) out) = 0
             | Ret (Some e) =>
                 (exists e0, err = Some e0
                    /\ e = ("batch write failed on attempt "
                            ++ itoa (attempt + Z.of_nat (length tr))
                            ++ ": " ++ e0)%string)
                 \/ (err = None
                     /\ Z.of_nat (length tr) = maxRetries - attempt
                     /\ exists out, output = Some out
                          /\ 0 < len (unprocessedOf (tableName wr) out)
                          /\ e = ("failed to process "
                                  ++ itoa (len (unprocessedOf (tableName wr) out))
                                  ++ " items after " ++ itoa maxRetries
                                  ++ " retries")%string)
             | Panic _ => output = None /\ err = None
             | OutOfFuel => False
             end
  else
    r = Ret (Some ("failed to process " ++ itoa (len current)
                   ++ " items after " ++ itoa maxRetries ++ " retries")%string)
    /\ w' = w.
Proof.
  induction fuel as [|fuel IH]; intros attempt current w r w' Ha Hfuel Hrun.
  - simpl in Hrun. unfold maxRetries in *.
    destruct (Z.ltb_spec attempt 3) as [?|Hge]; [lia|]. simpl in *.
    by injection Hrun as <- <-.
  - cbn [retryLoop] in Hrun.
    destruct ((attempt <? maxRetries) && (len current >? 0)) eqn:Hcond.
    2:{ by injection Hrun as <- <-. }
    apply andb_prop in Hcond as [Hlt Hpos].
    apply Z.ltb_lt in Hlt. unfold maxRetries in Hlt, Hfuel.
    assert (Hlog : exists entries,
               (if attempt >? 0 then log LevelInfo "Retrying batch write"
                else mret tt) w = (Ret tt, addLogs w entries)).
    { destruct (attempt >? 0); [by eexists|]. exists []. by rewrite addLogs_nil. }
    destruct Hlog as (entries & Hlog).
    erewrite bind_Ret in Hrun by apply Hlog.
    set (input := mkBatchWriteItemInput {[ tableName wr := current ]}) in *.
    destruct (batchWriteItem_run (client wr) input (addLogs w entries))
      as (output & err & s' & Hcall & Hbw).
    erewrite bind_Ret in Hrun by apply Hbw.
    cbn beta iota in Hrun.
    set (c := CallBatchWrite input output err) in *.
    set (w1 := addCall (addLogs w entries) s' c) in *.
    assert (Hw1 : callsBetween w w1 [c]) by done.
    assert (Hbw1 : batchWrites (tableName wr) [c] = [current]).
    { subst c input. unfold batchWrites. simpl. by rewrite lookup_singleton_eq. }
    destruct err as [e0|].
    { injection Hrun as <- <-. exists [c]. single Hbw1.
      exists input, output, (Some e0). split; [done|]. left.
      exists e0. split; [done|]. by simpl length. }
    destruct output as [out|].
    2:{ erewrite bind_Panic in Hrun by reflexivity. injection Hrun as <- <-.
        exists [c]. single Hbw1. by exists input, None, None. }
    erewrite bind_Ret in Hrun by reflexivity.
    assert (Hdone : forall w2,
              (log LevelInfo "Batch write completed successfully" ;; mret None) w1
              = (r, w2) ->
              len (unprocessedOf (tableName wr) out) = 0 ->
              exists tr, callsBetween w w2 tr /\ (1 <= length tr)%nat
                /\ Z.of_nat (length tr) <= 3 - attempt
                /\ retryChain (tableName wr) current tr
                /\ length (batchWrites (tableName wr) tr) = length tr
                /\ exists input output err,
                    last tr = Some (CallBatchWrite input output err)
                    /\ match r with
                       | Ret None => err = None
                           /\ exists out, output = Some out
                                /\ len (unprocessedOf (tableName wr) out) = 0
                       | Ret (Some e) =>
                           (exists e0, err = Some e0
                              /\ e = ("batch write failed on attempt "
                                      ++ itoa (attempt + Z.of_nat (length tr))
                                      ++ ": " ++ e0)%string)
                           \/ (err = None
                               /\ Z.of_nat (length tr) = 3 - attempt
                               /\ exists out, output = Some out
                                    /\ 0 < len (unprocessedOf (tableName wr) out)
                                    /\ e = ("failed to process "
                                            ++ itoa (len (unprocessedOf
                                                            (tableName wr) out))
                                            ++ " items after " ++ itoa maxRetries
                                            ++ " retries")%string)
                       | Panic _ => output = None /\ err = None
                       | OutOfFuel => False
                       end).
    { intros w2 H Hz. erewrite bind_Ret in H by apply log_run.
      injection H as <- <-. exists [c]. single Hbw1.
      exists input, (Some out), None. split; [done|]. split; [done|].
      by exists out. }
    unfold unprocessedOf in Hdone.
    destruct (UnprocessedItems out !! tableName wr) as [u|] eqn:Hu.
    2:{ by apply Hdone. }
    destruct (Z.gtb_spec (len u) 0) as [Hupos|Huz].
    2:{ apply Hdone; [done|]. simpl. pose proof (len_nonneg u). lia. }
    clear Hdone.
    erewrite bind_Ret in Hrun by apply log_run.
    apply IH in Hrun; [|lia|unfold maxRetries; lia].
    assert (Hchain1 : forall rest, rest <> [] ->
              retryChain (tableName wr) u rest ->
              retryChain (tableName wr) current (c :: rest)).
    { intros rest Hne Hch. simpl. split; [done|].
      destruct rest; [done|]. exists out. unfold unprocessedOf. rewrite Hu.
      by repeat split. }
    destruct ((attempt + 1 <? maxRetries) && (len u >? 0)) eqn:Hcond2.
    + destruct Hrun as (tr & Htr & Hl1 & Hl2 & Hch & Hbwl & input' & output' & err'
                        & Hlast & Hr).
      exists (c :: tr). split; [by apply (callsBetween_trans _ _ _ [c] tr Hw1)|].
      split; [simpl; lia|]. split; [simpl length; unfold maxRetries in *; lia|].
      split; [apply Hchain1; [by destruct tr|done]|].
      split.
      { change (c :: tr) with ([c] ++ tr)%list.
        rewrite batchWrites_app, Hbw1. simpl. by rewrite Hbwl. }
      exists input', output', err'.
      split; [destruct tr; [done|by rewrite last_cons, Hlast]|].
      destruct r as [[e|]| |]; try done.
      destruct Hr as [(e0 & He0 & He)|(He & Hlen & Hr)].
      * left. exists e0. split; [done|]. rewrite He. do 3 f_equal.
        simpl length. lia.
      * right. split; [done|]. split; [|done].
        simpl length. unfold maxRetries in *. lia.
    + destruct Hrun as [-> ->]. exists [c].
      apply andb_false_iff in Hcond2 as [Hc2|Hc2];
        [apply Z.ltb_ge in Hc2|rewrite Z.gtb_ltb in Hc2; apply Z.ltb_ge in Hc2; lia].
      single Hbw1.
      exists input, (Some out), None. split; [done|]. right.
      split; [done|]. split; [simpl; unfold maxRetries in *; lia|].
      exists out. unfold unprocessedOf. rewrite Hu. by repeat split.
Qed.

(** C7, as amended: when a batch-write call of the ingestion writer
    reports unprocessed items, the writer re-submits exactly the
    unprocessed items of that answer; it makes at most 3 batch-write
    attempts in all, the first one over the whole batch and at most 2
    re-submissions; it surfaces a failure for the items still unprocessed
    only after the third attempt, and at once on an error of the call;
    it returns without error as soon as an attempt leaves nothing
    unprocessed, so what a pass wrote is not sent again. *)
Theorem C7_retry_three_attempts (writeRequests : list (WriteRequest Item))
    w r w' :
  0 < len writeRequests ->
  executeBatchWriteWithRetry wr writeRequests w = (r, w') ->
  exists tr,
    callsBetween w w' tr
    /\ (1 <= length tr <= 3)%nat
    /\ length (batchWrites (tableName wr) tr) = length tr
    /\ (retryPasses (tableName wr) tr <= 2)%nat
    /\ retryChain (tableName wr) writeRequests tr
    /\ exists input output err,
        last tr = Some (CallBatchWrite input output err)
        /\ match r with
           | Ret None =>
               err = None
               /\ exists out, output = Some out
                    /\ len (unprocessedOf (tableName wr) out) = 0
           | Ret (Some e) =>
               (exists e0, err = Some e0
                  /\ e = ("batch write failed on attempt "
                          ++ itoa (Z.of_nat (length tr)) ++ ": " ++ e0)%string)
               \/ (err = None
                   /\ length tr = 3%nat
                   /\ exists out, output = Some out
                        /\ 0 < len (unprocessedOf (tableName wr) out)
                        /\ e = ("failed to process "
                                ++ itoa (len (unprocessedOf (tableName wr) out))
                                ++ " items after 3 retries")%string)
           | Panic _ => output = None /\ err = None
           | OutOfFuel => False
           end.
Proof.
  intros Hpos Hrun. unfold executeBatchWriteWithRetry in Hrun.
  apply retryLoop_spec in Hrun; [|lia|unfold maxRetries; lia].
  destruct (Z.gtb_spec (len writeRequests) 0) as [_|?]; [|lia].
  unfold maxRetries in Hrun. simpl andb in Hrun. cbv iota in Hrun.
  destruct Hrun as (tr & Htr & Hl1 & Hl2 & Hch & Hbw & input & output & err
                    & Hlast & Hr).
  exists tr. split; [done|]. split; [lia|]. split; [done|].
  split; [unfold retryPasses; lia|]. split; [done|].
  exists input, output, err. split; [done|].
  destruct r as [[e|]| |]; try done.
  destruct Hr as [(e0 & He0 & He)|(He & Hlen & out & Hout & Hu & Hmsg)].
  - left. exists e0. by rewrite Z.add_0_l in He.
  - right. split; [done|]. split; [lia|]. by exists out.
Qed.

Lemma writer_marshalLoop_run (papers : list Paper) : forall requests w,
  exists entries,
    marshalLoop MarshalMap papers requests w
    = (Ret (requests ++ requestsOf MarshalMap papers)%list, addLogs w entries).
Proof.
  induction papers as [|p papers IH]; intros requests w.
  - exists []. simpl. by rewrite app_nil_r, addLogs_nil.
  - cbn [marshalLoop]. unfold requestsOf. cbn [omap list_omap].
    destruct (MarshalMap p) as [item|e].
    + edestruct IH as (entries & ->). exists entries. by rewrite <- app_assoc.
    + erewrite bind_Ret by apply log_run.
      edestruct IH as (entries & ->). eexists (_ :: entries).
      by rewrite addLogs_addLogs.
Qed.

Lemma length_requestsOf_all (papers : list Paper) :
  Forall (fun p => marshals MarshalMap p = true) papers ->
  length (requestsOf MarshalMap papers) = length papers.
Proof.
  induction 1 as [|p papers Hp _ IH]; [done|].
  unfold requestsOf, marshals in *. cbn [omap list_omap].
  destruct (MarshalMap p); [|done]. simpl. f_equal. apply IH.
Qed.

(** With a store that writes everything, a batch of papers that marshal
    takes one call. *)
Lemma processBatch_writesAll (papers : list Paper) w :
  alwaysWritesAll (client wr) (tableName wr) ->
  Forall (fun p => marshals MarshalMap p = true) papers ->
  0 < len papers <= MaxBatchSize ->
  exists w' c,
    processBatch MarshalMap wr papers w = (Ret None, w')
    /\ callsBetween w w' [c]
    /\ batchWrites (tableName wr) [c] = [requestsOf MarshalMap papers].
Proof.
  intros Hall Hm Hlen. unfold processBatch.
  destruct (Z.eqb_spec (len papers) 0) as [?|_]; [lia|].
  destruct (Z.gtb_spec (len papers) MaxBatchSize) as [?|_]; [lia|].
  destruct (writer_marshalLoop_run papers [] w) as (entries & Hml).
  erewrite bind_Ret by apply Hml. cbn [app].
  pose proof (length_requestsOf_all papers Hm) as Hreq.
  destruct (Z.eqb_spec (len (requestsOf MarshalMap papers)) 0) as [?|_];
    [unfold len in *; lia|].
  unfold executeBatchWriteWithRetry. change (Z.to_nat maxRetries) with 3%nat.
  cbn [retryLoop].
  change (0 <? maxRetries) with true. cbn [andb].
  destruct (Z.gtb_spec (len (requestsOf MarshalMap papers)) 0) as [_|?];
    [|unfold len in *; lia].
  change (0 >? 0) with false. cbv iota.
  erewrite bind_Ret by reflexivity.
  set (input := mkBatchWriteItemInput _).
  destruct (batchWriteItem_run (client wr) input (addLogs w entries))
    as (output & err & s' & Hcall & Hbw).
  erewrite bind_Ret by apply Hbw. cbn beta iota.
  specialize (Hall input (ext (addLogs w entries))). rewrite Hcall in Hall.
  destruct Hall as (out & Heq & Hz). simpl in Heq. injection Heq as -> ->.
  erewrite bind_Ret by reflexivity.
  assert (Hend : forall w1,
            (log LevelInfo "Batch write completed successfully" ;; mret None) w1
            = (Ret (None : option error),
               addLogs w1 [mkLogEntry LevelInfo "Batch write completed successfully"])).
  { intros w1. by erewrite bind_Ret by apply log_run. }
  destruct (UnprocessedItems out !! tableName wr) as [u|] eqn:Hu.
  - simpl in Hz. destruct (Z.gtb_spec (len u) 0) as [?|_]; [lia|].
    rewrite Hend. eexists _, _. split; [done|]. split; [done|].
    subst input. unfold batchWrites. simpl. by rewrite lookup_singleton_eq.
  - rewrite Hend. eexists _, _. split; [done|]. split; [done|].
    subst input. unfold batchWrites. simpl. by rewrite lookup_singleton_eq.
Qed.

Lemma writer_batchAt_take (papers : list Paper) (i : Z) :
  0 <= i < len papers ->
  batchAt papers i = take (Z.to_nat MaxBatchSize) (drop (Z.to_nat i) papers).
Proof. intros Hi. unfold batchAt. by apply slice_chunk. Qed.

Lemma writer_batchAt_length (papers : list Paper) (i : Z) :
  0 <= i < len papers ->
  len (batchAt papers i) = Z.min MaxBatchSize (len papers - i).
Proof.
  intros Hi. rewrite writer_batchAt_take by done. unfold len, MaxBatchSize in *.
  rewrite length_take, length_drop. lia.
Qed.

Lemma writer_Forall_batchAt (P : Paper -> Prop) (papers : list Paper) (i : Z) :
  Forall P papers -> Forall P (batchAt papers i).
Proof. intros H. unfold batchAt, slice. by apply Forall_take, Forall_drop. Qed.

(** With a store that writes everything, the loop of
    [BatchUpsertWithStats] makes one call per chunk and counts every
    chunk as a success. *)
Lemma statsLoop_writesAll (fuel : nat) : forall (papers : list Paper) (i : Z) stats w,
  alwaysWritesAll (client wr) (tableName wr) ->
  Forall (fun p => marshals MarshalMap p = true) papers ->
  0 <= i -> len papers - i <= Z.of_nat fuel ->
  exists stats' w' tr,
    statsLoop MarshalMap wr fuel papers i stats w = (Ret stats', w')
    /\ callsBetween w w' tr
    /\ map length (batchWrites (tableName wr) tr)
       = chunkSizes 25 (Z.to_nat (len papers - i))
    /\ SuccessItems stats' = SuccessItems stats + Z.max 0 (len papers - i)
    /\ FailedItems stats' = FailedItems stats
    /\ FailedBatches stats' = FailedBatches stats
    /\ TotalItems stats' = TotalItems stats
    /\ BatchCount stats' = BatchCount stats.
Proof.
  induction fuel as [|fuel IH]; intros papers i stats w Hall Hm Hi Hfuel.
  - simpl. destruct (Z.ltb_spec i (len papers)) as [?|Hge]; [lia|].
    exists stats, w, []. split; [done|]. split; [apply callsBetween_refl|].
    replace (Z.to_nat (len papers - i)) with 0%nat by lia.
    repeat split; try done. lia.
  - cbn [statsLoop]. destruct (Z.ltb_spec i (len papers)) as [Hlt|Hge].
    2:{ exists stats, w, []. split; [done|]. split; [apply callsBetween_refl|].
        replace (Z.to_nat (len papers - i)) with 0%nat by lia.
        repeat split; try done. lia. }
    pose proof (writer_batchAt_length papers i (conj Hi Hlt)) as Hblen.
    destruct (processBatch_writesAll (batchAt papers i) w Hall)
      as (w1 & c & Hpb & Htr1 & Hbw1);
      [by apply writer_Forall_batchAt|unfold MaxBatchSize in *; lia|].
    erewrite bind_Ret by apply Hpb.
    edestruct (IH papers (i + MaxBatchSize)) as
      (stats' & w' & tr & Hrun & Htr & Hsizes & Hs1 & Hs2 & Hs3 & Hs4 & Hs5);
      [done|done|unfold MaxBatchSize; lia|unfold MaxBatchSize; lia|].
    rewrite Hrun. exists stats', w', ([c] ++ tr)%list.
    split; [done|]. split; [by eapply callsBetween_trans|].
    cbn [SuccessItems FailedItems FailedBatches TotalItems BatchCount] in *.
    split.
    { rewrite batchWrites_app, map_app, Hbw1, Hsizes.
      rewrite (SpecProps.chunkSizes_pos 25 (Z.to_nat (len papers - i))) by lia.
      cbn [map app]. f_equal.
      - rewrite length_requestsOf_all by (by apply writer_Forall_batchAt).
        unfold len, MaxBatchSize in *. lia.
      - f_equal. unfold MaxBatchSize. lia. }
    repeat split; try done. unfold MaxBatchSize in *. lia.
Qed.

Lemma BatchUpsertWithStats_writesAll (papers : list Paper) w :
  alwaysWritesAll (client wr) (tableName wr) ->
  Forall (fun p => marshals MarshalMap p = true) papers ->
  exists stats w' tr,
    BatchUpsertWithStats MarshalMap wr papers w = (Ret (Some stats, None), w')
    /\ callsBetween w w' tr
    /\ map length (batchWrites (tableName wr) tr) = chunkSizes 25 (length papers)
    /\ SuccessItems stats = len papers
    /\ FailedItems stats = 0.
Proof.
  intros Hall Hm. unfold BatchUpsertWithStats.
  destruct (Z.eqb_spec (len papers) 0) as [Hz|Hnz].
  { apply len_zero in Hz. subst papers. eexists _, w, [].
    split; [done|]. split; [apply callsBetween_refl|]. by repeat split. }
  erewrite bind_Ret by apply log_run.
  edestruct (statsLoop_writesAll (length papers) papers 0) as
    (stats' & w' & tr & Hrun & Htr & Hsizes & Hs1 & Hs2 & _);
    [done|done|lia|unfold len; lia|].
  erewrite bind_Ret by apply Hrun.
  erewrite bind_Ret by apply log_run.
  eexists _, _, tr. split; [done|]. split; [done|].
  replace (Z.to_nat (len papers - 0)) with (length papers) in Hsizes
    by (unfold len; lia).
  split; [done|]. cbn [SuccessItems FailedItems] in *.
  pose proof (len_nonneg papers). split; [lia|done].
Qed.

(** The same for the loop of [BatchUpsert]. *)
Lemma upsertLoop_writesAll (fuel : nat) : forall (papers : list Paper) (i : Z) w,
  alwaysWritesAll (client wr) (tableName wr) ->
  Forall (fun p => marshals MarshalMap p = true) papers ->
  0 <= i -> len papers - i <= Z.of_nat fuel ->
  exists w' tr,
    upsertLoop MarshalMap wr fuel papers i w = (Ret None, w')
    /\ callsBetween w w' tr
    /\ map length (batchWrites (tableName wr) tr)
       = chunkSizes 25 (Z.to_nat (len papers - i)).
Proof.
  induction fuel as [|fuel IH]; intros papers i w Hall Hm Hi Hfuel.
  - simpl. destruct (Z.ltb_spec i (len papers)) as [?|Hge]; [lia|].
    exists w, []. split; [done|]. split; [apply callsBetween_refl|].
    by replace (Z.to_nat (len papers - i)) with 0%nat by lia.
  - cbn [upsertLoop]. destruct (Z.ltb_spec i (len papers)) as [Hlt|Hge].
    2:{ exists w, []. split; [done|]. split; [apply callsBetween_refl|].
        by replace (Z.to_nat (len papers - i)) with 0%nat by lia. }
    pose proof (writer_batchAt_length papers i (conj Hi Hlt)) as Hblen.
    destruct (processBatch_writesAll (batchAt papers i) w Hall)
      as (w1 & c & Hpb & Htr1 & Hbw1);
      [by apply writer_Forall_batchAt|unfold MaxBatchSize in *; lia|].
    erewrite bind_Ret by apply Hpb. cbv iota.
    erewrite bind_Ret by apply log_run.
    edestruct (IH papers (i + MaxBatchSize)) as (w' & tr & Hrun & Htr & Hsizes);
      [done|done|unfold MaxBatchSize; lia|unfold MaxBatchSize; lia|].
    rewrite Hrun. exists w', ([c] ++ tr)%list.
    split; [done|]. split.
    { eapply callsBetween_trans; [apply Htr1|]. exact Htr. }
    rewrite batchWrites_app, map_app, Hbw1, Hsizes.
    rewrite (SpecProps.chunkSizes_pos 25 (Z.to_nat (len papers - i))) by lia.
    cbn [map app]. f_equal.
    + rewrite length_requestsOf_all by (by apply writer_Forall_batchAt).
      unfold len, MaxBatchSize in *. lia.
    + f_equal. unfold MaxBatchSize. lia.
Qed.

Lemma BatchUpsert_writesAll (papers : list Paper) w :
  alwaysWritesAll (client wr) (tableName wr) ->
  Forall (fun p => marshals MarshalMap p = true) papers ->
  exists w' tr,
    BatchUpsert MarshalMap wr papers w = (Ret None, w')
    /\ callsBetween w w' tr
    /\ map length (batchWrites (tableName wr) tr) = chunkSizes 25 (length papers).
Proof.
  intros Hall Hm. unfold BatchUpsert.
  destruct (Z.eqb_spec (len papers) 0) as [Hz|Hnz].
  { apply len_zero in Hz. subst papers.
    erewrite bind_Ret by apply log_run. eexists _, [].
    split; [reflexivity|].
    split; [apply callsBetween_addLogs_r, callsBetween_refl|done]. }
  erewrite bind_Ret by apply log_run.
  edestruct (upsertLoop_writesAll (length papers) papers 0) as
    (w' & tr & Hrun & Htr & Hsizes); [done|done|lia|unfold len; lia|].
  erewrite bind_Ret by apply Hrun. cbv iota.
  erewrite bind_Ret by apply log_run.
  eexists _, tr. split; [done|]. split; [done|].
  by replace (Z.to_nat (len papers - 0)) with (length papers) in Hsizes
    by (unfold len; lia).
Qed.

End WithClient.

End WriterProps.

(** ** The paginated retriever *)

Module RetrieverProps.
Import DynamoDB Client Runtime Spec Retriever RetrieverSpec GoProps RuntimeProps.

Section WithClient.
Context {S Item : Type}.
Variable UnmarshalListOfMaps : list Item -> list Paper + error.
Variable TrimSpace : string -> string.
Variable r : DataRetriever S Item.
Implicit Types w : World S Item.

Lemma query_run (client : DynamoDBAPI S Item) input w :
  exists output err s',
    QueryWithContext client input (ext w) = ((output, err), s')
    /\ query client input w
       = (Ret (output, err), addCall w s' (CallQuery input output err)).
Proof.
  unfold query.
  destruct (QueryWithContext client input (ext w)) as [[output err] s'].
  by exists output, err, s'.
Qed.

Lemma errorEntries_app (a b : list LogEntry) :
  errorEntries (a ++ b) = (errorEntries a ++ errorEntries b)%list.
Proof. apply filter_app. Qed.

Lemma logsBetween_refl w : logsBetween w w [].
Proof. unfold logsBetween. by rewrite app_nil_r. Qed.

Lemma logsBetween_trans (w1 w2 w3 : World S Item) e1 e2 :
  logsBetween w1 w2 e1 -> logsBetween w2 w3 e2 -> logsBetween w1 w3 (e1 ++ e2).
Proof. unfold logsBetween. intros H1 H2. by rewrite H2, H1, app_assoc. Qed.

Lemma retriever_validateLoop_run (papers : list Paper) : forall valid w,
  exists entries,
    validateLoop (S:=S) (Item:=Item) papers valid w
    = (Ret (valid ++ validOf papers)%list, addLogs w entries)
    /\ errorEntries entries = [].
Proof.
  induction papers as [|p papers IH]; intros valid w.
  - exists []. simpl. by rewrite app_nil_r, addLogs_nil.
  - cbn [validateLoop]. unfold validOf. rewrite filter_cons.
    destruct (validatePaper p) as [e|].
    + destruct (decide _); [done|].
      erewrite bind_Ret by apply log_run.
      edestruct IH as (entries & -> & He). eexists (_ :: entries).
      by rewrite addLogs_addLogs.
    + destruct (decide _); [|done].
      edestruct IH as (entries & -> & He). exists entries.
      by rewrite <- app_assoc.
Qed.

Lemma combineLoop_run (papers : list Paper) : forall texts w,
  exists entries,
    combineLoop (S:=S) (Item:=Item) TrimSpace papers texts w
    = (Ret (texts ++ combineOf TrimSpace papers)%list, addLogs w entries)
    /\ errorEntries entries = [].
Proof.
  induction papers as [|p papers IH]; intros texts w.
  - exists []. simpl. by rewrite app_nil_r, addLogs_nil.
  - cbn [combineLoop]. unfold combineOf, combineOne. cbn [omap list_omap].
    destruct (isEmpty (Title p) && isEmpty (Abstract p)).
    + erewrite bind_Ret by apply log_run.
      edestruct IH as (entries & -> & He). eexists (_ :: entries).
      by rewrite addLogs_addLogs.
    + edestruct IH as (entries & -> & He). exists entries.
      split; [|done]. do 2 f_equal. rewrite <- app_assoc. do 2 f_equal.
      by destruct (negb (isEmpty (Title p))), (negb (isEmpty (Abstract p))).
Qed.

(** Whatever the store answers, the page loop queries it at most
    [maxPages - pageCount] times. *)
Lemma pageLoop_bound (fuel : nat) : forall traceID (pageCount : Z) allPapers key
    w res w',
  0 <= pageCount -> maxPages - pageCount <= Z.of_nat fuel ->
  pageLoop UnmarshalListOfMaps r fuel traceID pageCount allPapers key w = (res, w') ->
  exists tr,
    callsBetween w w' tr
    /\ length (queries tr) = length tr
    /\ Z.of_nat (length tr) <= Z.max 0 (maxPages - pageCount)
    /\ res <> OutOfFuel.
Proof.
  induction fuel as [|fuel IH];
    intros traceID pageCount allPapers key w res w' Hp Hfuel Hrun.
  - simpl in Hrun. destruct (Z.ltb_spec pageCount maxPages) as [?|Hge]; [lia|].
    injection Hrun as <- <-. exists []. split; [apply callsBetween_refl|].
    repeat split; try done. simpl. lia.
  - cbn [pageLoop] in Hrun.
    destruct (Z.ltb_spec pageCount maxPages) as [Hlt|Hge].
    2:{ injection Hrun as <- <-. exists []. split; [apply callsBetween_refl|].
        repeat split; try done. simpl. lia. }
    cbv zeta in Hrun.
    set (input := mkQueryInput _ _ _ _ _ _) in Hrun.
    destruct (query_run (client r) input w) as (output & err & s' & Hcall & Hq).
    erewrite bind_Ret in Hrun by apply Hq. cbn beta iota in Hrun.
    set (c := CallQuery input output err) in *.
    assert (Hone : forall l, callsBetween w (addLogs (addCall w s' c) l) [c]
                   /\ length (queries [c]) = length [c]
                   /\ Z.of_nat (length [c]) <= Z.max 0 (maxPages - pageCount)).
    { intros l. repeat split. simpl. lia. }
    destruct err as [e|].
    { erewrite bind_Ret in Hrun by apply log_run. injection Hrun as <- <-.
      exists [c]. destruct (Hone [mkLogEntry LevelError
        "Failed to query papers by traceID"]) as (? & ? & ?). by repeat split. }
    destruct output as [output|].
    2:{ erewrite bind_Panic in Hrun by reflexivity. injection Hrun as <- <-.
        exists [c]. destruct (Hone []) as (H1 & ? & ?).
        rewrite addLogs_nil in H1. by repeat split. }
    erewrite bind_Ret in Hrun by reflexivity.
    destruct (UnmarshalListOfMaps (Items output)) as [papers|e].
    2:{ erewrite bind_Ret in Hrun by apply log_run. injection Hrun as <- <-.
        exists [c]. destruct (Hone [mkLogEntry LevelError
          "Failed to unmarshal papers"]) as (? & ? & ?). by repeat split. }
    destruct (retriever_validateLoop_run papers [] (addCall w s' c)) as (entries & Hv & _).
    erewrite bind_Ret in Hrun by apply Hv.
    erewrite bind_Ret in Hrun by apply log_run. rewrite addLogs_addLogs in Hrun.
    destruct (LastEvaluatedKey output) as [key'|].
    2:{ injection Hrun as <- <-. exists [c].
        destruct (Hone (entries ++ [mkLogEntry LevelInfo "Retrieved paper batch"])%list)
          as (? & ? & ?). by repeat split. }
    apply IH in Hrun; [|lia|lia].
    destruct Hrun as (tr & Htr & Hq2 & Hlen & Hne).
    exists ([c] ++ tr)%list. split.
    { eapply callsBetween_trans; [|apply Htr]. apply Hone. }
    rewrite queries_app, !length_app, Hq2. repeat split; try done.
    simpl length. lia.
Qed.

(** Against a store that always hands back a next cursor the page loop
    stops at the ceiling, with the valid papers of every page. *)
Lemma pageLoop_ceiling (fuel : nat) : forall traceID (pageCount : Z) allPapers key w,
  alwaysHasNextPage (client r) ->
  (forall items, exists papers, UnmarshalListOfMaps items = inl papers) ->
  0 <= pageCount <= maxPages -> maxPages - pageCount <= Z.of_nat fuel ->
  exists w' tr entries,
    pageLoop UnmarshalListOfMaps r fuel traceID pageCount allPapers key w
    = (Ret (inr (maxPages,
                 (allPapers ++ papersOf UnmarshalListOfMaps (pages tr))%list)), w')
    /\ callsBetween w w' tr
    /\ logsBetween w w' entries
    /\ errorEntries entries = []
    /\ length (queries tr) = Z.to_nat (maxPages - pageCount)
    /\ length (pages tr) = Z.to_nat (maxPages - pageCount)
    /\ length tr = Z.to_nat (maxPages - pageCount).
Proof.
  induction fuel as [|fuel IH];
    intros traceID pageCount allPapers key w Hnext Hun Hp Hfuel.
  - simpl. destruct (Z.ltb_spec pageCount maxPages) as [?|Hge]; [lia|].
    assert (pageCount = maxPages) as -> by lia.
    exists w, [], []. rewrite Z.sub_diag. simpl. rewrite app_nil_r.
    split; [done|]. split; [apply callsBetween_refl|].
    split; [apply logsBetween_refl|]. done.
  - cbn [pageLoop]. destruct (Z.ltb_spec pageCount maxPages) as [Hlt|Hge].
    2:{ assert (pageCount = maxPages) as -> by lia.
        exists w, [], []. rewrite Z.sub_diag. simpl. rewrite app_nil_r.
        split; [done|]. split; [apply callsBetween_refl|].
        split; [apply logsBetween_refl|]. done. }
    cbv zeta. set (input := mkQueryInput _ _ _ _ _ _).
    destruct (query_run (client r) input w) as (output & err & s' & Hcall & Hq).
    destruct (Hnext input (ext w)) as (items & key' & s'' & Hans).
    rewrite Hans in Hcall. injection Hcall as <- <- <-.
    erewrite bind_Ret by apply Hq. cbn beta iota.
    erewrite bind_Ret by reflexivity. cbn [Items LastEvaluatedKey].
    destruct (Hun items) as (papers & Hpapers). rewrite Hpapers.
    set (c := CallQuery input _ _) in *.
    destruct (retriever_validateLoop_run papers [] (addCall w s'' c)) as (entries & Hv & He).
    erewrite bind_Ret by apply Hv.
    erewrite bind_Ret by apply log_run. rewrite addLogs_addLogs. cbn [app].
    edestruct (IH traceID (pageCount + 1) (allPapers ++ validOf papers)%list
                 (Some key')
                 (addLogs (addCall w s'' c)
                    (entries ++ [mkLogEntry LevelInfo "Retrieved paper batch"])))
      as (w' & tr & entries' & Hrun & Htr & Hlogs & Herr & Hq1 & Hq2 & Hq3);
      [done|done|lia|lia|].
    rewrite Hrun.
    exists w', ([c] ++ tr)%list,
      ((entries ++ [mkLogEntry LevelInfo "Retrieved paper batch"]) ++ entries')%list.
    split.
    { do 3 f_equal. rewrite pages_app. unfold papersOf.
      rewrite map_app, concat_app. cbn [pages omap list_omap map concat c].
      assert (pagePapers UnmarshalListOfMaps (mkQueryOutput items (Some key'))
              = validOf papers) as ->
        by (unfold pagePapers; cbn [Items]; by rewrite Hpapers).
      by rewrite app_nil_r, app_assoc. }
    split; [apply (callsBetween_trans w (addCall w s'' c) w' [c] tr);
            [done|exact Htr]|].
    split.
    { unfold logsBetween in *. rewrite Hlogs. simpl.
      by rewrite <- !app_assoc. }
    split.
    { rewrite !errorEntries_app, He, Herr. done. }
    rewrite queries_app, pages_app, !length_app, Hq1, Hq2, Hq3.
    cbn [queries pages omap list_omap length c]. repeat split; lia.
Qed.

(** C8: for every trace id and every behaviour of the store,
    [GetCombinedTextsByTraceID] issues at most 100 page queries; against
    a store that always returns a next pagination cursor (and whose
    items unmarshal) it stops after exactly 100 queries, logs the
    ceiling as a warning and no error, and returns without error the
    combined texts of the valid papers of the 100 pages it retrieved. *)
Theorem C8_pagination_ceiling (traceID : string) w :
  (forall res w',
     GetCombinedTextsByTraceID UnmarshalListOfMaps TrimSpace r traceID w = (res, w') ->
     exists tr,
       callsBetween w w' tr
       /\ length (queries tr) = length tr
       /\ (length (queries tr) <= 100)%nat
       /\ res <> OutOfFuel)
  /\ (traceID <> "" ->
      alwaysHasNextPage (client r) ->
      (forall items, exists papers, UnmarshalListOfMaps items = inl papers) ->
      exists w' tr entries,
        GetCombinedTextsByTraceID UnmarshalListOfMaps TrimSpace r traceID w
        = (Ret (combineOf TrimSpace (papersOf UnmarshalListOfMaps (pages tr)),
                None), w')
        /\ callsBetween w w' tr
        /\ length (queries tr) = 100%nat
        /\ length (pages tr) = 100%nat
        /\ length tr = 100%nat
        /\ logsBetween w w' entries
        /\ mkLogEntry LevelWarn "Hit maximum page limit during retrieval" ∈ entries
        /\ errorEntries entries = []).
Proof.
  split.
  - intros res w' Hrun. unfold GetCombinedTextsByTraceID in Hrun.
    destruct (isEmpty traceID).
    { injection Hrun as <- <-. exists []. split; [apply callsBetween_refl|].
      repeat split; try done. simpl. lia. }
    erewrite bind_Ret in Hrun by apply log_run.
    destruct (pageLoop UnmarshalListOfMaps r (Z.to_nat maxPages) traceID 0 [] None
                (addLogs w [mkLogEntry LevelInfo "Starting paper retrieval by traceID"]))
      as [rl wl] eqn:Hl.
    pose proof Hl as Hl'.
    apply pageLoop_bound in Hl' as (tr & Htr & Hq & Hlen & Hne);
      [|lia|unfold maxPages; lia].
    unfold maxPages in Hlen.
    assert (Hpost : forall (m : M S Item (list CombinedText * option error)) res2 w2,
              callsBetween wl w2 [] -> m wl = (res2, w2) -> res2 <> OutOfFuel ->
              (m wl = (res, w') ->
               exists tr, callsBetween w w' tr /\ length (queries tr) = length tr
                 /\ (length (queries tr) <= 100)%nat /\ res <> OutOfFuel)).
    { intros m res2 w2 Hw2 Hm Hne2 Hm'. rewrite Hm in Hm'. injection Hm' as <- <-.
      exists tr. split.
      - unfold callsBetween in *. rewrite Hw2, app_nil_r. exact Htr.
      - repeat split; try done. lia. }
    destruct rl as [[e|[pageCount allPapers]]|reason|]; [| | |done].
    + erewrite bind_Ret in Hrun by apply Hl. cbv iota in Hrun.
      eapply (Hpost (mret ([], Some e))); [|reflexivity|done|exact Hrun].
      apply callsBetween_refl.
    + erewrite bind_Ret in Hrun by apply Hl. cbv iota in Hrun.
      assert (Hw : exists l, (if pageCount >=? maxPages
                 then log LevelWarn "Hit maximum page limit during retrieval"
                 else mret tt) wl = (Ret tt, addLogs wl l)).
      { destruct (pageCount >=? maxPages); [by eexists|].
        exists []. by rewrite addLogs_nil. }
      destruct Hw as (l1 & Hw).
      erewrite bind_Ret in Hrun by apply Hw.
      erewrite bind_Ret in Hrun by apply log_run. rewrite addLogs_addLogs in Hrun.
      destruct (len allPapers =? 0).
      { injection Hrun as <- <-. exists tr. repeat split; try done. lia. }
      erewrite bind_Ret in Hrun by apply log_run. rewrite addLogs_addLogs in Hrun.
      edestruct (combineLoop_run allPapers []) as (l2 & Hc & _).
      erewrite bind_Ret in Hrun by apply Hc.
      erewrite bind_Ret in Hrun by apply log_run.
      injection Hrun as <- <-. exists tr. repeat split; try done. lia.
    + erewrite bind_Panic in Hrun by apply Hl. injection Hrun as <- <-.
      exists tr. repeat split; try done. lia.
  - intros Hne Hnext Hun. unfold GetCombinedTextsByTraceID.
    apply isEmpty_false in Hne. rewrite Hne.
    erewrite bind_Ret by apply log_run.
    edestruct (pageLoop_ceiling (Z.to_nat maxPages) traceID 0 [] None
                 (addLogs w [mkLogEntry LevelInfo "Starting paper retrieval by traceID"]))
      as (w1 & tr & entries & Hrun & Htr & Hlogs & Herr & Hq1 & Hq2 & Hq3);
      [done|done|unfold maxPages; lia|unfold maxPages; lia|].
    erewrite bind_Ret by apply Hrun. cbv iota. cbn [app].
    change (maxPages >=? maxPages) with true. cbv iota.
    erewrite bind_Ret by apply log_run.
    erewrite bind_Ret by apply log_run. rewrite addLogs_addLogs.
    set (papers := papersOf UnmarshalListOfMaps (pages tr)).
    set (l0 := [mkLogEntry LevelInfo "Starting paper retrieval by traceID"]) in *.
    set (l1 := ([mkLogEntry LevelWarn "Hit maximum page limit during retrieval"]
                ++ [mkLogEntry LevelInfo "Completed paper retrieval by traceID"])%list).
    change (Z.to_nat (maxPages - 0)) with 100%nat in *.
    assert (Hlogs1 : forall l, logsBetween w (addLogs w1 (l1 ++ l))
                                 (l0 ++ entries ++ l1 ++ l)).
    { intros l. unfold logsBetween in *. simpl. rewrite Hlogs. simpl.
      by rewrite <- !app_assoc. }
    assert (Hwarn : forall l,
              mkLogEntry LevelWarn "Hit maximum page limit during retrieval"
              ∈ (l0 ++ entries ++ l1 ++ l)%list).
    { intros l. apply elem_of_app. right. apply elem_of_app. right.
      apply elem_of_app. left. subst l1. apply list_elem_of_here. }
    destruct (Z.eqb_spec (len papers) 0) as [Hz|Hnz].
    { apply len_zero in Hz.
      exists (addLogs w1 l1), tr, (l0 ++ entries ++ l1 ++ [])%list.
      split; [by fold papers; rewrite Hz|]. split; [exact Htr|].
      split; [done|]. split; [done|]. split; [done|].
      split; [rewrite <- (app_nil_r l1) at 1; apply Hlogs1|].
      split; [apply Hwarn|].
      rewrite !errorEntries_app, Herr. done. }
    erewrite bind_Ret by apply log_run. rewrite addLogs_addLogs.
    edestruct (combineLoop_run papers []) as (l2 & Hc & He2).
    erewrite bind_Ret by apply Hc. rewrite addLogs_addLogs.
    erewrite bind_Ret by apply log_run. rewrite mret_run, addLogs_addLogs.
    cbn [app].
    eexists _, tr,
      (l0 ++ entries ++ l1
       ++ ([mkLogEntry LevelInfo "Starting text combination"] ++ l2
           ++ [mkLogEntry LevelInfo "Completed text combination"]))%list.
    split; [reflexivity|]. split; [exact Htr|].
    split; [done|]. split; [done|]. split; [done|].
    split; [rewrite <- !app_assoc; apply Hlogs1|].
    split; [apply Hwarn|].
    rewrite !errorEntries_app, Herr, He2. done.
Qed.

(** An empty trace id is refused before anything is asked of the store:
    the world is left as it was. *)
Lemma GetCombinedTextsByTraceID_empty w :
  GetCombinedTextsByTraceID UnmarshalListOfMaps TrimSpace r "" w
  = (Ret ([], Some "traceID cannot be empty"), w).
Proof. reflexivity. Qed.

End WithClient.

End RetrieverProps.

(** ** The vectorization stage *)

Module CoordinatorProps.
Import DynamoDB Client Runtime Spec Coordinator CoordinatorSpec GoProps RuntimeProps.
Import Retriever(CombinedText, CombinedText_PaperID, CombinedText_Text).
Import Storage(VectorRecord, BatchWriteResult, SuccessCount, FailedItems, Errors).

Section WithCollaborators.
Context {S Item : Type}.
Variable clock : S -> Z.
Variable RFC3339 : Z -> string.
Variable vc : VectorCoordinator S Item.
Implicit Types w : World S Item.

Lemma ask_run {A : Type} (f : S -> A) w : ask f w = (Ret (f (ext w)), w).
Proof. reflexivity. Qed.

(** The embedding loop counts every text once, as generated or as
    failed, and touches no other field of the result. *)
Lemma embeddingLoop_inv traceID total (texts : list CombinedText) :
  forall (i : Z) vectorRecords embeddingErrors result w vrs' errs' result' w',
    embeddingLoop clock RFC3339 vc traceID total texts i vectorRecords
      embeddingErrors result w
    = (Ret (vrs', errs', result'), w') ->
    len vrs' = len vectorRecords
               + (EmbeddingsGenerated result' - EmbeddingsGenerated result)
    /\ EmbeddingsGenerated result <= EmbeddingsGenerated result'
    /\ FailedEmbeddings result <= FailedEmbeddings result'
    /\ (EmbeddingsGenerated result' - EmbeddingsGenerated result)
       + (FailedEmbeddings result' - FailedEmbeddings result) = len texts
    /\ TraceID result' = TraceID result
    /\ Status result' = Status result
    /\ TotalPapers result' = TotalPapers result
    /\ VectorsStored result' = VectorsStored result
    /\ FailedStorage result' = FailedStorage result
    /\ ErrorMessage result' = ErrorMessage result.
Proof.
  induction texts as [|text texts IH];
    intros i vrs errs result w vrs' errs' result' w' Hrun.
  - injection Hrun as <- <- <- <-. rewrite len_nil. repeat split; lia.
  - cbn [embeddingLoop] in Hrun.
    erewrite bind_Ret in Hrun by apply ask_run.
    assert (Hlog : exists l,
              (if (Z.rem (i + 1) 10 =? 0) || (i =? total - 1)
               then log LevelInfo "Embedding generation progress"
               else mret tt) w = (Ret tt, addLogs w l)).
    { destruct (_ || _); [by eexists|]. exists []. by rewrite addLogs_nil. }
    destruct Hlog as (l & Hlog).
    erewrite bind_Ret in Hrun by apply Hlog.
    apply bind_inv in Hrun as ([response err] & w1 & Hapi & Hrun).
    rewrite len_cons. destruct err as [e|].
    + erewrite bind_Ret in Hrun by apply log_run.
      apply IH in Hrun. cbn in Hrun.
      destruct Hrun as (H1 & H2 & H3 & H4 & H5 & H6 & H7 & H8 & H9 & H10).
      repeat split; try done; lia.
    + unfold since in Hrun. erewrite bind_Ret in Hrun by apply ask_run.
      destruct response as [response|].
      2:{ erewrite bind_Panic in Hrun by reflexivity. done. }
      erewrite bind_Ret in Hrun by reflexivity.
      unfold Storage.CreateVectorRecord in Hrun.
      erewrite bind_Ret in Hrun.
      2:{ erewrite bind_Ret by apply ask_run. reflexivity. }
      apply IH in Hrun. cbn in Hrun. rewrite len_app, len_cons, len_nil in Hrun.
      destruct Hrun as (H1 & H2 & H3 & H4 & H5 & H6 & H7 & H8 & H9 & H10).
      repeat split; try done; lia.
Qed.

Lemma storageErrorLoop_run (errors : list error) w :
  exists l, storageErrorLoop (S:=S) (Item:=Item) errors w = (Ret tt, addLogs w l).
Proof.
  revert w. induction errors as [|e errors IH]; intros w.
  - exists []. by rewrite addLogs_nil.
  - cbn [storageErrorLoop]. erewrite bind_Ret by apply log_run.
    destruct (IH (addLogs w [mkLogEntry LevelError "Storage error detail"]))
      as (l & ->).
    eexists. by rewrite addLogs_addLogs.
Qed.

Lemma if_log_run (b : bool) level message w :
  exists l,
    (if b then log level message else mret tt) w = (Ret tt, addLogs w l).
Proof.
  destruct b; [by eexists|]. exists []. by rewrite addLogs_nil.
Qed.

Lemma logSystemMetrics_run result w :
  exists l, logSystemMetrics (S:=S) (Item:=Item) result w = (Ret tt, addLogs w l).
Proof.
  unfold logSystemMetrics.
  erewrite bind_Ret by apply log_run.
  edestruct if_log_run as (l1 & H1). erewrite bind_Ret by apply H1.
  edestruct if_log_run as (l2 & H2). erewrite bind_Ret by apply H2.
  edestruct if_log_run as (l3 & H3). erewrite bind_Ret by apply H3.
  edestruct if_log_run as (l4 & H4). rewrite H4.
  rewrite !addLogs_addLogs. by eexists.
Qed.

(** The ways [processVectorization] returns: by one of its early exits,
    or with the classification of what the storage reported. *)
Lemma processVectorization_inv traceID w out w' :
  processVectorization clock RFC3339 vc traceID w = (Ret out, w') ->
  exists res,
    fst out = Some res
    /\ TraceID res = traceID
    /\ 0 <= FailedEmbeddings res
    /\ 0 <= EmbeddingsGenerated res
    /\ ((traceID = "" /\ w' = addLogs w
            [mkLogEntry LevelInfo "Starting vectorization processing";
             mkLogEntry LevelError "Input validation failed"]
         /\ Status res = StatusFailed /\ EmbeddingsGenerated res = 0
         /\ ErrorMessage res = Error validationError
         /\ snd out = Some validationError)
        \/ (traceID <> "" /\ EmbeddingsGenerated res = 0
            /\ exists e texts w0 w1,
                retriever vc traceID w0 = (Ret (texts, Some e), w1)
                /\ Status res = StatusFailed
                /\ snd out = Some (retrievalError e))
        \/ (traceID <> "" /\ EmbeddingsGenerated res = 0
            /\ TotalPapers res = 0
            /\ Status res = StatusCompleted /\ snd out = None)
        \/ (traceID <> "" /\ EmbeddingsGenerated res = 0
            /\ 0 < TotalPapers res
            /\ Status res = StatusFailed /\ snd out = Some noEmbeddingsError)
        \/ (traceID <> "" /\ 0 < EmbeddingsGenerated res
            /\ exists e records batchResult w0 w1,
                vectorStorage vc records w0 = (Ret (batchResult, Some e), w1)
                /\ Status res = StatusFailed
                /\ snd out = Some (storageError e))
        \/ (traceID <> "" /\ 0 < EmbeddingsGenerated res
            /\ exists records batchResult w0 w1,
                records <> []
                /\ vectorStorage vc records w0
                   = (Ret (Some batchResult, None), w1)
                /\ VectorsStored res = SuccessCount batchResult
                /\ FailedStorage res = len (FailedItems batchResult)
                /\ classified traceID res (snd out))).
Proof.
  intros Hrun. unfold processVectorization in Hrun.
  erewrite bind_Ret in Hrun by apply ask_run.
  erewrite bind_Ret in Hrun by apply ask_run.
  erewrite bind_Ret in Hrun by apply log_run.
  destruct (isEmpty traceID) eqn:Hempty.
  { erewrite bind_Ret in Hrun by apply log_run. rewrite addLogs_addLogs in Hrun.
    injection Hrun as <- <-. apply isEmpty_true in Hempty.
    eexists. split; [reflexivity|]. cbn. repeat split; try done.
    left. by repeat split. }
  apply isEmpty_false in Hempty.
  erewrite bind_Ret in Hrun by apply log_run.
  apply bind_inv in Hrun as ([texts err] & w1 & Hret & Hrun).
  destruct err as [e|].
  { unfold since in Hrun. erewrite bind_Ret in Hrun by apply ask_run.
    erewrite bind_Ret in Hrun by apply log_run. injection Hrun as <- <-.
    eexists. split; [reflexivity|]. cbn. repeat split; try done.
    right. left. split; [done|]. split; [done|]. by eexists _, _, _, _. }
  erewrite bind_Ret in Hrun by apply log_run.
  cbn [TotalPapers setTotalPapers setStatus] in Hrun.
  destruct (Z.eqb_spec (len texts) 0) as [Hz|Hnz].
  { unfold since in Hrun. erewrite bind_Ret in Hrun by apply ask_run.
    erewrite bind_Ret in Hrun by apply log_run. injection Hrun as <- <-.
    eexists. split; [reflexivity|]. cbn. repeat split; try done.
    right. right. left. by repeat split. }
  erewrite bind_Ret in Hrun by apply log_run.
  apply bind_inv in Hrun as ([[vrs errs] result] & w2 & Hloop & Hrun).
  apply embeddingLoop_inv in Hloop. cbn in Hloop. rewrite len_nil in Hloop.
  destruct Hloop as (Hl1 & Hl2 & Hl3 & Hl4 & Hl5 & Hl6 & Hl7 & Hl8 & Hl9 & Hl10).
  pose proof (len_nonneg texts) as Htexts.
  pose proof (len_nonneg vrs) as Hvrs.
  cbn beta iota in Hrun.
  erewrite bind_Ret in Hrun by apply log_run.
  destruct (Z.eqb_spec (len vrs) 0) as [Hvz|Hvnz].
  { unfold since in Hrun. erewrite bind_Ret in Hrun by apply ask_run.
    erewrite bind_Ret in Hrun by apply log_run. injection Hrun as <- <-.
    eexists. split; [reflexivity|]. cbn. repeat split; try done; try lia.
    do 3 right. left. repeat split; try done; lia. }
  erewrite bind_Ret in Hrun by apply log_run.
  apply bind_inv in Hrun as ([batchResult err] & w3 & Hstore & Hrun).
  destruct err as [e|].
  { unfold since in Hrun. erewrite bind_Ret in Hrun by apply ask_run.
    erewrite bind_Ret in Hrun by apply log_run. injection Hrun as <- <-.
    eexists. split; [reflexivity|]. cbn. repeat split; try done; try lia.
    do 4 right. left. split; [done|]. split; [lia|].
    by eexists _, _, _, _, _. }
  destruct batchResult as [batchResult|].
  2:{ erewrite bind_Panic in Hrun by reflexivity. done. }
  erewrite bind_Ret in Hrun by reflexivity.
  unfold since in Hrun. erewrite bind_Ret in Hrun by apply ask_run.
  cbn [FailedEmbeddings FailedStorage VectorsStored setVectorsStored
         setFailedStorage setProcessingTimeMs] in Hrun.
  set (FE := FailedEmbeddings result) in *.
  set (FS := len (FailedItems batchResult)) in *.
  set (VS := SuccessCount batchResult) in *.
  set (classifiedResult := if (FE =? 0) && (FS =? 0) then _ else _) in Hrun.
  assert (Hfields :
            TraceID classifiedResult = traceID
            /\ FailedEmbeddings classifiedResult = FE
            /\ FailedStorage classifiedResult = FS
            /\ VectorsStored classifiedResult = VS
            /\ EmbeddingsGenerated classifiedResult = EmbeddingsGenerated result
            /\ TotalPapers classifiedResult = TotalPapers result
            /\ Status classifiedResult
               = (if (FE =? 0) && (FS =? 0) then StatusCompleted
                  else if VS >? 0 then StatusPartial else StatusFailed)
            /\ (Status classifiedResult = StatusFailed ->
                ErrorMessage classifiedResult
                = "all vectorization operations failed")).
  { subst classifiedResult.
    destruct ((FE =? 0) && (FS =? 0)); [|destruct (VS >? 0)]; cbn;
      by repeat split. }
  destruct Hfields as (Hf1 & Hf2 & Hf3 & Hf4 & Hf5 & Hf6 & Hf7 & Hf8).
  clearbody classifiedResult.
  erewrite bind_Ret in Hrun by apply log_run.
  destruct (if_log_run (FailedEmbeddings classifiedResult >? 0) LevelWarn
              "Some embeddings failed to generate"
              (addLogs w3 [mkLogEntry LevelInfo
                             "Vectorization processing completed"]))
    as (l1 & Hwarn1).
  set (w4 := addLogs (addLogs w3 _) l1) in *.
  erewrite bind_Ret in Hrun by apply Hwarn1.
  assert (Hwarn2 : exists l,
            (if FailedStorage classifiedResult >? 0
             then log LevelWarn "Some vector records failed to store" ;;
                  storageErrorLoop (Errors batchResult)
             else mret tt) w4 = (Ret tt, addLogs w4 l)).
  { destruct (FailedStorage classifiedResult >? 0).
    - destruct (storageErrorLoop_run (Errors batchResult)
                  (addLogs w4 [mkLogEntry LevelWarn
                                 "Some vector records failed to store"]))
        as (l & Hl).
      exists ([mkLogEntry LevelWarn "Some vector records failed to store"] ++ l)%list.
      cbv iota. erewrite bind_Ret by apply log_run. rewrite Hl.
      by rewrite addLogs_addLogs.
    - exists []. by rewrite addLogs_nil. }
  destruct Hwarn2 as (l2 & Hwarn2).
  erewrite bind_Ret in Hrun by apply Hwarn2.
  destruct (logSystemMetrics_run classifiedResult (addLogs w4 l2)) as (l3 & Hm).
  erewrite bind_Ret in Hrun by apply Hm.
  assert (Hcls : forall err,
            classified traceID classifiedResult err ->
            (Ret (Some classifiedResult, err), w') = (Ret out, w') ->
            exists res, fst out = Some res /\ TraceID res = traceID
              /\ 0 <= FailedEmbeddings res /\ 0 <= EmbeddingsGenerated res
              /\ (False \/ False \/ False \/ False \/ False
                  \/ (traceID <> "" /\ 0 < EmbeddingsGenerated res
                      /\ exists records batchResult w0 w1,
                          records <> []
                          /\ vectorStorage vc records w0
                             = (Ret (Some batchResult, None), w1)
                          /\ VectorsStored res = SuccessCount batchResult
                          /\ FailedStorage res = len (FailedItems batchResult)
                          /\ classified traceID res (snd out)))).
  { intros err Hc Heq. injection Heq as <-. exists classifiedResult.
    split; [done|]. split; [done|]. rewrite Hf2, Hf5.
    split; [subst FE; lia|]. split; [lia|].
    do 5 right. split; [done|]. split; [lia|].
    eexists vrs, batchResult, _, w3. split.
    { intros ->. by rewrite len_nil in Hvnz. }
    split; [exact Hstore|]. by repeat split. }
  assert (Hfinal : exists err,
            classified traceID classifiedResult err
            /\ (Ret (Some classifiedResult, err), w') = (Ret out, w')).
  { destruct (decide (Status classifiedResult = StatusFailed)) as [Hst|Hst].
    - injection Hrun as <- <-. eexists. split; [|reflexivity].
      right. right. rewrite Hf2, Hf3, Hf4. rewrite Hst in Hf7.
      destruct (Z.eqb_spec FE 0), (Z.eqb_spec FS 0); cbn in Hf7; try done;
        destruct (Z.gtb_spec VS 0); try done;
        (split; [done|]; split; [lia|]; split; [lia|]);
        by rewrite (Hf8 Hst).
    - destruct (decide (Status classifiedResult = StatusPartial)) as [Hsp|Hsp].
      + injection Hrun as <- <-. eexists. split; [|reflexivity].
        right. left. rewrite Hf2, Hf3, Hf4, Hf6. rewrite Hsp in Hf7.
        destruct (Z.eqb_spec FE 0), (Z.eqb_spec FS 0); cbn in Hf7; try done;
          destruct (Z.gtb_spec VS 0); try done;
          (split; [done|]; split; [lia|]; split; [lia|]); done.
      + injection Hrun as <- <-. eexists. split; [|reflexivity].
        left. rewrite Hf2, Hf3.
        destruct (Z.eqb_spec FE 0), (Z.eqb_spec FS 0); cbn in Hf7;
          try (destruct (Z.gtb_spec VS 0)); try congruence.
        all: by repeat split. }
  destruct Hfinal as (err & Hc & Heq).
  destruct (Hcls err Hc Heq) as (res & H1 & H2 & H3 & H4 & H5).
  exists res. repeat split; try done. tauto.
Qed.

End WithCollaborators.

Section Deployment.
Context {S Item : Type}.
Variable store : DynamoDBAPI S Item.
Variable embeddingAPI : EmbeddingAPI S.
Variable clock : S -> Z.
Variable RFC3339 : Z -> string.
Variable UnmarshalListOfMaps : list Item -> list Retriever.Paper + error.
Variable TrimSpace : string -> string.
Variable MarshalMap : VectorRecord -> Item + error.
Variables papersTableName indexName vectorsTableName : string.
Implicit Types w : World S Item.

(** The coordinator as [handleStepFunction] builds it. *)
Let vc : VectorCoordinator S Item :=
  coordinator store embeddingAPI UnmarshalListOfMaps TrimSpace MarshalMap
    papersTableName indexName vectorsTableName.

(** The storage of the deployed coordinator reports its failures in the
    result only, and stores or fails at least one record of a non-empty
    list. *)
Lemma deployed_storage records batchResult err w0 w1 :
  vectorStorage vc records w0 = (Ret (batchResult, err), w1) ->
  exists res, batchResult = Some res /\ err = None
    /\ 0 <= SuccessCount res
    /\ (SuccessCount res = 0 -> FailedItems res = [] -> records = []).
Proof.
  intros Hrun. cbn in Hrun.
  apply StorageProps.BatchStoreVectors_spec in Hrun
    as (tr & _ & _ & _ & res & Heq & H0 & Hz & _).
  injection Heq as -> ->. by exists res.
Qed.

(** C1: for every invocation of the vectorization stage that reaches the
    storage step (at least one embedding was generated), the final
    status is [completed] exactly when the embedding-failure count and
    the storage-failure count are both zero, [partial] exactly when at
    least one vector was stored and at least one embedding or storage
    failure occurred, and [failed] exactly when no vector was stored. *)
Theorem C1_final_status traceID w res err w' :
  processVectorization clock RFC3339 vc traceID w = (Ret (Some res, err), w') ->
  0 < EmbeddingsGenerated res ->
  (Status res = StatusCompleted
   <-> FailedEmbeddings res = 0 /\ FailedStorage res = 0)
  /\ (Status res = StatusPartial
      <-> 0 < VectorsStored res
          /\ (0 < FailedEmbeddings res \/ 0 < FailedStorage res))
  /\ (Status res = StatusFailed <-> VectorsStored res = 0).
Proof.
  intros Hrun Hgen.
  apply processVectorization_inv in Hrun as (res' & Hres & _ & HFE & _ & Hcases).
  injection Hres as <-. cbn [snd] in Hcases.
  destruct Hcases as [H|[H|[H|[H|[H|H]]]]].
  - destruct H as (_ & _ & _ & Hz & _). lia.
  - destruct H as (_ & Hz & _). lia.
  - destruct H as (_ & Hz & _). lia.
  - destruct H as (_ & Hz & _). lia.
  - destruct H as (_ & _ & e & records & br & w0 & w1 & Hst & _).
    apply deployed_storage in Hst as (? & _ & ? & _). done.
  - destruct H as (_ & _ & records & br & w0 & w1 & Hne & Hst & HVS & HFS & Hc).
    apply deployed_storage in Hst as (res0 & Heq & _ & Hs0 & Hzero).
    injection Heq as <-.
    pose proof (len_nonneg (FailedItems br)) as Hfs.
    assert (Hnz : ~ (VectorsStored res = 0 /\ FailedStorage res = 0)).
    { intros [H1 H2]. apply Hne, Hzero; [lia|]. apply len_zero. lia. }
    destruct Hc as [(Hs & H1 & H2 & _)|[(Hs & H1 & H2 & _)|(Hs & H1 & H2 & _)]];
      rewrite Hs; repeat split; try done; try lia.
Qed.

(** C2, as amended: whenever an invocation ends [partial] or [failed],
    [processVectorization] returns both a non-nil result and a non-nil
    error, and none when it ends [completed]; the text of the error
    contains the trace identifier when the status came from the final
    classification after the storage step (at least one embedding was
    generated); the exits before it return the error of their stage:
    validation, data retrieval, or embedding generation. *)
Theorem C2_error_accompanies_result traceID w out w' :
  processVectorization clock RFC3339 vc traceID w = (Ret out, w') ->
  exists res,
    fst out = Some res
    /\ (Status res = StatusCompleted -> snd out = None)
    /\ (Status res = StatusPartial \/ Status res = StatusFailed ->
        exists err,
          snd out = Some err
          /\ (0 < EmbeddingsGenerated res ->
              Contains (Error err) traceID = true)
          /\ (EmbeddingsGenerated res = 0 ->
              err = validationError
              \/ (exists cause, err = retrievalError cause)
              \/ err = noEmbeddingsError)).
Proof.
  intros Hrun.
  apply processVectorization_inv in Hrun as (res & Hres & _ & _ & Hgen & Hcases).
  exists res. split; [done|].
  destruct Hcases as [H|[H|[H|[H|[H|H]]]]].
  - destruct H as (_ & _ & Hs & Hz & _ & He). rewrite Hs, He.
    split; [done|]. intros _. eexists. split; [done|]. split; [lia|]. by left.
  - destruct H as (_ & Hz & e & texts & w0 & w1 & _ & Hs & He). rewrite Hs, He.
    split; [done|]. intros _. eexists. split; [done|]. split; [lia|].
    right. left. by exists e.
  - destruct H as (_ & Hz & _ & Hs & He). rewrite Hs, He.
    split; [done|]. intros [?|?]; done.
  - destruct H as (_ & Hz & _ & Hs & He). rewrite Hs, He.
    split; [done|]. intros _. eexists. split; [done|]. split; [lia|].
    by right; right.
  - destruct H as (_ & _ & e & records & br & w0 & w1 & Hst & _).
    apply deployed_storage in Hst as (? & _ & ? & _). done.
  - destruct H as (_ & Hpos & records & br & w0 & w1 & _ & _ & _ & _ & Hc).
    destruct Hc as [(Hs & _ & _ & He)|[(Hs & _ & _ & He)|(Hs & _ & _ & He)]];
      rewrite Hs, He.
    + split; [done|]. intros [?|?]; done.
    + split; [done|]. intros _. eexists. split; [done|]. split; [|lia].
      intros _. unfold partialError, Error. cbn [Cause Stage Message].
      apply (Contains_app
               "partial_processing: partial vectorization failure for traceID "
               traceID).
    + split; [done|]. intros _. eexists. split; [done|]. split; [|lia].
      intros _. unfold overallError, Error. cbn [Cause Stage Message].
      apply (Contains_app
               "overall_processing: vectorization failed for traceID " traceID).
Qed.

(** C9: with an empty trace id [GetCombinedTextsByTraceID] and
    [processVectorization] fail at once with an input-validation error;
    the retriever leaves the world as it was and the stage only writes
    to the log, so neither queries the store nor calls the embedding
    service. *)
Theorem C9_empty_trace_id_fails_fast w :
  Retriever.GetCombinedTextsByTraceID UnmarshalListOfMaps TrimSpace
    (Retriever.mkDataRetriever store papersTableName indexName) "" w
  = (Ret ([], Some "traceID cannot be empty"), w)
  /\ exists res w',
      processVectorization clock RFC3339 vc "" w
      = (Ret (Some res, Some validationError), w')
      /\ Status res = StatusFailed
      /\ ErrorMessage res = "validation: traceID cannot be empty"
      /\ Error validationError = "validation: traceID cannot be empty"
      /\ calls w' = calls w
      /\ ext w' = ext w.
Proof.
  split; [reflexivity|]. eexists _, _. split.
  { unfold processVectorization.
    erewrite bind_Ret by apply ask_run. erewrite bind_Ret by apply ask_run.
    erewrite bind_Ret by apply log_run. change (isEmpty "") with true.
    cbv iota zeta. erewrite bind_Ret by apply log_run. reflexivity. }
  by repeat split.
Qed.

End Deployment.

End CoordinatorProps.

(** ** The chunked batch writes of the two writers *)

Module ChunkingProps.
Import DynamoDB Client Runtime Spec GoProps RuntimeProps SpecProps.

Lemma Forall_len_sizes {A : Type} (c : nat) (l : list (list A)) (sizes : list nat) :
  map length l = sizes ->
  Forall (fun k => (k <= c)%nat) sizes ->
  Forall (fun reqs => len reqs <= Z.of_nat c) l.
Proof.
  intros <- H. apply Forall_map in H. eapply Forall_impl; [exact H|].
  intros reqs Hle. simpl in Hle. unfold len. lia.
Qed.

Lemma length_sizes {A : Type} (l : list (list A)) (n : nat) :
  map length l = chunkSizes 25 n ->
  Z.of_nat (length l) = ceilDiv (Z.of_nat n) 25.
Proof.
  intros H. rewrite <- (length_map length l), H.
  by rewrite chunkSizes_length by lia.
Qed.

(** C5, as amended: for a list of N records and the chunk size 25, every
    batch-write call of the vector-record writer carries at most 25 items
    and it makes at most ceil(N/25) calls; when every record is valid and
    marshals, a run that returns has made exactly ceil(N/25) calls, of the
    sizes of the consecutive chunks.  The source-record writer, against a
    store that writes every item at the first attempt and with papers that
    marshal, makes exactly ceil(N/25) calls of the sizes of the consecutive
    chunks, each of at most 25 items.  For N = 30 the sizes are 25 and 5. *)
Theorem C5_chunked_batch_writes {S Item : Type}
    (MarshalVector : Storage.VectorRecord -> Item + error)
    (s : Storage.VectorStorage S Item)
    (MarshalPaper : Processor.Paper -> Item + error)
    (wr : Writer.Writer S Item)
    (records : list Storage.VectorRecord) (papers : list Processor.Paper)
    (w : World S Item) r w1 :
  Storage.BatchStoreVectors MarshalVector s records w = (r, w1) ->
  alwaysWritesAll (Writer.client wr) (Writer.tableName wr) ->
  Forall (fun p => WriterSpec.marshals MarshalPaper p = true) papers ->
  (exists tr,
     callsBetween w w1 tr
     /\ Forall (fun reqs => len reqs <= 25) (batchWrites (Storage.tableName s) tr)
     /\ Z.of_nat (length (batchWrites (Storage.tableName s) tr))
        <= ceilDiv (len records) 25
     /\ ((exists x, r = Ret x) ->
         Forall (fun v => Storage.validateVectorRecord v = None) records ->
         Forall (fun v => StorageSpec.marshals MarshalVector v = true) records ->
         map length (batchWrites (Storage.tableName s) tr)
         = chunkSizes 25 (length records)
         /\ Z.of_nat (length (batchWrites (Storage.tableName s) tr))
            = ceilDiv (len records) 25))
  /\ (exists stats w2 tr,
        Writer.BatchUpsertWithStats MarshalPaper wr papers w
        = (Ret (Some stats, None), w2)
        /\ callsBetween w w2 tr
        /\ map length (batchWrites (Writer.tableName wr) tr)
           = chunkSizes 25 (length papers)
        /\ Z.of_nat (length (batchWrites (Writer.tableName wr) tr))
           = ceilDiv (len papers) 25
        /\ Forall (fun reqs => len reqs <= 25) (batchWrites (Writer.tableName wr) tr))
  /\ (exists w2 tr,
        Writer.BatchUpsert MarshalPaper wr papers w = (Ret None, w2)
        /\ callsBetween w w2 tr
        /\ map length (batchWrites (Writer.tableName wr) tr)
           = chunkSizes 25 (length papers)
        /\ Z.of_nat (length (batchWrites (Writer.tableName wr) tr))
           = ceilDiv (len papers) 25
        /\ Forall (fun reqs => len reqs <= 25) (batchWrites (Writer.tableName wr) tr))
  /\ chunkSizes 25 30 = [25; 5]%nat
  /\ ceilDiv 30 25 = 2.
Proof.
  intros Hrun Hall Hm. split; [|split; [|split]].
  - apply StorageProps.BatchStoreVectors_spec in Hrun
      as (tr & Htr & Hsz & Hcnt & Hr).
    exists tr. split; [done|]. split; [exact Hsz|]. split.
    + pose proof (chunkSizes_length 25 (length records)) as Hlen.
      unfold len. change (Z.of_nat 25) with 25 in Hlen. rewrite <- Hlen; lia.
    + intros [x ->] Hvalid Hmv.
      destruct Hr as (res & _ & _ & _ & _ & Hsizes).
      specialize (Hsizes Hvalid Hmv). split; [done|].
      by apply length_sizes.
  - destruct (WriterProps.BatchUpsertWithStats_writesAll MarshalPaper wr papers w
                Hall Hm) as (stats & w2 & tr & Hrun' & Htr & Hsizes & _).
    exists stats, w2, tr. split; [done|]. split; [done|]. split; [done|].
    split; [by apply length_sizes|].
    apply (Forall_len_sizes 25 _ _ Hsizes), chunkSizes_bound. lia.
  - destruct (WriterProps.BatchUpsert_writesAll MarshalPaper wr papers w
                Hall Hm) as (w2 & tr & Hrun' & Htr & Hsizes).
    exists w2, tr. split; [done|]. split; [done|]. split; [done|].
    split; [by apply length_sizes|].
    apply (Forall_len_sizes 25 _ _ Hsizes), chunkSizes_bound. lia.
  - split; reflexivity.
Qed.

End ChunkingProps.

(** ** The statements on the inputs of the tests of the repository *)

Module Examples.
Import DynamoDB Client Runtime Spec Fixtures.

(** *** The deduplicator *)

(** C3 on the records of TestDeduplicator_DeduplicateWithStats_Success:
    the key "paper-1" is at the positions 0 and 2. *)
Lemma C3_first_occurrence_retained_witness :
  let '(unique, stats) := Deduplicator.DeduplicateWithStats statsPapers in
  unique = Deduplicator.recordsAt statsPapers (Deduplicator.firstOccurrences statsPapers)
  /\ StronglySorted lt (Deduplicator.firstOccurrences statsPapers)
  /\ (0%nat ∈ Deduplicator.firstOccurrences statsPapers)
  /\ (2%nat ∉ Deduplicator.firstOccurrences statsPapers)
  /\ (2%nat ∈ Deduplicator.laterOccurrences statsPapers)
  /\ Processor.DuplicateCount stats = len (Deduplicator.laterOccurrences statsPapers)
  /\ (forall q, q ∈ unique ->
                Processor.PaperID q = Processor.PaperID (paper "paper-1" "Paper 1") ->
                q = paper "paper-1" "Paper 1").
Proof.
  apply (DeduplicatorProps.C3_first_occurrence_retained statsPapers 0 2
           (paper "paper-1" "Paper 1") (paper "paper-1" "Paper 1 Duplicate")).
  - lia.
  - reflexivity.
  - reflexivity.
  - reflexivity.
  - simpl. discriminate.
  - intros h ph Hh. lia.
Defined.

(** A key at three positions: it occurs at the positions 1 < 2, and the
    record at position 1 is not retained, the one at position 0 is. *)
Lemma C3_later_pair_counterexample :
  sameKeyPapers !! 1%nat = Some (paper "paper-1" "second")
  /\ sameKeyPapers !! 2%nat = Some (paper "paper-1" "third")
  /\ Processor.PaperID (paper "paper-1" "second")
     = Processor.PaperID (paper "paper-1" "third")
  /\ fst (Deduplicator.DeduplicateWithStats sameKeyPapers) = [paper "paper-1" "first"]
  /\ paper "paper-1" "second" ∉ fst (Deduplicator.DeduplicateWithStats sameKeyPapers).
Proof.
  split; [reflexivity|]. split; [reflexivity|]. split; [reflexivity|].
  assert (H : fst (Deduplicator.DeduplicateWithStats sameKeyPapers)
              = [paper "paper-1" "first"]) by (vm_compute; reflexivity).
  split; [exact H|]. rewrite H. intros Hin.
  apply list_elem_of_singleton in Hin. discriminate Hin.
Qed.

(** *** The ingestion writer *)

(** C7 against a store that leaves the last item of every batch
    unprocessed. *)
Lemma C7_retry_three_attempts_witness :
  exists tr,
    callsBetween world0
      (snd (Writer.executeBatchWriteWithRetry throttledWriter twoRequests world0)) tr
    /\ (1 <= length tr <= 3)%nat
    /\ length (batchWrites "test-table" tr) = length tr
    /\ (WriterSpec.retryPasses "test-table" tr <= 2)%nat
    /\ WriterSpec.retryChain "test-table" twoRequests tr
    /\ exists input output err,
        last tr = Some (CallBatchWrite input output err)
        /\ match fst (Writer.executeBatchWriteWithRetry throttledWriter twoRequests
                        world0) with
           | Ret None =>
               err = None
               /\ exists out, output = Some out
                    /\ len (WriterSpec.unprocessedOf "test-table" out) = 0
           | Ret (Some e) =>
               (exists e0, err = Some e0
                  /\ e = ("batch write failed on attempt "
                          ++ itoa (Z.of_nat (length tr)) ++ ": " ++ e0)%string)
               \/ (err = None
                   /\ length tr = 3%nat
                   /\ exists out, output = Some out
                        /\ 0 < len (WriterSpec.unprocessedOf "test-table" out)
                        /\ e = ("failed to process "
                                ++ itoa (len (WriterSpec.unprocessedOf "test-table" out))
                                ++ " items after 3 retries")%string)
           | Panic _ => output = None /\ err = None
           | OutOfFuel => False
           end.
Proof.
  apply (WriterProps.C7_retry_three_attempts throttledWriter twoRequests world0).
  - reflexivity.
  - apply surjective_pairing.
Defined.

(** The writer gives up after two re-submissions: the store has been
    called three times, once with the batch and twice with what was left
    unprocessed. *)
Lemma C7_two_resubmissions_counterexample :
  exists w',
    Writer.executeBatchWriteWithRetry throttledWriter twoRequests world0
    = (Ret (Some "failed to process 1 items after 3 retries"), w')
    /\ batchWrites "test-table" (calls w')
       = [twoRequests; [mkWriteRequest "paper-2"]; [mkWriteRequest "paper-2"]]
    /\ WriterSpec.retryPasses "test-table" (calls w') = 2%nat.
Proof.
  eexists. split; [vm_compute; reflexivity|]. split; vm_compute; reflexivity.
Qed.

(** *** The chunked writes *)

Lemma writingStore_alwaysWritesAll table : alwaysWritesAll writingStore table.
Proof. intros input s. eexists. split; [reflexivity|]. reflexivity. Qed.

(** C5 on three vector records and on the 30 papers of
    TestWriter_BatchUpsert_LargeBatch. *)
Lemma C5_chunked_batch_writes_witness :
  exists stats w2 tr,
    Writer.BatchUpsertWithStats marshalPaper writer thirtyPapers world0
    = (Ret (Some stats, None), w2)
    /\ callsBetween world0 w2 tr
    /\ map length (batchWrites "test-table" tr) = chunkSizes 25 (length thirtyPapers)
    /\ Z.of_nat (length (batchWrites "test-table" tr)) = ceilDiv (len thirtyPapers) 25
    /\ Forall (fun reqs => len reqs <= 25) (batchWrites "test-table" tr).
Proof.
  refine (proj1 (proj2
    (ChunkingProps.C5_chunked_batch_writes marshalVector storage marshalPaper writer
       threeRecords thirtyPapers world0 _ _ _ _ _))).
  - apply surjective_pairing.
  - apply writingStore_alwaysWritesAll.
  - apply Forall_forall. intros p _. reflexivity.
Defined.

(** A list of one record that fails the validation: the vector writer
    makes no call, and ceil(1/25) is 1. *)
Lemma C5_no_call_counterexample :
  exists res w',
    Storage.BatchStoreVectors marshalVector storage [invalidRecord] world0
    = (Ret (Some res, None), w')
    /\ calls w' = []
    /\ Z.of_nat (length (batchWrites "test-vectors-table" (calls w'))) = 0
    /\ ceilDiv (len [invalidRecord]) 25 = 1.
Proof.
  eexists _, _. split; [vm_compute; reflexivity|]. by repeat split.
Qed.

(** *** The vector storage *)

(** The run of TestBatchStoreVectors_UnprocessedItems: of three records
    the store leaves the last unprocessed. *)
Lemma BatchStoreVectors_unprocessed :
  exists w',
    Storage.BatchStoreVectors marshalVector throttledStorage threeRecords world0
    = (Ret (Some (Storage.mkBatchWriteResult 2 [vectorRecord "paper3"] []), None), w')
    /\ map length (batchWrites "test-vectors-table" (calls w')) = [3%nat].
Proof. eexists. split; vm_compute; reflexivity. Qed.

Lemma throttlingStore_respectsRequests table :
  respectsRequests (throttlingStore table) table.
Proof.
  intros input s. eexists. split; [reflexivity|]. intros _.
  cbn [fst UnprocessedItems]. rewrite lookup_singleton_eq. cbn [default].
  unfold len, id. rewrite length_drop. lia.
Qed.

(** C6 against a store that leaves the last item of every batch
    unprocessed. *)
Lemma C6_success_plus_failed_is_total_witness :
  (forall x w',
     Storage.BatchStoreVectors marshalVector throttledStorage threeRecords world0
     = (Ret x, w') ->
     exists res, x = (Some res, None)
       /\ Storage.SuccessCount res + len (Storage.FailedItems res) = len threeRecords)
  /\ (forall (i : Z) w0 x w',
        Storage.processBatch marshalVector throttledStorage
          (Storage.batchAt threeRecords i) w0 = (Ret x, w') ->
        exists res, x = (Some res, None)
          /\ Storage.SuccessCount res + len (Storage.FailedItems res)
             = len (Storage.batchAt threeRecords i))
  /\ (respectsRequests (Storage.client throttledStorage)
        (Storage.tableName throttledStorage) ->
      exists res w',
        Storage.BatchStoreVectors marshalVector throttledStorage threeRecords world0
        = (Ret (Some res, None), w')).
Proof.
  apply (StorageProps.C6_success_plus_failed_is_total marshalVector throttledStorage
           threeRecords world0).
  apply Forall_forall. intros r _. reflexivity.
Defined.

(** The run of TestBatchStoreVectors_DynamoDBError.  C10: the store hands
    back a nil output with its error for the one, valid, record;
    [processBatch] reads [output.ConsumedCapacity] before it looks at the
    error, and [BatchStoreVectors] panics where a result with one failed
    item and no error is expected. *)
Theorem C10_nil_output_panics :
  Storage.validateVectorRecord (vectorRecord "paper1") = None
  /\ (forall input s,
        fst (BatchWriteItemWithContext (Storage.client failingStorage) input s)
        = (None, Some "DynamoDB service unavailable"))
  /\ fst (Storage.BatchStoreVectors marshalVector failingStorage
            [vectorRecord "paper1"] world0)
     = Panic "invalid memory address or nil pointer dereference".
Proof.
  split; [vm_compute; reflexivity|]. split; [reflexivity|].
  vm_compute; reflexivity.
Qed.

(** *** The retriever *)

(** C8 against a store whose every query answers with one paper and a
    next cursor. *)
Lemma C8_pagination_ceiling_witness :
  exists w' tr entries,
    Retriever.GetCombinedTextsByTraceID unmarshal TrimSpace endlessRetriever
      "test-trace-123" world0
    = (Ret (RetrieverSpec.combineOf TrimSpace
              (RetrieverSpec.papersOf unmarshal (pages tr)), None), w')
    /\ callsBetween world0 w' tr
    /\ length (queries tr) = 100%nat
    /\ length (pages tr) = 100%nat
    /\ length tr = 100%nat
    /\ logsBetween world0 w' entries
    /\ mkLogEntry LevelWarn "Hit maximum page limit during retrieval" ∈ entries
    /\ RetrieverSpec.errorEntries entries = [].
Proof.
  apply (proj2 (RetrieverProps.C8_pagination_ceiling unmarshal TrimSpace
                  endlessRetriever "test-trace-123" world0)).
  - discriminate.
  - intros input s. eexists _, _, _. reflexivity.
  - intros items. eexists. reflexivity.
Defined.

(** *** The coordinator *)

(** C1 on the run of TestProcessVectorization_PartialEmbeddingFailure:
    three papers, the embedding of the second fails, two vectors are
    stored. *)
Lemma C1_final_status_witness :
  exists res err w',
    Coordinator.processVectorization clock RFC3339 (deployed pipelineStore)
      "test-trace-123" world0 = (Ret (Some res, err), w')
    /\ Coordinator.EmbeddingsGenerated res = 2
    /\ Coordinator.VectorsStored res = 2
    /\ Coordinator.FailedEmbeddings res = 1
    /\ Coordinator.Status res = Coordinator.StatusPartial
    /\ ((Coordinator.Status res = Coordinator.StatusCompleted
         <-> Coordinator.FailedEmbeddings res = 0 /\ Coordinator.FailedStorage res = 0)
        /\ (Coordinator.Status res = Coordinator.StatusPartial
            <-> 0 < Coordinator.VectorsStored res
                /\ (0 < Coordinator.FailedEmbeddings res
                    \/ 0 < Coordinator.FailedStorage res))
        /\ (Coordinator.Status res = Coordinator.StatusFailed
            <-> Coordinator.VectorsStored res = 0)).
Proof.
  eexists _, _, _. split; [vm_compute; reflexivity|].
  split; [reflexivity|]. split; [reflexivity|]. split; [reflexivity|].
  split; [reflexivity|].
  eapply (CoordinatorProps.C1_final_status pipelineStore embeddingService clock
            RFC3339 unmarshal TrimSpace marshalVector "papers-table"
            "trace-id-index" "vectors-table" "test-trace-123" world0).
  - vm_compute; reflexivity.
  - reflexivity.
Defined.

(** C2 on the same run: the result is partial and the error names the
    trace id. *)
Lemma C2_error_accompanies_result_witness :
  exists res,
    fst (Coordinator.processVectorization clock RFC3339 (deployed pipelineStore)
           "test-trace-123" world0)
    = Ret (Some res, Some (CoordinatorSpec.partialError "test-trace-123" 2 3))
    /\ Coordinator.Status res = Coordinator.StatusPartial
    /\ Coordinator.Error (CoordinatorSpec.partialError "test-trace-123" 2 3)
       = "partial_processing: partial vectorization failure for traceID test-trace-123: 2/3 papers processed successfully"
    /\ exists res',
        Some res = Some res'
        /\ (Coordinator.Status res' = Coordinator.StatusCompleted ->
            Some (CoordinatorSpec.partialError "test-trace-123" 2 3) = None)
        /\ (Coordinator.Status res' = Coordinator.StatusPartial
            \/ Coordinator.Status res' = Coordinator.StatusFailed ->
            exists err,
              Some (CoordinatorSpec.partialError "test-trace-123" 2 3) = Some err
              /\ (0 < Coordinator.EmbeddingsGenerated res' ->
                  Contains (Coordinator.Error err) "test-trace-123" = true)
              /\ (Coordinator.EmbeddingsGenerated res' = 0 ->
                  err = CoordinatorSpec.validationError
                  \/ (exists cause, err = CoordinatorSpec.retrievalError cause)
                  \/ err = CoordinatorSpec.noEmbeddingsError)).
Proof.
  eexists. split; [vm_compute; reflexivity|].
  split; [reflexivity|]. split; [vm_compute; reflexivity|].
  eapply (CoordinatorProps.C2_error_accompanies_result pipelineStore embeddingService
            clock RFC3339 unmarshal TrimSpace marshalVector "papers-table"
            "trace-id-index" "vectors-table" "test-trace-123" world0
            (_, _)).
  vm_compute; reflexivity.
Defined.

(** The run of TestProcessVectorization_DataRetrievalError: the query
    fails, the stage ends failed with the error of the retrieval, and its
    text does not contain the trace id. *)
Lemma C2_trace_id_missing_counterexample :
  exists res err w',
    Coordinator.processVectorization clock RFC3339 (deployed failingStore)
      "test-trace-123" world0 = (Ret (Some res, Some err), w')
    /\ Coordinator.Status res = Coordinator.StatusFailed
    /\ Coordinator.Error err
       = "data_retrieval: failed to retrieve papers for vectorization (caused by: failed to query papers by traceID on page 1: database connection failed)"
    /\ Contains (Coordinator.Error err) "test-trace-123" = false.
Proof.
  eexists _, _, _. split; [vm_compute; reflexivity|].
  split; [reflexivity|]. split; vm_compute; reflexivity.
Qed.

End Examples.

(** ** More on the deduplicator *)

Module DeduplicatorMore.
Import Processor Deduplicator GoProps DeduplicatorProps.

Lemma plainLoop_run (papers l : list Paper) : forall (st : LoopState) (pst : PlainState),
  plainSeen pst = seen st -> plainDeduplicated pst = deduplicated st ->
  duplicateCount pst = DuplicateCount (stats st) ->
  let st' := fold_left step l st in
  let pst' := fold_left plainStep l pst in
  plainSeen pst' = seen st' /\ plainDeduplicated pst' = deduplicated st'
  /\ duplicateCount pst' = DuplicateCount (stats st').
Proof.
  induction l as [|p l IH]; intros st pst Hs Hd Hc; [done|].
  cbn [fold_left]. apply IH; unfold step, plainStep; rewrite Hs;
    destruct (isEmpty (PaperID p)); try done;
    destruct (seenGet (seen st) (PaperID p)); simpl; congruence.
Qed.

(** X1: [Deduplicate] and [DeduplicateWithStats] return the same records
    for every input, and the duplicates [Deduplicate] counts are the
    DuplicateCount of the statistics. *)
Theorem Deduplicate_agrees (papers : list Paper) :
  Deduplicate papers = fst (DeduplicateWithStats papers)
  /\ (papers <> [] ->
      duplicateCount (plainLoop papers)
      = DuplicateCount (snd (DeduplicateWithStats papers))).
Proof.
  unfold Deduplicate, DeduplicateWithStats.
  destruct (plainLoop_run papers papers (initial papers) (mkPlainState ∅ [] 0))
    as (_ & Hd & Hc); try done.
  destruct (Z.eqb_spec (len papers) 0) as [Hz|Hnz]; simpl.
  - split; [done|]. intros Hne. by apply len_zero in Hz.
  - split; [exact Hd|]. intros _. exact Hc.
Qed.

Lemma existsb_key (k : string) (l : list Paper) :
  existsb (fun q => String.eqb (PaperID q) k) l = true <-> k ∈ keys l.
Proof.
  rewrite existsb_exists. unfold keys. rewrite list_elem_of_fmap. split.
  - intros (q & Hin & Heq). apply String.eqb_eq in Heq.
    exists q. split; [done|]. by apply list_elem_of_In.
  - intros (q & -> & Hin). exists q. split; [by apply list_elem_of_In|].
    apply String.eqb_refl.
Qed.

Lemma run_keys papers (l : list Paper) :
  let unique := deduplicated (run papers l) in
  NoDup (keys unique)
  /\ (forall k, k ∈ keys unique <-> k <> "" /\ k ∈ keys l)
  /\ unique `sublist_of` l.
Proof.
  induction l as [|p l IH] using rev_ind.
  - cbn. split; [constructor|]. split; [|done]. intros k. split.
    + intros H. by apply elem_of_nil in H.
    + intros [_ H]. by apply elem_of_nil in H.
  - cbv zeta in *. destruct IH as (Hnd & Hin & Hsub). rewrite run_snoc.
    pose proof (run_seen papers l (PaperID p)) as Hseen.
    unfold step. destruct (isEmpty (PaperID p)) eqn:He.
    + apply isEmpty_true in He. cbn [deduplicated].
      split; [done|]. split.
      * intros k. rewrite Hin. unfold keys. rewrite fmap_app, elem_of_app.
        cbn. rewrite list_elem_of_singleton. split; [tauto|].
        intros [Hk [H|H]]; [done|]. congruence.
      * by apply sublist_inserts_r.
    + apply isEmpty_false in He.
      destruct (seenGet (seen (run papers l)) (PaperID p)) eqn:Hs; cbn [negb deduplicated].
      * simpl in Hseen. symmetry in Hseen. rename Hseen into Hex.
        apply existsb_key in Hex.
        split; [done|]. split.
        -- intros k. rewrite Hin. unfold keys. rewrite fmap_app, elem_of_app.
           cbn. rewrite list_elem_of_singleton. split; [tauto|].
           intros [Hk [H|H]]; [done|]. subst k. done.
        -- by apply sublist_inserts_r.
      * assert (Hnot : PaperID p ∉ keys l).
        { intros Hex. apply existsb_key in Hex. rewrite Hex in Hseen. done. }
        split; [|split].
        -- unfold keys. rewrite fmap_app. apply NoDup_app. split; [done|].
           split; [|apply NoDup_singleton].
           intros k Hk Hk'. cbn in Hk'. apply list_elem_of_singleton in Hk'.
           subst k. apply Hin in Hk. tauto.
        -- intros k. unfold keys in *. rewrite !fmap_app, !elem_of_app, Hin.
           cbn. rewrite list_elem_of_singleton. split; [|tauto].
           intros [H|H]; [tauto|]. subst k. tauto.
        -- by apply sublist_app.
Qed.

(** X2: the records [DeduplicateWithStats] returns have pairwise distinct
    keys, they carry exactly the non-empty keys of the input, and they
    form a subsequence of the input. *)
Theorem DeduplicateWithStats_keys (papers : list Paper) :
  let unique := fst (DeduplicateWithStats papers) in
  NoDup (keys unique)
  /\ (forall k, k ∈ keys unique <-> k <> "" /\ k ∈ keys papers)
  /\ unique `sublist_of` papers.
Proof.
  rewrite DeduplicateWithStats_loop. cbn [fst]. apply run_keys.
Qed.

Lemma run_clean papers (l : list Paper) :
  NoDup (keys l) -> Forall (fun p => PaperID p <> "") l ->
  deduplicated (run papers l) = l
  /\ DuplicateCount (stats (run papers l)) = 0
  /\ InvalidCount (stats (run papers l)) = 0.
Proof.
  induction l as [|p l IH] using rev_ind; intros Hnd Hne; [done|].
  unfold keys in Hnd. rewrite fmap_app in Hnd. apply NoDup_app in Hnd as (Hnd & Hnot & _).
  apply Forall_app in Hne as [Hne Hp]. rewrite Forall_singleton in Hp.
  destruct (IH Hnd Hne) as (Hd & Hc & Hi). rewrite run_snoc.
  pose proof (run_seen papers l (PaperID p)) as Hseen.
  unfold step. apply isEmpty_false in Hp. rewrite Hp.
  destruct (existsb (fun q => String.eqb (PaperID q) (PaperID p)) l) eqn:Hex.
  { apply existsb_key in Hex. exfalso. apply (Hnot (PaperID p) Hex).
    cbn. apply list_elem_of_here. }
  rewrite Hp in Hseen. simpl in Hseen. rewrite Hseen. cbn. by rewrite Hd.
Qed.

(** X3: on records with pairwise distinct, non-empty keys
    [DeduplicateWithStats] returns its input unchanged, with no duplicate
    and no invalid record counted. *)
Theorem DeduplicateWithStats_clean (papers : list Paper) :
  NoDup (keys papers) -> Forall (fun p => PaperID p <> "") papers ->
  DeduplicateWithStats papers
  = (papers, mkDeduplicationStats (len papers) (len papers) 0 0).
Proof.
  intros Hnd Hne. rewrite DeduplicateWithStats_loop.
  destruct (run_clean papers papers Hnd Hne) as (-> & -> & ->). done.
Qed.

(** X4: [DeduplicateWithStats] is idempotent: run on its own output it
    returns it unchanged; and nothing is left for [Deduplicate] to
    remove. *)
Theorem DeduplicateWithStats_idempotent (papers : list Paper) :
  let unique := fst (DeduplicateWithStats papers) in
  DeduplicateWithStats unique
  = (unique, mkDeduplicationStats (len unique) (len unique) 0 0)
  /\ Deduplicate unique = unique.
Proof.
  cbv zeta. rewrite (DeduplicateWithStats_loop papers). cbn [fst].
  set (unique := deduplicated (run papers papers)).
  destruct (run_keys papers papers) as (Hnd & Hin & _). fold unique in Hnd, Hin.
  assert (Hne : Forall (fun p => PaperID p <> "") unique).
  { apply Forall_forall. intros p Hp. apply (Hin (PaperID p)).
    unfold keys. apply list_elem_of_fmap. by exists p. }
  destruct (run_clean unique unique Hnd Hne) as (Hd & Hc & Hi).
  split.
  - rewrite DeduplicateWithStats_loop. by rewrite Hd, Hc, Hi.
  - unfold Deduplicate. destruct (len unique =? 0); [done|].
    destruct (plainLoop_run unique unique (initial unique) (mkPlainState ∅ [] 0))
      as (_ & Hpd & _); try done.
    unfold plainLoop. rewrite Hpd. exact Hd.
Qed.

End DeduplicatorMore.

(** ** More on the vector storage *)

Module StorageMore.
Import DynamoDB Client Runtime Spec Storage StorageSpec GoProps RuntimeProps.
Import StorageProps.

Lemma firstNaN_None (embedding : list PrimFloat.float) : forall i,
  firstNaN i embedding = None <-> noNaN embedding.
Proof.
  unfold noNaN. induction embedding as [|val embedding IH]; intros i; simpl.
  - split; [constructor|done].
  - destruct (PrimFloat.eqb val val) eqn:E; simpl.
    + rewrite IH. split; [by constructor|]. intros H. by inversion H.
    + split; [done|]. intros H. inversion H; subst. congruence.
Qed.

Lemma validateVectorRecord_None (record : VectorRecord) :
  validateVectorRecord record = None
  <-> PaperID record <> "" /\ VectorType record <> ""
      /\ Embedding record <> []
      /\ Dimension (Metadata record) = len (Embedding record)
      /\ ModelVersion (Metadata record) <> ""
      /\ TraceID (Info record) <> "" /\ noNaN (Embedding record).
Proof.
  unfold validateVectorRecord.
  destruct (isEmpty (PaperID record)) eqn:E1.
  { apply isEmpty_true in E1. split; [done|]. tauto. }
  apply isEmpty_false in E1.
  destruct (isEmpty (VectorType record)) eqn:E0.
  { apply isEmpty_true in E0. split; [done|]. tauto. }
  apply isEmpty_false in E0.
  destruct (Z.eqb_spec (len (Embedding record)) 0) as [E2|E2].
  { apply len_zero in E2. split; [done|]. tauto. }
  rewrite len_zero in E2.
  destruct (Z.eqb_spec (Dimension (Metadata record)) (len (Embedding record)))
    as [Ed|Ed]; cbn [negb]; [|split; [done|tauto]].
  destruct (isEmpty (ModelVersion (Metadata record))) eqn:E3.
  { apply isEmpty_true in E3. split; [done|]. tauto. }
  apply isEmpty_false in E3.
  destruct (isEmpty (TraceID (Info record))) eqn:E4.
  { apply isEmpty_true in E4. split; [done|]. tauto. }
  apply isEmpty_false in E4.
  pose proof (firstNaN_None (Embedding record) 0) as Hn.
  destruct (firstNaN 0 (Embedding record)) as [i|].
  - split; [done|]. intros (_ & _ & _ & _ & _ & _ & H). apply Hn in H. done.
  - split; [|done]. intros _. repeat split; try done. by apply Hn.
Qed.

Section WithClock.
Context {S Item : Type}.
Variable clock : S -> Z.
Variable RFC3339 : Z -> string.
Implicit Types w : World S Item.

(** X5: [CreateVectorRecord] builds its record without touching the
    world, with the vector type "title_abstract" and the dimension of
    the embedding; the record passes [validateVectorRecord] exactly when
    the paper id, the model version and the trace id are not empty and
    the embedding is not empty and holds no NaN: the checks of the
    vector type and of the dimension never fail on it. *)
Theorem CreateVectorRecord_validates (paperID text traceID : string)
    (embedding : list PrimFloat.float) (modelVersion : string)
    (processingTimeMs : Z) w :
  exists record,
    CreateVectorRecord (Item:=Item) clock RFC3339 paperID text traceID embedding
      modelVersion processingTimeMs w = (Ret record, w)
    /\ PaperID record = paperID
    /\ Embedding record = embedding
    /\ VectorType record = "title_abstract"
    /\ Dimension (Metadata record) = len embedding
    /\ Content (Source record) = text
    /\ TraceID (Info record) = traceID
    /\ (validateVectorRecord record = None
        <-> paperID <> "" /\ embedding <> [] /\ modelVersion <> ""
            /\ traceID <> "" /\ noNaN embedding).
Proof.
  eexists. split; [reflexivity|]. cbn [PaperID Embedding VectorType Dimension
    Metadata Content Source TraceID Info].
  repeat (split; [reflexivity|]).
  rewrite validateVectorRecord_None. cbn [PaperID Embedding VectorType Dimension
    Metadata ModelVersion TraceID Info].
  split; [tauto|]. intros (H1 & H2 & H3 & H4 & H5). by repeat split.
Qed.

End WithClock.

Section WithClient.
Context {S Item : Type}.
Variable MarshalMap : VectorRecord -> Item + error.
Variable s : VectorStorage S Item.
Implicit Types w : World S Item.
Implicit Types records : list VectorRecord.

Lemma validOf_app records1 records2 :
  validOf (records1 ++ records2) = (validOf records1 ++ validOf records2)%list.
Proof. apply filter_app. Qed.

Lemma invalidOf_app records1 records2 :
  invalidOf (records1 ++ records2)
  = (invalidOf records1 ++ invalidOf records2)%list.
Proof. apply filter_app. Qed.

Lemma requestsOf_app records1 records2 :
  requestsOf MarshalMap (records1 ++ records2)
  = (requestsOf MarshalMap records1 ++ requestsOf MarshalMap records2)%list.
Proof. apply omap_app. Qed.

Lemma validationErrors_app records1 records2 :
  validationErrors (records1 ++ records2)
  = (validationErrors records1 ++ validationErrors records2)%list.
Proof. apply omap_app. Qed.

Lemma storeLoop_writes (fuel : nat) : forall records (i : Z) result w res w',
  0 <= i -> len records - i <= Z.of_nat fuel ->
  storeLoop MarshalMap s fuel records i result w = (Ret res, w') ->
  exists tr,
    callsBetween w w' tr
    /\ concat (batchWrites (tableName s) tr)
       = requestsOf MarshalMap (validOf (drop (Z.to_nat i) records)).
Proof.
  induction fuel as [|fuel IH]; intros records i result w res w' Hi Hfuel Hrun.
  - simpl in Hrun. destruct (Z.ltb_spec i (len records)) as [?|Hge]; [lia|].
    injection Hrun as <- <-. exists []. split; [apply callsBetween_refl|].
    by rewrite drop_ge by (unfold len in *; lia).
  - cbn [storeLoop] in Hrun.
    destruct (Z.ltb_spec i (len records)) as [Hlt|Hge].
    2:{ injection Hrun as <- <-. exists []. split; [apply callsBetween_refl|].
        by rewrite drop_ge by (unfold len in *; lia). }
    set (batch := batchAt records i) in *.
    destruct (processBatch MarshalMap s batch w) as [rb wb] eqn:Hb.
    pose proof (processBatch_spec MarshalMap s batch w rb wb Hb) as Hspec.
    cbv zeta in Hspec. destruct Hspec as (tr1 & Htr1 & Hbw1 & Hrb).
    destruct rb as [x|reason|].
    + destruct Hrb as (res1 & -> & _).
      erewrite bind_Ret in Hrun by apply Hb. cbn beta iota in Hrun.
      erewrite bind_Ret in Hrun by reflexivity.
      apply IH in Hrun; [|unfold batchSize; lia|unfold batchSize; lia].
      destruct Hrun as (tr2 & Htr2 & Hw2).
      exists (tr1 ++ tr2)%list. split; [by eapply callsBetween_trans|].
      rewrite batchWrites_app, concat_app, Hw2, Hbw1.
      rewrite (batchAt_drop records i) by lia. fold batch.
      rewrite validOf_app, requestsOf_app. f_equal.
      destruct (Z.eqb_spec (len (validOf batch)) 0) as [Hz|Hnz]; cbn [orb].
      { apply len_zero in Hz. by rewrite Hz. }
      destruct (Z.eqb_spec (len (requestsOf MarshalMap (validOf batch))) 0)
        as [Hz|_].
      { apply len_zero in Hz. by rewrite Hz. }
      cbn. by rewrite app_nil_r.
    + erewrite bind_Panic in Hrun by apply Hb. done.
    + done.
Qed.

(** X6: whatever the store answers, a call of [BatchStoreVectors] that
    returns has sent to it, over all its batch writes and in the order
    of the input, exactly the marshalled records that pass the
    validation, each once: an invalid record never reaches the store. *)
Theorem BatchStoreVectors_writes_valid records w x w' :
  BatchStoreVectors MarshalMap s records w = (Ret x, w') ->
  exists tr,
    callsBetween w w' tr
    /\ concat (batchWrites (tableName s) tr)
       = requestsOf MarshalMap (validOf records).
Proof.
  unfold BatchStoreVectors. intros Hrun.
  destruct (Z.eqb_spec (len records) 0) as [Hz|Hnz].
  { apply len_zero in Hz. subst records. injection Hrun as <- <-.
    exists []. split; [apply callsBetween_refl|done]. }
  erewrite bind_Ret in Hrun by apply log_run.
  apply bind_inv in Hrun as (res & w1 & Hloop & Hrun).
  erewrite bind_Ret in Hrun by apply log_run. injection Hrun as <- <-.
  apply storeLoop_writes in Hloop as (tr & Htr & Hw); [|lia|unfold len; lia].
  exists tr. split; [|done]. exact Htr.
Qed.

Lemma validateLoop_exact records : forall result valid w,
  exists entries,
    validateLoop (S:=S) (Item:=Item) records result valid w
    = (Ret (mkBatchWriteResult (SuccessCount result)
              (FailedItems result ++ invalidOf records)
              (Errors result ++ validationErrors records),
            (valid ++ validOf records)%list),
       addLogs w entries).
Proof.
  induction records as [|r records IH]; intros result valid w.
  - exists []. simpl. rewrite !app_nil_r, addLogs_nil. by destruct result.
  - cbn [validateLoop]. unfold validOf, invalidOf, validationErrors.
    rewrite ?filter_cons. cbn [omap list_omap].
    destruct (validateVectorRecord r) as [e|] eqn:Hv.
    + repeat (destruct (decide _); try done).
      erewrite bind_Ret by apply log_run.
      edestruct IH as (entries & ->).
      eexists (_ :: entries). simpl.
      rewrite addLogs_addLogs. simpl.
      by rewrite <- !app_assoc.
    + repeat (destruct (decide _); try done).
      edestruct IH as (entries & ->).
      exists entries. by rewrite <- app_assoc.
Qed.

Lemma marshalLoop_all records : forall result requests w,
  Forall (fun r => marshals MarshalMap r = true) records ->
  marshalLoop MarshalMap records result requests w
  = (Ret (result, (requests ++ requestsOf MarshalMap records)%list), w).
Proof.
  induction records as [|r records IH]; intros result requests w Hm.
  - simpl. by rewrite app_nil_r.
  - inversion Hm as [|? ? Hr Hrest]; subst. cbn [marshalLoop].
    unfold requestsOf, marshals in *. cbn [omap list_omap].
    destruct (MarshalMap r) as [item|e]; [|done].
    rewrite IH by done. by rewrite <- app_assoc.
Qed.

Lemma length_requestsOf_marshals records :
  Forall (fun r => marshals MarshalMap r = true) records ->
  len (requestsOf MarshalMap records) = len records.
Proof.
  intros Hm. pose proof (length_requestsOf MarshalMap records) as H.
  rewrite unmarshalledOf_all in H by done. rewrite len_nil in H. lia.
Qed.

Lemma storage_processBatch_writesAll records w :
  alwaysWritesAll (client s) (tableName s) ->
  Forall (fun r => marshals MarshalMap r = true) records ->
  exists w' tr,
    processBatch MarshalMap s records w
    = (Ret (Some (mkBatchWriteResult (len (validOf records)) (invalidOf records)
                    (validationErrors records)), None), w')
    /\ callsBetween w w' tr.
Proof.
  intros Hall Hm. unfold processBatch.
  destruct (validateLoop_exact records (mkBatchWriteResult 0 [] []) [] w)
    as (e1 & Hv).
  erewrite bind_Ret by apply Hv.
  cbn [FailedItems Errors SuccessCount app].
  destruct (Z.eqb_spec (len (validOf records)) 0) as [Hz|Hnz].
  { erewrite bind_Ret by apply log_run. rewrite mret_run, Hz.
    eexists _, []. split; [done|].
    apply callsBetween_addLogs_r, callsBetween_addLogs_r, callsBetween_refl. }
  erewrite bind_Ret by (apply marshalLoop_all; by apply Forall_validOf).
  cbn [app]. rewrite length_requestsOf_marshals by (by apply Forall_validOf).
  destruct (Z.eqb_spec (len (validOf records)) 0) as [?|_]; [done|].
  set (input := mkBatchWriteItemInput _).
  unfold batchWriteItem. unfold mbind at 1, M_bind at 1, bind at 1.
  rewrite ext_addLogs.
  pose proof (Hall input (ext w)) as (out & Hout & Hu).
  destruct (BatchWriteItemWithContext (client s) input (ext w)) as [[output err] s']
    eqn:Hcall.
  cbn [fst snd] in *. injection Hout as -> ->.
  erewrite bind_Ret by reflexivity.
  cbn [SuccessCount FailedItems Errors].
  replace (match UnprocessedItems out !! tableName s with
           | Some unprocessedItems => len unprocessedItems
           | None => 0
           end) with 0
    by (destruct (UnprocessedItems out !! tableName s); simpl in Hu; lia).
  cbn [Z.gtb Z.compare].
  erewrite bind_Ret by reflexivity.
  erewrite bind_Ret by apply log_run.
  rewrite mret_run, Z.sub_0_r.
  eexists _, [_]. split; [done|]. reflexivity.
Qed.

Lemma length_validationErrors records :
  len (validationErrors records) = len (invalidOf records).
Proof.
  unfold validationErrors, invalidOf, len. f_equal.
  induction records as [|r records IH]; [done|].
  rewrite filter_cons. cbn [omap list_omap].
  destruct (validateVectorRecord r) as [e|]; destruct (decide _) as [H|H];
    simpl; try (exfalso; by apply H); try done; by f_equal.
Qed.

Lemma storeLoop_writesAll (fuel : nat) : forall records (i : Z) result w,
  alwaysWritesAll (client s) (tableName s) ->
  Forall (fun r => marshals MarshalMap r = true) records ->
  0 <= i -> len records - i <= Z.of_nat fuel ->
  exists w' tr,
    storeLoop MarshalMap s fuel records i result w
    = (Ret (mkBatchWriteResult
              (SuccessCount result + len (validOf (drop (Z.to_nat i) records)))
              (FailedItems result ++ invalidOf (drop (Z.to_nat i) records))
              (Errors result ++ validationErrors (drop (Z.to_nat i) records))),
       w')
    /\ callsBetween w w' tr.
Proof.
  induction fuel as [|fuel IH]; intros records i result w Hall Hm Hi Hfuel.
  - simpl. destruct (Z.ltb_spec i (len records)) as [?|Hge]; [lia|].
    rewrite drop_ge by (unfold len in *; lia). cbn.
    rewrite !app_nil_r, Z.add_0_r. exists w, [].
    split; [by destruct result|apply callsBetween_refl].
  - cbn [storeLoop].
    destruct (Z.ltb_spec i (len records)) as [Hlt|Hge].
    2:{ rewrite drop_ge by (unfold len in *; lia). cbn.
        rewrite !app_nil_r, Z.add_0_r. exists w, [].
        split; [by destruct result|apply callsBetween_refl]. }
    destruct (storage_processBatch_writesAll (batchAt records i) w Hall
                (Forall_batchAt _ _ i Hm)) as (w1 & tr1 & Hb & Htr1).
    erewrite bind_Ret by apply Hb. cbn beta iota.
    erewrite bind_Ret by reflexivity.
    cbn [SuccessCount FailedItems Errors].
    edestruct (IH records (i + batchSize)) as (w2 & tr2 & Hrun & Htr2);
      [done|done|unfold batchSize; lia|unfold batchSize; lia|].
    rewrite Hrun. cbn [SuccessCount FailedItems Errors].
    exists w2, (tr1 ++ tr2)%list. split; [|by eapply callsBetween_trans].
    rewrite (batchAt_drop records i) by lia.
    rewrite validOf_app, invalidOf_app, validationErrors_app, len_app.
    by rewrite <- !app_assoc, Z.add_assoc.
Qed.

Lemma BatchStoreVectors_writesAll records w :
  alwaysWritesAll (client s) (tableName s) ->
  Forall (fun r => marshals MarshalMap r = true) records ->
  exists w',
    BatchStoreVectors MarshalMap s records w
    = (Ret (Some (mkBatchWriteResult (len (validOf records)) (invalidOf records)
                    (validationErrors records)), None), w').
Proof.
  intros Hall Hm. unfold BatchStoreVectors.
  destruct (Z.eqb_spec (len records) 0) as [Hz|Hnz].
  { apply len_zero in Hz. subst records. by exists w. }
  erewrite bind_Ret by apply log_run.
  edestruct (storeLoop_writesAll (length records) records 0
               (mkBatchWriteResult 0 [] [])) as (w1 & tr & Hrun & _);
    [done|done|lia|unfold len; lia|].
  erewrite bind_Ret by apply Hrun.
  erewrite bind_Ret by apply log_run. rewrite mret_run.
  eexists. reflexivity.
Qed.

(** X7: against a store that writes every item, and with records that
    marshal, [BatchStoreVectors] counts as stored exactly the records
    that pass the validation, returns the records that fail it as the
    failed items, in the order of the input, and reports one error
    "invalid record <paper id>: <reason>" for each of them, in the same
    order. *)
Theorem BatchStoreVectors_reports_invalid records w :
  alwaysWritesAll (client s) (tableName s) ->
  Forall (fun r => marshals MarshalMap r = true) records ->
  exists w',
    BatchStoreVectors MarshalMap s records w
    = (Ret (Some (mkBatchWriteResult (len (validOf records)) (invalidOf records)
                    (validationErrors records)), None), w')
    /\ len (validOf records) + len (invalidOf records) = len records
    /\ len (validationErrors records) = len (invalidOf records).
Proof.
  intros Hall Hm.
  destruct (BatchStoreVectors_writesAll records w Hall Hm) as (w' & Hrun).
  exists w'. split; [exact Hrun|].
  split; [apply length_validOf_invalidOf|apply length_validationErrors].
Qed.

End WithClient.

End StorageMore.

(** ** More on the ingestion writer *)

Module WriterMore.
Import DynamoDB Client Runtime Spec Processor Writer WriterSpec GoProps RuntimeProps.
Import WriterProps.

Section WithClient.
Context {S Item : Type}.
Variable MarshalMap : Paper -> Item + error.
Variable wr : Writer S Item.
Implicit Types w : World S Item.
Implicit Types papers : list Paper.

(** A batch is processed without running out of fuel. *)
Lemma processBatch_total papers w r w' :
  processBatch MarshalMap wr papers w = (r, w') -> r <> OutOfFuel.
Proof.
  unfold processBatch. intros Hrun.
  destruct (len papers =? 0); [by injection Hrun as <- <-|].
  destruct (len papers >? MaxBatchSize); [by injection Hrun as <- <-|].
  destruct (writer_marshalLoop_run MarshalMap papers [] w) as (entries & Hml).
  erewrite bind_Ret in Hrun by apply Hml. cbn [app] in Hrun.
  destruct (Z.eqb_spec (len (requestsOf MarshalMap papers)) 0) as [?|Hnz];
    [by injection Hrun as <- <-|].
  unfold executeBatchWriteWithRetry in Hrun.
  apply retryLoop_spec in Hrun; [|lia|unfold maxRetries; lia].
  pose proof (len_nonneg (requestsOf MarshalMap papers)).
  destruct (Z.gtb_spec (len (requestsOf MarshalMap papers)) 0) as [_|?]; [|lia].
  change (0 <? maxRetries) with true in Hrun. cbn [andb] in Hrun.
  destruct Hrun as (tr & _ & _ & _ & _ & _ & input & output & err & _ & Hr).
  by destruct r.
Qed.

Lemma statsLoop_inv (fuel : nat) : forall papers (i : Z) stats w r w',
  0 <= i -> len papers - i <= Z.of_nat fuel ->
  statsLoop MarshalMap wr fuel papers i stats w = (r, w') ->
  match r with
  | Ret stats' =>
      TotalItems stats' = TotalItems stats
      /\ BatchCount stats' = BatchCount stats
      /\ SuccessItems stats <= SuccessItems stats'
      /\ FailedItems stats <= FailedItems stats'
      /\ SuccessBatches stats <= SuccessBatches stats'
      /\ FailedBatches stats <= FailedBatches stats'
      /\ (SuccessItems stats' - SuccessItems stats)
         + (FailedItems stats' - FailedItems stats) = Z.max 0 (len papers - i)
      /\ (SuccessBatches stats' - SuccessBatches stats)
         + (FailedBatches stats' - FailedBatches stats)
         = Z.of_nat (length (chunkSizes 25 (Z.to_nat (len papers - i))))
  | Panic _ => True
  | OutOfFuel => False
  end.
Proof.
  induction fuel as [|fuel IH]; intros papers i stats w r w' Hi Hfuel Hrun.
  - simpl in Hrun. destruct (Z.ltb_spec i (len papers)) as [?|Hge]; [lia|].
    injection Hrun as <- <-.
    replace (Z.to_nat (len papers - i)) with 0%nat by lia.
    rewrite SpecProps.chunkSizes_zero. simpl length. repeat split; lia.
  - cbn [statsLoop] in Hrun. destruct (Z.ltb_spec i (len papers)) as [Hlt|Hge].
    2:{ injection Hrun as <- <-.
        replace (Z.to_nat (len papers - i)) with 0%nat by lia.
        rewrite SpecProps.chunkSizes_zero. simpl length. repeat split; lia. }
    pose proof (writer_batchAt_length papers i (conj Hi Hlt)) as Hblen.
    cbv zeta in Hrun.
    destruct (processBatch MarshalMap wr (batchAt papers i) w) as [rb wb] eqn:Hb.
    pose proof (processBatch_total _ _ _ _ Hb) as Hnf.
    assert (Hchunks :
              Z.of_nat (length (chunkSizes 25 (Z.to_nat (len papers - i))))
              = 1 + Z.of_nat (length (chunkSizes 25
                                        (Z.to_nat (len papers - (i + MaxBatchSize)))))).
    { rewrite (SpecProps.chunkSizes_pos 25 (Z.to_nat (len papers - i))) by lia.
      simpl length. replace (Z.to_nat (len papers - i) - 25)%nat
        with (Z.to_nat (len papers - (i + MaxBatchSize)))
        by (unfold MaxBatchSize; lia). lia. }
    destruct rb as [err|reason|]; [| |done].
    2:{ erewrite bind_Panic in Hrun by apply Hb. by injection Hrun as <- <-. }
    erewrite bind_Ret in Hrun by apply Hb.
    destruct err as [e|].
    + erewrite bind_Ret in Hrun by apply log_run.
      apply IH in Hrun; [|unfold MaxBatchSize; lia|unfold MaxBatchSize; lia].
      destruct r as [stats'|reason|]; [|done|done].
      cbn [TotalItems SuccessItems FailedItems BatchCount SuccessBatches
             FailedBatches] in Hrun.
      destruct Hrun as (H1 & H2 & H3 & H4 & H5 & H6 & H7 & H8).
      rewrite Hchunks. unfold MaxBatchSize in *. repeat split; lia.
    + apply IH in Hrun; [|unfold MaxBatchSize; lia|unfold MaxBatchSize; lia].
      destruct r as [stats'|reason|]; [|done|done].
      cbn [TotalItems SuccessItems FailedItems BatchCount SuccessBatches
             FailedBatches] in Hrun.
      destruct Hrun as (H1 & H2 & H3 & H4 & H5 & H6 & H7 & H8).
      rewrite Hchunks. unfold MaxBatchSize in *. repeat split; lia.
Qed.

(** The statistics of [BatchUpsertWithStats], whatever the store answers. *)
Lemma BatchUpsertWithStats_stats papers w r w' :
  BatchUpsertWithStats MarshalMap wr papers w = (r, w') ->
  r <> OutOfFuel
  /\ forall x, r = Ret x ->
       exists stats,
         x = (Some stats, None)
         /\ TotalItems stats = len papers
         /\ SuccessItems stats + FailedItems stats = TotalItems stats
         /\ BatchCount stats = ceilDiv (len papers) 25
         /\ SuccessBatches stats + FailedBatches stats = BatchCount stats
         /\ 0 <= SuccessItems stats /\ 0 <= FailedItems stats
         /\ 0 <= SuccessBatches stats /\ 0 <= FailedBatches stats.
Proof.
  unfold BatchUpsertWithStats. intros Hrun.
  pose proof (len_nonneg papers) as Hn.
  assert (Hq : Z.quot (len papers + MaxBatchSize - 1) MaxBatchSize
               = ceilDiv (len papers) 25).
  { unfold ceilDiv, MaxBatchSize. apply Z.quot_div_nonneg; lia. }
  destruct (Z.eqb_spec (len papers) 0) as [Hz|Hnz].
  { injection Hrun as <- <-. split; [done|]. intros x [= <-].
    eexists. split; [reflexivity|].
    cbn [TotalItems SuccessItems FailedItems BatchCount SuccessBatches
           FailedBatches]. rewrite Hq, Hz.
    repeat split; try done; lia. }
  erewrite bind_Ret in Hrun by apply log_run.
  set (stats0 := mkUpsertStats _ _ _ _ _ _) in Hrun.
  set (w0 := addLogs w _) in Hrun.
  destruct (statsLoop MarshalMap wr (length papers) papers 0 stats0 w0)
    as [rl wl] eqn:Hl.
  pose proof Hl as Hl0.
  apply statsLoop_inv in Hl; [|lia|unfold len; lia]. subst stats0.
  destruct rl as [stats'|reason|]; [| |done].
  2:{ erewrite bind_Panic in Hrun by apply Hl0. injection Hrun as <- <-.
      split; [done|]. by intros x. }
  erewrite bind_Ret in Hrun by apply Hl0.
  erewrite bind_Ret in Hrun by apply log_run. injection Hrun as <- <-.
  split; [done|]. intros x [= <-]. exists stats'. split; [done|].
  cbn [TotalItems SuccessItems FailedItems BatchCount SuccessBatches
         FailedBatches] in Hl.
  destruct Hl as (H1 & H2 & H3 & H4 & H5 & H6 & H7 & H8).
  rewrite SpecProps.chunkSizes_length in H8 by lia.
  change (Z.of_nat 25) with 25 in H8.
  replace (len papers - 0) with (len papers) in * by lia.
  rewrite Z2Nat.id in H8 by lia.
  rewrite H2, Hq. repeat split; lia.
Qed.

(** X8: whatever the store answers, the statistics [BatchUpsertWithStats]
    returns account for every paper and every batch once: TotalItems is
    the number of papers, SuccessItems + FailedItems = TotalItems,
    BatchCount is ceil(N/25) and SuccessBatches + FailedBatches =
    BatchCount; the error returned with them is always nil. *)
Theorem BatchUpsertWithStats_accounts papers w r w' :
  BatchUpsertWithStats MarshalMap wr papers w = (r, w') ->
  r <> OutOfFuel
  /\ forall x, r = Ret x ->
       exists stats,
         x = (Some stats, None)
         /\ TotalItems stats = len papers
         /\ SuccessItems stats + FailedItems stats = TotalItems stats
         /\ BatchCount stats = ceilDiv (len papers) 25
         /\ SuccessBatches stats + FailedBatches stats = BatchCount stats
         /\ 0 <= SuccessItems stats /\ 0 <= FailedItems stats
         /\ 0 <= SuccessBatches stats /\ 0 <= FailedBatches stats.
Proof. apply BatchUpsertWithStats_stats. Qed.



End WithClient.

End WriterMore.

(** ** More on the paginated retriever *)

Module RetrieverMore.
Import DynamoDB Client Runtime Spec Retriever RetrieverSpec GoProps RuntimeProps.
Import RetrieverProps.

Section WithClient.
Context {S Item : Type}.
Variable UnmarshalListOfMaps : list Item -> list Paper + error.
Variable TrimSpace : string -> string.
Variable r : DataRetriever S Item.
Implicit Types w : World S Item.

Lemma cursorChain_cons traceID (key : option Item) input output err out cursor
    (tr : list (Call Item)) :
  input = mkQueryInput (tableName r) (indexName r) "trace_id = :trace_id"
            traceID false key ->
  output = Some out -> err = None -> LastEvaluatedKey out = Some cursor ->
  cursorChain (tableName r) (indexName r) traceID (Some cursor) tr ->
  cursorChain (tableName r) (indexName r) traceID key
    (CallQuery input output err :: tr).
Proof.
  intros Hin Hout Herr Hkey Hch. cbn [cursorChain]. split; [done|].
  destruct tr; [done|]. by exists out, cursor.
Qed.

Lemma pageLoop_spec (fuel : nat) : forall traceID (pageCount : Z) allPapers key
    w res w',
  0 <= pageCount -> maxPages - pageCount <= Z.of_nat fuel ->
  pageLoop UnmarshalListOfMaps r fuel traceID pageCount allPapers key w = (res, w') ->
  exists tr,
    callsBetween w w' tr
    /\ cursorChain (tableName r) (indexName r) traceID key tr
    /\ pageLoopOutcome UnmarshalListOfMaps pageCount allPapers tr res.
Proof.
  induction fuel as [|fuel IH];
    intros traceID pageCount allPapers key w res w' Hp Hfuel Hrun.
  - simpl in Hrun. destruct (Z.ltb_spec pageCount maxPages) as [?|Hge]; [lia|].
    injection Hrun as <- <-. exists []. split; [apply callsBetween_refl|].
    split; [done|]. cbn. rewrite app_nil_r. repeat split; lia.
  - cbn [pageLoop] in Hrun.
    destruct (Z.ltb_spec pageCount maxPages) as [Hlt|Hge].
    2:{ injection Hrun as <- <-. exists []. split; [apply callsBetween_refl|].
        split; [done|]. cbn. rewrite app_nil_r. repeat split; lia. }
    cbv zeta in Hrun.
    set (input := mkQueryInput _ _ _ _ _ _) in Hrun.
    destruct (query_run (client r) input w) as (output & err & s' & Hcall & Hq).
    erewrite bind_Ret in Hrun by apply Hq. cbn beta iota in Hrun.
    set (c := CallQuery input output err) in *.
    assert (Hone : forall l, callsBetween w (addLogs (addCall w s' c) l) [c])
      by done.
    assert (Hch1 : cursorChain (tableName r) (indexName r) traceID key [c])
      by done.
    destruct err as [e|].
    { erewrite bind_Ret in Hrun by apply log_run. injection Hrun as <- <-.
      exists [c]. split; [apply Hone|]. split; [done|].
      exists input, output, (Some e). split; [done|]. left. exists e.
      split; [done|]. reflexivity. }
    destruct output as [output|].
    2:{ erewrite bind_Panic in Hrun by reflexivity. injection Hrun as <- <-.
        exists [c]. split; [|split; [done|by exists input]].
        specialize (Hone []). by rewrite addLogs_nil in Hone. }
    erewrite bind_Ret in Hrun by reflexivity.
    destruct (UnmarshalListOfMaps (Items output)) as [papers|e] eqn:Hum.
    2:{ erewrite bind_Ret in Hrun by apply log_run. injection Hrun as <- <-.
        exists [c]. split; [apply Hone|]. split; [done|].
        exists input, (Some output), None. split; [done|]. right.
        exists output, e. by repeat split. }
    destruct (retriever_validateLoop_run papers [] (addCall w s' c))
      as (entries & Hv & _).
    erewrite bind_Ret in Hrun by apply Hv.
    erewrite bind_Ret in Hrun by apply log_run. rewrite addLogs_addLogs in Hrun.
    cbn [app] in Hrun.
    assert (Hpage : papersOf UnmarshalListOfMaps (pages [c]) = validOf papers).
    { unfold papersOf, pagePapers. cbn. rewrite Hum. by rewrite app_nil_r. }
    destruct (LastEvaluatedKey output) as [key'|] eqn:Hkey.
    2:{ injection Hrun as <- <-. exists [c]. split; [apply Hone|].
        split; [done|]. cbn [pageLoopOutcome]. rewrite Hpage.
        by repeat split. }
    apply IH in Hrun; [|lia|lia].
    destruct Hrun as (tr & Htr & Hch & Hout).
    exists (c :: tr). split.
    { change (c :: tr) with ([c] ++ tr)%list.
      eapply callsBetween_trans; [|apply Htr]. apply Hone. }
    split; [by eapply cursorChain_cons|].
    assert (Hlast : forall x, last tr = Some x -> last (c :: tr) = Some x).
    { intros x Hx. destruct tr; [done|]. exact Hx. }
    assert (Hlen : pageCount + 1 + Z.of_nat (length tr)
                   = pageCount + Z.of_nat (length (c :: tr)))
      by (cbn [length]; lia).
    unfold pageLoopOutcome in Hout |- *. destruct res as [[e|[pc all]]|reason|].
    + destruct Hout as (input' & output' & err' & Hl & Hcases).
      exists input', output', err'. split; [by apply Hlast|].
      rewrite <- Hlen. exact Hcases.
    + destruct Hout as (-> & -> & Hpl). split; [exact Hlen|].
      change (c :: tr) with ([c] ++ tr)%list. rewrite pages_app.
      assert (Happ : forall a b : list (QueryOutput Item),
                papersOf UnmarshalListOfMaps (a ++ b)
                = (papersOf UnmarshalListOfMaps a
                   ++ papersOf UnmarshalListOfMaps b)%list)
        by (intros; unfold papersOf; by rewrite map_app, concat_app).
      rewrite Happ, Hpage.
      split; [by rewrite app_assoc|]. rewrite !length_app, Hpl. done.
    + destruct Hout as (input' & Hl). exists input'. by apply Hlast.
    + done.
Qed.

Lemma GetCombinedTextsByTraceID_spec (traceID : string) w res w' :
  traceID <> "" ->
  GetCombinedTextsByTraceID UnmarshalListOfMaps TrimSpace r traceID w = (res, w') ->
  exists tr,
    callsBetween w w' tr
    /\ cursorChain (tableName r) (indexName r) traceID None tr
    /\ match res with
       | Ret (texts, None) =>
           pageLoopOutcome UnmarshalListOfMaps 0 []%list tr
             (Ret (inr (Z.of_nat (length tr),
                        papersOf UnmarshalListOfMaps (pages tr))))
           /\ texts = combineOf TrimSpace (papersOf UnmarshalListOfMaps (pages tr))
       | Ret (texts, Some e) =>
           texts = [] /\ pageLoopOutcome UnmarshalListOfMaps 0 []%list tr (Ret (inl e))
       | Panic reason => pageLoopOutcome UnmarshalListOfMaps 0 []%list tr (Panic reason)
       | OutOfFuel => False
       end.
Proof.
  intros Hne Hrun. unfold GetCombinedTextsByTraceID in Hrun.
  apply isEmpty_false in Hne. rewrite Hne in Hrun.
  erewrite bind_Ret in Hrun by apply log_run.
  set (w0 := addLogs w _) in Hrun.
  destruct (pageLoop UnmarshalListOfMaps r (Z.to_nat maxPages) traceID 0 [] None w0)
    as [rl wl] eqn:Hl.
  pose proof Hl as Hl'.
  apply pageLoop_spec in Hl' as (tr & Htr & Hch & Hout);
    [|lia|unfold maxPages; lia].
  exists tr.
  destruct rl as [[e|[pc all]]|reason|]; [| | |done].
  - erewrite bind_Ret in Hrun by apply Hl. injection Hrun as <- <-.
    split; [exact Htr|]. by split.
  - erewrite bind_Ret in Hrun by apply Hl. cbn beta iota in Hrun.
    destruct (CoordinatorProps.if_log_run (pc >=? maxPages)
                LevelWarn "Hit maximum page limit during retrieval" wl)
      as (l1 & Hl1).
    erewrite bind_Ret in Hrun by apply Hl1.
    erewrite bind_Ret in Hrun by apply log_run.
    pose proof Hout as Hout'.
    destruct Hout' as (Hpc & Hall & Hpl). cbn [app] in Hall.
    rewrite Z.add_0_l in Hpc. subst pc all.
    destruct (Z.eqb_spec (len (papersOf UnmarshalListOfMaps (pages tr))) 0)
      as [Hz|Hnz].
    { injection Hrun as <- <-. split; [exact Htr|]. split; [done|].
      split; [done|]. apply len_zero in Hz. by rewrite Hz. }
    erewrite bind_Ret in Hrun by apply log_run.
    edestruct (combineLoop_run (S:=S) (Item:=Item) TrimSpace
                 (papersOf UnmarshalListOfMaps (pages tr)) []) as (l2 & Hc & _).
    erewrite bind_Ret in Hrun by apply Hc.
    erewrite bind_Ret in Hrun by apply log_run. injection Hrun as <- <-.
    split; [exact Htr|]. by split.
  - erewrite bind_Panic in Hrun by apply Hl. injection Hrun as <- <-.
    split; [exact Htr|]. by split.
Qed.

(** X10: whatever the store answers, the calls of
    [GetCombinedTextsByTraceID] form one chain of page queries: each
    queries the index of the table for the trace id, the first without a
    start key and each later one from the cursor of the answer before
    it; no page is asked twice and none is skipped. *)
Theorem GetCombinedTextsByTraceID_follows_cursor (traceID : string) w res w' :
  GetCombinedTextsByTraceID UnmarshalListOfMaps TrimSpace r traceID w = (res, w') ->
  exists tr,
    callsBetween w w' tr
    /\ cursorChain (tableName r) (indexName r) traceID None tr.
Proof.
  intros Hrun. destruct (decide (traceID = "")) as [->|Hne].
  - injection Hrun as <- <-. exists []. split; [apply callsBetween_refl|done].
  - apply GetCombinedTextsByTraceID_spec in Hrun as (tr & Htr & Hch & _); [|done].
    by exists tr.
Qed.

(** X11: retrieval is all or nothing: when a query or the unmarshalling
    of a page fails, [GetCombinedTextsByTraceID] returns no text at all,
    also when earlier pages were retrieved, and its error names the
    page, which is the number of queries made. *)
Theorem GetCombinedTextsByTraceID_all_or_nothing (traceID : string) w texts e w' :
  traceID <> "" ->
  GetCombinedTextsByTraceID UnmarshalListOfMaps TrimSpace r traceID w
  = (Ret (texts, Some e), w') ->
  texts = []
  /\ exists tr input output err,
      callsBetween w w' tr
      /\ last tr = Some (CallQuery input output err)
      /\ ((exists e0,
             err = Some e0
             /\ e = ("failed to query papers by traceID on page "
                     ++ itoa (Z.of_nat (length tr)) ++ ": " ++ e0)%string)
          \/ (exists out e0,
                err = None /\ output = Some out
                /\ UnmarshalListOfMaps (Items out) = inr e0
                /\ e = ("failed to unmarshal papers on page "
                        ++ itoa (Z.of_nat (length tr)) ++ ": " ++ e0)%string)).
Proof.
  intros Hne Hrun.
  apply GetCombinedTextsByTraceID_spec in Hrun as (tr & Htr & _ & -> & Hout);
    [|done].
  split; [done|]. destruct Hout as (input & output & err & Hlast & Hcases).
  exists tr, input, output, err. split; [done|]. split; [done|].
  by rewrite Z.add_0_l in Hcases.
Qed.

Lemma combineOf_valid (papers : list Paper) :
  Forall (fun p => validatePaper p = None) papers ->
  map CombinedText_PaperID (combineOf TrimSpace papers) = map PaperID papers
  /\ Forall (fun t => CombinedText_PaperID t <> "") (combineOf TrimSpace papers).
Proof.
  induction 1 as [|p papers Hp _ [IH1 IH2]]; [by split|].
  unfold combineOf, combineOne in *. cbn [omap list_omap].
  unfold validatePaper in Hp.
  destruct (isEmpty (PaperID p)) eqn:E1; [done|].
  destruct (isEmpty (TraceID p)); [done|].
  destruct (isEmpty (Title p) && isEmpty (Abstract p)); [done|].
  cbn. split; [by rewrite IH1|]. constructor; [|done].
  by apply isEmpty_false.
Qed.

Lemma Forall_papersOf (retrieved : list (QueryOutput Item)) :
  Forall (fun p => validatePaper p = None)
    (papersOf UnmarshalListOfMaps retrieved).
Proof.
  unfold papersOf. apply Forall_concat, Forall_fmap, Forall_forall.
  intros page _. unfold pagePapers. cbn.
  destruct (UnmarshalListOfMaps (Items page)); [|constructor].
  unfold validOf. apply Forall_forall. intros p Hp.
  by apply list_elem_of_filter in Hp as [Hp _].
Qed.

(** X12: when [GetCombinedTextsByTraceID] returns without error, every
    query was answered with a page, and it returns exactly one combined
    text for each paper of these pages that passes [validatePaper], in
    the order of retrieval and under the paper id of the paper: no valid
    paper is skipped, and no text has an empty paper id. *)
Theorem GetCombinedTextsByTraceID_one_text_per_valid_paper (traceID : string)
    w texts w' :
  traceID <> "" ->
  GetCombinedTextsByTraceID UnmarshalListOfMaps TrimSpace r traceID w
  = (Ret (texts, None), w') ->
  exists tr,
    callsBetween w w' tr
    /\ length (pages tr) = length tr
    /\ texts = combineOf TrimSpace (papersOf UnmarshalListOfMaps (pages tr))
    /\ map CombinedText_PaperID texts
       = map PaperID (papersOf UnmarshalListOfMaps (pages tr))
    /\ Forall (fun t => CombinedText_PaperID t <> "") texts.
Proof.
  intros Hne Hrun.
  apply GetCombinedTextsByTraceID_spec in Hrun as (tr & Htr & _ & Hout & ->);
    [|done].
  destruct Hout as (_ & _ & Hpl).
  destruct (combineOf_valid _ (Forall_papersOf (pages tr))) as [H1 H2].
  by exists tr.
Qed.

End WithClient.

End RetrieverMore.

(** ** The HTTP client of the embedding service *)

Module APIClientProps.
Import DynamoDB Client Runtime Spec APIClient GoProps RuntimeProps.

Lemma validateEmbeddingResponse_None (response : EmbeddingResponse) :
  validateEmbeddingResponse (Some response) = None
  <-> Embedding response <> [] /\ Dimension response = len (Embedding response)
      /\ ModelVersion response <> "" /\ StorageSpec.noNaN (Embedding response).
Proof.
  unfold validateEmbeddingResponse.
  destruct (Z.eqb_spec (len (Embedding response)) 0) as [E1|E1].
  { apply len_zero in E1. split; [done|]. tauto. }
  rewrite len_zero in E1.
  destruct (Z.eqb_spec (Dimension response) (len (Embedding response))) as [E2|E2];
    cbn [negb]; [|split; [done|tauto]].
  destruct (isEmpty (ModelVersion response)) eqn:E3.
  { apply isEmpty_true in E3. split; [done|]. tauto. }
  apply isEmpty_false in E3.
  pose proof (StorageMore.firstNaN_None (Embedding response) 0) as Hn.
  destruct (Storage.firstNaN 0 (Embedding response)) as [i|].
  - split; [done|]. intros (_ & _ & _ & H). apply Hn in H. done.
  - split; [|done]. intros _. repeat split; try done. by apply Hn.
Qed.

Lemma length_substring_le (n : nat) : forall s : string,
  (String.length (String.substring 0 n s) <= n)%nat.
Proof.
  induction n as [|n IH]; intros [|ch s]; simpl; try lia.
  specialize (IH s). lia.
Qed.

Lemma prefix_substring (n : nat) : forall s : string,
  String.prefix (String.substring 0 n s) s = true.
Proof.
  induction n as [|n IH]; intros [|ch s]; simpl; try done.
  destruct (Ascii.ascii_dec ch ch); [apply IH|done].
Qed.

Lemma sentText_prefix (text : string) :
  String.prefix (sentText text) text = true
  /\ Z.of_nat (String.length (sentText text)) <= maxTextLength
  /\ (Z.of_nat (String.length text) <= maxTextLength -> sentText text = text).
Proof.
  unfold sentText.
  destruct (Z.gtb_spec (Z.of_nat (String.length text)) maxTextLength) as [Hgt|Hle].
  - split; [apply prefix_substring|]. split; [|lia].
    pose proof (length_substring_le (Z.to_nat maxTextLength) text).
    unfold maxTextLength in *. lia.
  - split; [|done]. clear Hle. induction text as [|ch text IH]; [done|].
    simpl. destruct (Ascii.ascii_dec ch ch); [apply IH|done].
Qed.

Section WithHTTPClient.
Context {S Item : Type}.
Variable MarshalRequest : string -> string + error.
Variable UnmarshalAPIError : string -> APIError + error.
Variable UnmarshalEmbeddingResponse : string -> EmbeddingResponse + error.
Variable urlError : string -> option error.
Variable c : VectorAPIClient S.
Implicit Types w : World S Item.

Lemma Do_run (req : Request) w :
  exists resp err s',
    httpClient c req (ext w) = ((resp, err), s')
    /\ Do (Item:=Item) c req w
       = (Ret (resp, err), mkWorld s' (calls w) (logs w)).
Proof.
  unfold Do. destruct (httpClient c req (ext w)) as [[resp err] s'].
  by exists resp, err, s'.
Qed.

(** What a call of [GenerateEmbedding] does and returns. *)
Lemma GenerateEmbedding_spec (text : string) w res w' :
  GenerateEmbedding MarshalRequest UnmarshalAPIError UnmarshalEmbeddingResponse
    urlError c text w = (res, w') ->
  calls w' = calls w
  /\ (ext w' = ext w
      \/ exists requestBody,
           text <> ""
           /\ MarshalRequest (sentText text) = inl requestBody
           /\ urlError (baseURL c) = None
           /\ ext w' = snd (httpClient c (embeddingRequest c requestBody) (ext w)))
  /\ match res with
     | Ret (Some response, err) =>
         err = None
         /\ validateEmbeddingResponse (Some response) = None
         /\ exists requestBody resp payload,
             MarshalRequest (sentText text) = inl requestBody
             /\ fst (httpClient c (embeddingRequest c requestBody) (ext w))
                = (Some resp, None)
             /\ StatusCode resp = StatusOK
             /\ Body resp = Some (inl payload)
             /\ UnmarshalEmbeddingResponse payload = inl response
     | Ret (None, err) => err <> None
     | Panic _ =>
         exists requestBody resp,
           MarshalRequest (sentText text) = inl requestBody
           /\ fst (httpClient c (embeddingRequest c requestBody) (ext w))
              = (resp, None)
           /\ (resp = None \/ exists r, resp = Some r /\ Body r = None)
     | OutOfFuel => False
     end.
Proof.
  unfold GenerateEmbedding. intros Hrun.
  destruct (isEmpty text) eqn:Hempty.
  { injection Hrun as <- <-. split; [done|]. split; [by left|done]. }
  apply isEmpty_false in Hempty.
  erewrite bind_Ret in Hrun by apply log_run.
  set (w0 := addLogs w _) in Hrun.
  assert (Hcut : exists l,
             (if Z.of_nat (String.length text) >? maxTextLength
              then log LevelWarn "Text length exceeds maximum" ;;
                   mret (String.substring 0 (Z.to_nat maxTextLength) text)
              else mret text) w0
             = (Ret (sentText text), addLogs w0 l)).
  { unfold sentText. destruct (_ >? _).
    - eexists. by erewrite bind_Ret by apply log_run.
    - exists []. by rewrite addLogs_nil. }
  destruct Hcut as (l0 & Hcut).
  erewrite bind_Ret in Hrun by apply Hcut. subst w0.
  rewrite addLogs_addLogs in Hrun.
  remember (MarshalRequest (sentText text)) as mr eqn:Hm in Hrun.
  symmetry in Hm. destruct mr as [requestBody|e].
  2:{ erewrite bind_Ret in Hrun by apply log_run. injection Hrun as <- <-.
      split; [done|]. split; [by left|done]. }
  unfold NewRequestWithContext in Hrun.
  remember (urlError (baseURL c)) as ue eqn:Hurl in Hrun.
  symmetry in Hurl. destruct ue as [e|].
  { erewrite bind_Ret in Hrun by apply log_run. injection Hrun as <- <-.
    split; [done|]. split; [by left|done]. }
  fold (embeddingRequest c requestBody) in Hrun.
  set (w1 := addLogs w _) in Hrun.
  destruct (Do_run (embeddingRequest c requestBody) w1)
    as (resp & err & s' & Hcall & Hdo).
  erewrite bind_Ret in Hrun by apply Hdo. cbn beta iota in Hrun.
  change (ext w1) with (ext w) in Hcall.
  set (w2 := mkWorld s' (calls w1) (logs w1)) in Hrun.
  assert (Hsent : forall l,
             calls (addLogs w2 l) = calls w
             /\ (ext (addLogs w2 l) = ext w
                 \/ exists requestBody,
                      text <> ""
                      /\ MarshalRequest (sentText text) = inl requestBody
                      /\ urlError (baseURL c) = None
                      /\ ext (addLogs w2 l)
                         = snd (httpClient c (embeddingRequest c requestBody)
                                  (ext w)))).
  { intros l. split; [done|]. right. exists requestBody.
    repeat split; try done. by rewrite Hcall. }
  destruct err as [e|].
  { erewrite bind_Ret in Hrun by apply log_run. injection Hrun as <- <-.
    destruct (Hsent [mkLogEntry LevelError "HTTP request failed"]) as [H1 H2].
    split; [exact H1|split; [exact H2|done]]. }
  destruct resp as [resp|].
  2:{ erewrite bind_Panic in Hrun by reflexivity. injection Hrun as <- <-.
      destruct (Hsent []) as [H1 H2]. rewrite addLogs_nil in H1, H2.
      split; [exact H1|]. split; [exact H2|]. exists requestBody, None.
      rewrite Hcall. split; [done|]. split; [done|]. by left. }
  erewrite bind_Ret in Hrun by reflexivity.
  remember (Body resp) as rb eqn:Hbody in Hrun.
  symmetry in Hbody. destruct rb as [body|].
  2:{ erewrite bind_Panic in Hrun by reflexivity. injection Hrun as <- <-.
      destruct (Hsent []) as [H1 H2]. rewrite addLogs_nil in H1, H2.
      split; [exact H1|]. split; [exact H2|]. exists requestBody, (Some resp).
      rewrite Hcall. split; [done|]. split; [done|]. right. by exists resp. }
  erewrite bind_Ret in Hrun by reflexivity.
  destruct body as [responseBody|e].
  2:{ erewrite bind_Ret in Hrun by apply log_run. injection Hrun as <- <-.
      destruct (Hsent [mkLogEntry LevelError "Failed to read response body"])
        as [H1 H2]. split; [exact H1|split; [exact H2|done]]. }
  destruct (Z.eqb_spec (StatusCode resp) StatusOK) as [Hok|Hnok]; cbn [negb] in Hrun.
  2:{ destruct (UnmarshalAPIError responseBody) as [apiError|e].
      - erewrite bind_Ret in Hrun by apply log_run. injection Hrun as <- <-.
        destruct (Hsent [mkLogEntry LevelError "API returned error"])
          as [H1 H2]. split; [exact H1|split; [exact H2|done]].
      - erewrite bind_Ret in Hrun by apply log_run. injection Hrun as <- <-.
        destruct (Hsent [mkLogEntry LevelError "Failed to parse error response"])
          as [H1 H2]. split; [exact H1|split; [exact H2|done]]. }
  remember (UnmarshalEmbeddingResponse responseBody) as um eqn:Hum in Hrun.
  symmetry in Hum. destruct um as [response|e].
  2:{ erewrite bind_Ret in Hrun by apply log_run. injection Hrun as <- <-.
      destruct (Hsent [mkLogEntry LevelError "Failed to parse embedding response"])
        as [H1 H2]. split; [exact H1|split; [exact H2|done]]. }
  remember (validateEmbeddingResponse (Some response)) as vr eqn:Hval in Hrun.
  symmetry in Hval. destruct vr as [e|].
  { erewrite bind_Ret in Hrun by apply log_run. injection Hrun as <- <-.
    destruct (Hsent [mkLogEntry LevelError "Invalid embedding response"])
      as [H1 H2]. split; [exact H1|split; [exact H2|done]]. }
  erewrite bind_Ret in Hrun by apply log_run. injection Hrun as <- <-.
  destruct (Hsent [mkLogEntry LevelInfo "Successfully generated embedding"])
    as [H1 H2].
  split; [exact H1|]. split; [exact H2|]. split; [done|]. split; [done|].
  exists requestBody, resp, responseBody. rewrite Hcall. by repeat split.
Qed.

(** X13: a call of [GenerateEmbedding] makes no call to the table store
    and at most one HTTP exchange, without retry: either the state of
    the network is left as it was (as for an empty text, which fails at
    once with "text cannot be empty"), or it is the state after one
    POST to the base URL, with JSON headers, of the marshalled text cut
    to its first 10000 bytes. *)
Theorem GenerateEmbedding_one_exchange (text : string) w res w' :
  GenerateEmbedding MarshalRequest UnmarshalAPIError UnmarshalEmbeddingResponse
    urlError c text w = (res, w') ->
  calls w' = calls w
  /\ (text = "" -> res = Ret (None, Some "text cannot be empty") /\ w' = w)
  /\ (ext w' = ext w
      \/ exists requestBody,
           text <> ""
           /\ MarshalRequest (sentText text) = inl requestBody
           /\ ext w' = snd (httpClient c (embeddingRequest c requestBody) (ext w))
           /\ Method (embeddingRequest c requestBody) = "POST"
           /\ URL (embeddingRequest c requestBody) = baseURL c
           /\ RequestBody (embeddingRequest c requestBody) = requestBody
           /\ Header (embeddingRequest c requestBody) !! "Content-Type"
              = Some ["application/json"]
           /\ Header (embeddingRequest c requestBody) !! "Accept"
              = Some ["application/json"])
  /\ String.prefix (sentText text) text = true
  /\ Z.of_nat (String.length (sentText text)) <= maxTextLength
  /\ (Z.of_nat (String.length text) <= maxTextLength -> sentText text = text).
Proof.
  intros Hrun. pose proof Hrun as Hspec.
  apply GenerateEmbedding_spec in Hspec as (Hcalls & Hext & _).
  split; [done|]. split.
  { intros ->. by injection Hrun as <- <-. }
  split.
  - destruct Hext as [?|(requestBody & Hne & Hm & _ & Hs)]; [by left|].
    right. exists requestBody. by repeat split.
  - apply sentText_prefix.
Qed.

(** X14: [GenerateEmbedding] returns either a response or an error,
    never both and never neither; a response is returned only when the
    service answered the exchange with the status 200 and a body that
    parses, and it has passed [validateEmbeddingResponse]: its embedding
    is not empty and holds no NaN, its dimension is the length of the
    embedding and its model version is not empty. *)
Theorem GenerateEmbedding_returns_validated (text : string) w response err w' :
  GenerateEmbedding MarshalRequest UnmarshalAPIError UnmarshalEmbeddingResponse
    urlError c text w = (Ret (response, err), w') ->
  (response = None <-> err <> None)
  /\ forall er, response = Some er ->
       Embedding er <> [] /\ Dimension er = len (Embedding er)
       /\ ModelVersion er <> "" /\ StorageSpec.noNaN (Embedding er)
       /\ exists requestBody resp payload,
           MarshalRequest (sentText text) = inl requestBody
           /\ fst (httpClient c (embeddingRequest c requestBody) (ext w))
              = (Some resp, None)
           /\ StatusCode resp = 200
           /\ Body resp = Some (inl payload)
           /\ UnmarshalEmbeddingResponse payload = inl er.
Proof.
  intros Hrun. apply GenerateEmbedding_spec in Hrun as (_ & _ & Hres).
  destruct response as [er|].
  - destruct Hres as (-> & Hval & Hex). split; [split; [done|by intros []]|].
    intros ? [= <-]. apply validateEmbeddingResponse_None in Hval.
    destruct Hval as (H1 & H2 & H3 & H4). by repeat split.
  - split; [done|]. by intros er.
Qed.

End WithHTTPClient.

Section Composition.
Context {S Item : Type}.
Variable clock : S -> Z.
Variable RFC3339 : Z -> string.

(** X15: the record [CreateVectorRecord] builds from a response that
    passes [validateEmbeddingResponse], for a paper id and a trace id
    that are not empty, passes [validateVectorRecord]: the storage never
    rejects what the client accepted. *)
Theorem validated_response_gives_valid_record (response : EmbeddingResponse)
    (paperID text traceID : string) (processingTimeMs : Z) (w : World S Item) :
  validateEmbeddingResponse (Some response) = None ->
  paperID <> "" -> traceID <> "" ->
  exists record,
    Storage.CreateVectorRecord clock RFC3339 paperID text traceID
      (Embedding response) (ModelVersion response) processingTimeMs w
    = (Ret record, w)
    /\ Storage.validateVectorRecord record = None.
Proof.
  intros Hval Hp Ht. apply validateEmbeddingResponse_None in Hval.
  destruct Hval as (H1 & _ & H3 & H4).
  eexists. split; [reflexivity|].
  apply StorageMore.validateVectorRecord_None. by repeat split.
Qed.

End Composition.

End APIClientProps.

(** ** More on the vectorization stage *)

Module CoordinatorMore.
Import DynamoDB Client Runtime Spec Coordinator CoordinatorSpec GoProps RuntimeProps.
Import Retriever(CombinedText, CombinedText_PaperID, CombinedText_Text).
Import Storage(VectorRecord, BatchWriteResult, SuccessCount, FailedItems, Errors).
Import CoordinatorProps.

Section WithCollaborators.
Context {S Item : Type}.
Variable clock : S -> Z.
Variable RFC3339 : Z -> string.
Variable vc : VectorCoordinator S Item.
Implicit Types w : World S Item.

(** The records of the embedding loop: with an embedding client that
    hands back responses with the property [P] only, every record the
    loop adds is built by [CreateVectorRecord] from a text of the list
    and a response with [P]. *)
Lemma embeddingLoop_records (P : EmbeddingResponse -> Prop)
    (Q : VectorRecord -> Prop) traceID total (texts : list CombinedText) :
  (forall text w response w1,
     apiClient vc text w = (Ret (Some response, None), w1) -> P response) ->
  (forall text response processingTimeMs w record,
     text ∈ texts -> P response ->
     Storage.CreateVectorRecord clock RFC3339 (CombinedText_PaperID text)
       (CombinedText_Text text) traceID (Embedding response)
       (ModelVersion response) processingTimeMs w = (Ret record, w) ->
     Q record) ->
  forall (i : Z) vectorRecords embeddingErrors result w vrs' errs' result' w',
    embeddingLoop clock RFC3339 vc traceID total texts i vectorRecords
      embeddingErrors result w
    = (Ret (vrs', errs', result'), w') ->
    Forall Q vectorRecords -> Forall Q vrs'.
Proof.
  intros Hapi. induction texts as [|text texts IH];
    intros Hcreate i vrs errs result w vrs' errs' result' w' Hrun Hq.
  - by injection Hrun as <- <- <- <-.
  - cbn [embeddingLoop] in Hrun.
    erewrite bind_Ret in Hrun by apply ask_run.
    assert (Hlog : exists l,
              (if (Z.rem (i + 1) 10 =? 0) || (i =? total - 1)
               then log LevelInfo "Embedding generation progress"
               else mret tt) w = (Ret tt, addLogs w l)).
    { destruct (_ || _); [by eexists|]. exists []. by rewrite addLogs_nil. }
    destruct Hlog as (l & Hlog).
    erewrite bind_Ret in Hrun by apply Hlog.
    apply bind_inv in Hrun as ([response err] & w1 & Hcall & Hrun).
    assert (Hcreate' : forall text0 response0 processingTimeMs w0 record,
               text0 ∈ texts -> P response0 ->
               Storage.CreateVectorRecord clock RFC3339
                 (CombinedText_PaperID text0) (CombinedText_Text text0) traceID
                 (Embedding response0) (ModelVersion response0)
                 processingTimeMs w0 = (Ret record, w0) ->
               Q record).
    { intros text0 response0 ms w0 record Hin. apply Hcreate.
      by apply list_elem_of_further. }
    destruct err as [e|].
    + erewrite bind_Ret in Hrun by apply log_run.
      by apply (IH Hcreate') in Hrun.
    + unfold since in Hrun. erewrite bind_Ret in Hrun by apply ask_run.
      destruct response as [response|].
      2:{ erewrite bind_Panic in Hrun by reflexivity. done. }
      erewrite bind_Ret in Hrun by reflexivity.
      erewrite bind_Ret in Hrun by reflexivity.
      apply (IH Hcreate') in Hrun; [done|].
      apply Forall_app. split; [done|]. apply Forall_singleton.
      eapply (Hcreate text response); [apply list_elem_of_here| |reflexivity].
      by eapply Hapi.
Qed.

(** The phases of an invocation: what it retrieved, the records of the
    embedding loop and what the storage answered, with the counts of
    the result. *)
Lemma processVectorization_phases traceID w out w' :
  processVectorization clock RFC3339 vc traceID w = (Ret out, w') ->
  exists res,
    fst out = Some res
    /\ 0 <= EmbeddingsGenerated res /\ 0 <= FailedEmbeddings res
    /\ EmbeddingsGenerated res + FailedEmbeddings res = TotalPapers res
    /\ ((EmbeddingsGenerated res = 0
         /\ VectorsStored res = 0 /\ FailedStorage res = 0)
        \/ exists texts w0 w1 result0 w2 records errors result1 w3
             w4 batchResult err w5,
             traceID <> ""
             /\ retriever vc traceID w0 = (Ret (texts, None), w1)
             /\ embeddingLoop clock RFC3339 vc traceID (len texts) texts 0 [] []
                  result0 w2 = (Ret (records, errors, result1), w3)
             /\ TotalPapers res = len texts
             /\ EmbeddingsGenerated res = len records
             /\ 0 < len records
             /\ vectorStorage vc records w4 = (Ret (batchResult, err), w5)
             /\ match batchResult, err with
                | _, Some _ => VectorsStored res = 0 /\ FailedStorage res = 0
                | Some br, None =>
                    VectorsStored res = SuccessCount br
                    /\ FailedStorage res = len (FailedItems br)
                | None, None => False
                end).
Proof.
  intros Hrun. unfold processVectorization in Hrun.
  erewrite bind_Ret in Hrun by apply ask_run.
  erewrite bind_Ret in Hrun by apply ask_run.
  erewrite bind_Ret in Hrun by apply log_run.
  destruct (isEmpty traceID) eqn:Hempty.
  { erewrite bind_Ret in Hrun by apply log_run.
    injection Hrun as <- <-.
    eexists. split; [reflexivity|]. cbn. repeat split; try done. by left. }
  apply isEmpty_false in Hempty.
  erewrite bind_Ret in Hrun by apply log_run.
  apply bind_inv in Hrun as ([texts err] & w1 & Hret & Hrun).
  destruct err as [e|].
  { unfold since in Hrun. erewrite bind_Ret in Hrun by apply ask_run.
    erewrite bind_Ret in Hrun by apply log_run. injection Hrun as <- <-.
    eexists. split; [reflexivity|]. cbn. repeat split; try done. by left. }
  erewrite bind_Ret in Hrun by apply log_run.
  cbn [TotalPapers setTotalPapers setStatus] in Hrun.
  destruct (Z.eqb_spec (len texts) 0) as [Hz|Hnz].
  { unfold since in Hrun. erewrite bind_Ret in Hrun by apply ask_run.
    erewrite bind_Ret in Hrun by apply log_run. injection Hrun as <- <-.
    eexists. split; [reflexivity|]. cbn. repeat split; try done. by left. }
  erewrite bind_Ret in Hrun by apply log_run.
  apply bind_inv in Hrun as ([[vrs errs] result] & w2 & Hloop & Hrun).
  pose proof Hloop as Hinv.
  apply embeddingLoop_inv in Hinv. cbn in Hinv. rewrite len_nil in Hinv.
  destruct Hinv as (Hl1 & Hl2 & Hl3 & Hl4 & Hl5 & Hl6 & Hl7 & Hl8 & Hl9 & Hl10).
  pose proof (len_nonneg texts) as Htexts.
  pose proof (len_nonneg vrs) as Hvrs.
  cbn beta iota in Hrun.
  erewrite bind_Ret in Hrun by apply log_run.
  destruct (Z.eqb_spec (len vrs) 0) as [Hvz|Hvnz].
  { unfold since in Hrun. erewrite bind_Ret in Hrun by apply ask_run.
    erewrite bind_Ret in Hrun by apply log_run. injection Hrun as <- <-.
    eexists. split; [reflexivity|]. cbn.
    split; [lia|]. split; [lia|]. split; [lia|]. left.
    split; [lia|]. by rewrite Hl8, Hl9. }
  erewrite bind_Ret in Hrun by apply log_run.
  set (w4 := addLogs (addLogs w2 _) _) in Hrun.
  apply bind_inv in Hrun as ([batchResult err] & w3 & Hstore & Hrun).
  assert (Hphases : forall res,
             TotalPapers res = TotalPapers result ->
             EmbeddingsGenerated res = EmbeddingsGenerated result ->
             FailedEmbeddings res = FailedEmbeddings result ->
             match batchResult, err with
             | _, Some _ => VectorsStored res = 0 /\ FailedStorage res = 0
             | Some br, None =>
                 VectorsStored res = SuccessCount br
                 /\ FailedStorage res = len (FailedItems br)
             | None, None => False
             end ->
             exists res0,
               Some res = Some res0
               /\ 0 <= EmbeddingsGenerated res0 /\ 0 <= FailedEmbeddings res0
               /\ EmbeddingsGenerated res0 + FailedEmbeddings res0
                  = TotalPapers res0
               /\ ((EmbeddingsGenerated res0 = 0
                    /\ VectorsStored res0 = 0 /\ FailedStorage res0 = 0)
                   \/ exists texts w0 w1 result0 w2 records errors result1 w3
                        w4 batchResult err w5,
                        traceID <> ""
                        /\ retriever vc traceID w0 = (Ret (texts, None), w1)
                        /\ embeddingLoop clock RFC3339 vc traceID (len texts)
                             texts 0 [] [] result0 w2
                           = (Ret (records, errors, result1), w3)
                        /\ TotalPapers res0 = len texts
                        /\ EmbeddingsGenerated res0 = len records
                        /\ 0 < len records
                        /\ vectorStorage vc records w4
                           = (Ret (batchResult, err), w5)
                        /\ match batchResult, err with
                           | _, Some _ =>
                               VectorsStored res0 = 0 /\ FailedStorage res0 = 0
                           | Some br, None =>
                               VectorsStored res0 = SuccessCount br
                               /\ FailedStorage res0 = len (FailedItems br)
                           | None, None => False
                           end)).
  { intros res H1 H2 H3 H4. exists res. split; [done|].
    rewrite H1, H2, H3. split; [lia|]. split; [lia|]. split; [lia|].
    right. eexists texts, _, w1, _, _, vrs, errs, result, w2, w4, batchResult,
      err, w3.
    split; [done|]. split; [exact Hret|]. split; [exact Hloop|].
    split; [lia|]. split; [lia|]. split; [lia|]. split; [exact Hstore|done]. }
  destruct err as [e|].
  { unfold since in Hrun. erewrite bind_Ret in Hrun by apply ask_run.
    erewrite bind_Ret in Hrun by apply log_run. injection Hrun as <- <-.
    cbn [fst]. apply Hphases; cbn; try done.
    destruct batchResult; by rewrite Hl8, Hl9. }
  destruct batchResult as [batchResult|].
  2:{ erewrite bind_Panic in Hrun by reflexivity. done. }
  erewrite bind_Ret in Hrun by reflexivity.
  unfold since in Hrun. erewrite bind_Ret in Hrun by apply ask_run.
  cbn [FailedEmbeddings FailedStorage VectorsStored setVectorsStored
         setFailedStorage setProcessingTimeMs] in Hrun.
  set (FE := FailedEmbeddings result) in *.
  set (FS := len (FailedItems batchResult)) in *.
  set (VS := SuccessCount batchResult) in *.
  set (classifiedResult := if (FE =? 0) && (FS =? 0) then _ else _) in Hrun.
  assert (Hfields :
            FailedEmbeddings classifiedResult = FE
            /\ FailedStorage classifiedResult = FS
            /\ VectorsStored classifiedResult = VS
            /\ EmbeddingsGenerated classifiedResult = EmbeddingsGenerated result
            /\ TotalPapers classifiedResult = TotalPapers result).
  { subst classifiedResult.
    destruct ((FE =? 0) && (FS =? 0)); [|destruct (VS >? 0)]; cbn;
      by repeat split. }
  destruct Hfields as (Hf2 & Hf3 & Hf4 & Hf5 & Hf6).
  clearbody classifiedResult.
  erewrite bind_Ret in Hrun by apply log_run.
  edestruct (if_log_run (S:=S) (Item:=Item)
               (FailedEmbeddings classifiedResult >? 0) LevelWarn
               "Some embeddings failed to generate") as (l1 & Hwarn1).
  erewrite bind_Ret in Hrun by apply Hwarn1.
  set (w6 := addLogs (addLogs w3 _) l1) in *.
  assert (Hwarn2 : exists l,
            (if FailedStorage classifiedResult >? 0
             then log LevelWarn "Some vector records failed to store" ;;
                  storageErrorLoop (Errors batchResult)
             else mret tt) w6 = (Ret tt, addLogs w6 l)).
  { destruct (FailedStorage classifiedResult >? 0).
    - destruct (storageErrorLoop_run (Errors batchResult)
                  (addLogs w6 [mkLogEntry LevelWarn
                                 "Some vector records failed to store"]))
        as (l & Hl).
      exists ([mkLogEntry LevelWarn "Some vector records failed to store"] ++ l)%list.
      cbv iota. erewrite bind_Ret by apply log_run. rewrite Hl.
      by rewrite addLogs_addLogs.
    - exists []. by rewrite addLogs_nil. }
  destruct Hwarn2 as (l2 & Hwarn2).
  erewrite bind_Ret in Hrun by apply Hwarn2.
  destruct (logSystemMetrics_run classifiedResult (addLogs w6 l2)) as (l3 & Hm).
  erewrite bind_Ret in Hrun by apply Hm.
  assert (Hout : fst out = Some classifiedResult).
  { destruct (decide (Status classifiedResult = StatusFailed));
      [by injection Hrun as <- <-|].
    destruct (decide (Status classifiedResult = StatusPartial));
      by injection Hrun as <- <-. }
  rewrite Hout. apply Hphases; try done.
Qed.

(** X16: in every result [processVectorization] returns, each retrieved
    paper is counted once, as an embedding generated or as an embedding
    failed: EmbeddingsGenerated + FailedEmbeddings = TotalPapers; and
    nothing is counted as stored or as failed in storage unless an
    embedding was generated. *)
Theorem processVectorization_counts_papers traceID w res err w' :
  processVectorization clock RFC3339 vc traceID w = (Ret (Some res, err), w') ->
  EmbeddingsGenerated res + FailedEmbeddings res = TotalPapers res
  /\ 0 <= EmbeddingsGenerated res /\ 0 <= FailedEmbeddings res
  /\ (EmbeddingsGenerated res = 0 ->
      VectorsStored res = 0 /\ FailedStorage res = 0).
Proof.
  intros Hrun.
  apply processVectorization_phases in Hrun as (res0 & [= <-] & H1 & H2 & H3 & H4).
  split; [done|]. split; [done|]. split; [done|]. intros Hz.
  destruct H4 as [(_ & ? & ?)|H4]; [done|].
  destruct H4 as (texts & w0 & w1 & result0 & w2 & records & errors & result1
                  & w3 & w4 & batchResult & err' & w5 & _ & _ & _ & _ & Hg & Hp
                  & _).
  lia.
Qed.

Section WithStorage.
Variable MarshalMap : VectorRecord -> Item + error.
Variable s : Storage.VectorStorage S Item.

(** X17: for a coordinator whose storage is the vector storage of
    the storage package, and records that marshal, every result
    [processVectorization] returns accounts for each generated
    embedding once, as stored or as failed in storage: VectorsStored
    + FailedStorage = EmbeddingsGenerated; with the embedding
    failures this is every retrieved paper. *)
Theorem processVectorization_accounts_for_every_paper traceID w res err w' :
  (forall records,
     vectorStorage vc records = Storage.BatchStoreVectors MarshalMap s records) ->
  (forall r, StorageSpec.marshals MarshalMap r = true) ->
  processVectorization clock RFC3339 vc traceID w = (Ret (Some res, err), w') ->
  VectorsStored res + FailedStorage res = EmbeddingsGenerated res
  /\ VectorsStored res + FailedStorage res + FailedEmbeddings res
     = TotalPapers res
  /\ 0 <= VectorsStored res /\ 0 <= FailedStorage res.
Proof.
  intros Hwired Hm Hrun.
  apply processVectorization_phases in Hrun
    as (res0 & [= <-] & H1 & H2 & H3 & H4).
  destruct H4 as [(? & ? & ?)|H4]; [repeat split; lia|].
  destruct H4 as (texts & w0 & w1 & result0 & w2 & records & errors & result1
                  & w3 & w4 & batchResult & err' & w5 & _ & _ & _ & _ & Hg & Hp
                  & Hst & Hcounts).
  rewrite Hwired in Hst.
  apply StorageProps.BatchStoreVectors_spec in Hst
    as (tr & _ & _ & _ & br & Heq & Hs0 & _ & Hsum & _).
  injection Heq as -> ->. destruct Hcounts as [Hvs Hfs].
  specialize (Hsum (proj2 (Forall_forall _ _) (fun r _ => Hm r))).
  pose proof (len_nonneg (FailedItems br)). repeat split; lia.
Qed.

End WithStorage.

End WithCollaborators.

Section Deployment.
Context {S Item : Type}.
Variable clock : S -> Z.
Variable RFC3339 : Z -> string.
Variable store : DynamoDBAPI S Item.
Variable MarshalRequest : string -> string + error.
Variable UnmarshalAPIError : string -> APIClient.APIError + error.
Variable UnmarshalEmbeddingResponse : string -> EmbeddingResponse + error.
Variable urlError : string -> option error.
Variable api : APIClient.VectorAPIClient S.
Variable UnmarshalListOfMaps : list Item -> list Retriever.Paper + error.
Variable TrimSpace : string -> string.
Variable MarshalMap : VectorRecord -> Item + error.
Variables papersTableName indexName vectorsTableName : string.
Implicit Types w : World S Item.

(** The records the coordinator of [handleStepFunction] hands to its
    storage all pass the validation of the storage. *)
Lemma wired_records_valid traceID (texts : list CombinedText) w0 w1
    total i result0 w2 records errors result1 w3 :
  traceID <> "" ->
  Retriever.GetCombinedTextsByTraceID UnmarshalListOfMaps TrimSpace
    (Retriever.mkDataRetriever store papersTableName indexName) traceID w0
  = (Ret (texts, None), w1) ->
  embeddingLoop clock RFC3339
    (Wiring.coordinator store MarshalRequest UnmarshalAPIError
       UnmarshalEmbeddingResponse urlError api UnmarshalListOfMaps
       TrimSpace MarshalMap papersTableName indexName vectorsTableName)
    traceID total texts i [] [] result0 w2
  = (Ret (records, errors, result1), w3) ->
  Forall (fun r => Storage.validateVectorRecord r = None) records.
Proof.
  intros Hne Hret Hloop.
  apply RetrieverMore.GetCombinedTextsByTraceID_spec in Hret
    as (tr & _ & _ & _ & ->); [|done].
  destruct (RetrieverMore.combineOf_valid TrimSpace _
              (RetrieverMore.Forall_papersOf UnmarshalListOfMaps (pages tr)))
    as [_ Hids].
  eapply (embeddingLoop_records clock RFC3339 _
            (fun r => APIClient.validateEmbeddingResponse (Some r) = None)
            (fun r => Storage.validateVectorRecord r = None));
    [| |exact Hloop|constructor].
  - intros text w response w' Hcall. cbn [apiClient Wiring.coordinator] in Hcall.
    by apply APIClientProps.GenerateEmbedding_spec in Hcall as (_ & _ & _ & ? & _).
  - intros text response ms w record Hin Hval Hcreate.
    injection Hcreate as <-.
    apply APIClientProps.validateEmbeddingResponse_None in Hval
      as (H1 & _ & H3 & H4).
    apply StorageMore.validateVectorRecord_None. cbn.
    repeat split; try done.
    rewrite Forall_forall in Hids. by apply Hids.
Qed.

(** X18: in the stage as [handleStepFunction] wires it, with its HTTP
    client, against a store that writes every item and with records that
    marshal, every generated embedding is stored (the records built
    from the responses the client accepts all pass the validation of
    the storage): no storage failure is counted, and an invocation that
    generated an embedding never ends failed; it ends completed exactly
    when no embedding failed, and partial exactly when one did. *)
Theorem wired_stage_stores_every_embedding traceID w res err w' :
  alwaysWritesAll store vectorsTableName ->
  (forall r, StorageSpec.marshals MarshalMap r = true) ->
  processVectorization clock RFC3339
    (Wiring.coordinator store MarshalRequest UnmarshalAPIError
       UnmarshalEmbeddingResponse urlError api UnmarshalListOfMaps
       TrimSpace MarshalMap papersTableName indexName vectorsTableName)
    traceID w = (Ret (Some res, err), w') ->
  FailedStorage res = 0
  /\ VectorsStored res = EmbeddingsGenerated res
  /\ (0 < EmbeddingsGenerated res ->
      (Status res = StatusCompleted <-> FailedEmbeddings res = 0)
      /\ (Status res = StatusPartial <-> 0 < FailedEmbeddings res)
      /\ Status res <> StatusFailed).
Proof.
  intros Hall Hm Hrun. pose proof Hrun as Hinv.
  apply processVectorization_phases in Hrun
    as (res0 & [= <-] & H1 & H2 & H3 & H4).
  destruct H4 as [(? & ? & ?)|H4]; [repeat split; lia|].
  destruct H4 as (texts & w0 & w1 & result0 & w2 & records & errors & result1
                  & w3 & w4 & batchResult & err' & w5 & Hne & Hret & Hloop & _
                  & Hg & Hp & Hst & Hcounts).
  cbn [retriever vectorStorage Wiring.coordinator] in Hret, Hst.
  pose proof (wired_records_valid _ _ _ _ _ _ _ _ _ _ _ _ Hne Hret Hloop) as Hvalid.
  destruct (StorageMore.BatchStoreVectors_writesAll MarshalMap
              (Storage.mkVectorStorage store vectorsTableName) records w4 Hall
              (proj2 (Forall_forall _ _) (fun r _ => Hm r))) as (w6 & Hst').
  rewrite Hst' in Hst. injection Hst as <- <- <-. cbn in Hcounts.
  destruct Hcounts as [Hvs Hfs].
  destruct (StorageProps.validOf_all records Hvalid) as [Hv Hi].
  rewrite Hv in Hvs. rewrite Hi, len_nil in Hfs.
  split; [done|]. split; [lia|]. intros Hpos.
  apply processVectorization_inv in Hinv as (res' & [= <-] & _ & _ & _ & Hcases).
  cbn [snd] in Hcases.
  destruct Hcases as [Hc|[Hc|[Hc|[Hc|[Hc|Hc]]]]].
  - destruct Hc as (_ & _ & _ & Hz & _). lia.
  - destruct Hc as (_ & Hz & _). lia.
  - destruct Hc as (_ & Hz & _). lia.
  - destruct Hc as (_ & Hz & _). lia.
  - destruct Hc as (_ & _ & e & records' & br & w7 & w8 & Hst'' & _).
    cbn [vectorStorage Wiring.coordinator] in Hst''.
    apply StorageProps.BatchStoreVectors_spec in Hst''
      as (tr & _ & _ & _ & br' & Heq & _). done.
  - destruct Hc as (_ & _ & records' & br & w7 & w8 & _ & _ & _ & _ & Hc).
    destruct Hc as [(Hs & Hfe & _ & _)|[(Hs & Hn & Hv' & _)|(Hs & _ & Hv' & _)]].
    + rewrite Hs. repeat split; try done; lia.
    + rewrite Hs. repeat split; try done; try lia.
    + lia.
Qed.

End Deployment.

End CoordinatorMore.

(** ** The processing of an S3 event *)

Module EventProcessorProps.
Import DynamoDB Client Runtime Spec Processor EventProcessor GoProps RuntimeProps.
Import Retriever(Join).

(** *** [splitLines] *)

Lemma Split_nonempty (text : string) : Split text <> [].
Proof.
  induction text as [|c text IH]; [done|]. simpl.
  destruct (Ascii.eqb c LF); [done|]. by destruct (Split text).
Qed.

Lemma Split_hasByte (b : Ascii.ascii) (text : string) :
  hasByte b text = false -> Forall (fun line => hasByte b line = false) (Split text).
Proof.
  induction text as [|c text IH]; intros Hb.
  - by constructor.
  - simpl in Hb. apply orb_false_iff in Hb as [Hc Hb]. specialize (IH Hb). simpl.
    destruct (Ascii.eqb c LF); [by constructor|].
    destruct (Split text) as [|line lines]; [by repeat constructor; simpl; rewrite Hc|].
    inversion IH as [|? ? Hline Hlines]; subst.
    constructor; [|done]. simpl. by rewrite Hc.
Qed.

Lemma Split_noLF (text : string) :
  Forall (fun line => hasByte LF line = false) (Split text).
Proof.
  induction text as [|c text IH]; [by repeat constructor|]. simpl.
  destruct (Ascii.eqb c LF) eqn:Hc; [by constructor|].
  destruct (Split text) as [|line lines]; [by repeat constructor; simpl; rewrite Hc|].
  inversion IH as [|? ? Hline Hlines]; subst.
  constructor; [|done]. simpl. by rewrite Hc.
Qed.

Lemma replaceCR_noCR (text : string) : hasByte CR (replaceCR text) = false.
Proof.
  induction text as [|c text IH]; [done|]. simpl. rewrite IH.
  by destruct (Ascii.eqb c CR) eqn:Hc; [|rewrite Hc].
Qed.

Lemma replaceCR_id (text : string) : hasByte CR text = false -> replaceCR text = text.
Proof.
  induction text as [|c text IH]; [done|]. simpl. intros Hb.
  apply orb_false_iff in Hb as [Hc Hb]. by rewrite Hc, IH.
Qed.

Lemma replaceCRLF_id (text : string) :
  hasByte CR text = false -> replaceCRLF text = text.
Proof.
  induction text as [|c text IH]; [done|]. simpl. intros Hb.
  apply orb_false_iff in Hb as [Hc Hb]. by rewrite Hc, IH.
Qed.

Lemma Join_cons (line : string) (lines : list string) (sep : string) :
  lines <> [] -> Join (line :: lines) sep = (line ++ sep ++ Join lines sep)%string.
Proof. by destruct lines. Qed.

Lemma Join_Split (text : string) : Join (Split text) (String LF EmptyString) = text.
Proof.
  induction text as [|c text IH]; [done|]. simpl.
  pose proof (Split_nonempty text) as Hne.
  destruct (Ascii.eqb_spec c LF) as [->|Hc].
  - rewrite Join_cons by done. simpl. by rewrite IH.
  - destruct (Split text) as [|line lines]; [done|].
    destruct lines as [|line' lines].
    + simpl in *. by rewrite IH.
    + rewrite Join_cons by done. rewrite Join_cons in IH by done.
      rewrite <- IH. reflexivity.
Qed.

(** X19: [splitLines] returns at least one line; no line holds a line
    feed or a carriage return; joined with line feeds, the lines give back
    the text with each CR LF pair and each remaining CR turned into a line
    feed, and a text without carriage return itself. *)
Theorem splitLines_lines (text : string) :
  splitLines text <> []
  /\ Forall (fun line => hasByte LF line = false /\ hasByte CR line = false)
       (splitLines text)
  /\ Join (splitLines text) (String LF EmptyString) = replaceCR (replaceCRLF text)
  /\ (hasByte CR text = false ->
      Join (splitLines text) (String LF EmptyString) = text).
Proof.
  unfold splitLines. split; [apply Split_nonempty|]. split; [|split].
  - apply Forall_and. split; [apply Split_noLF|].
    apply Split_hasByte, replaceCR_noCR.
  - apply Join_Split.
  - intros Hb. rewrite Join_Split, replaceCRLF_id by done. by apply replaceCR_id.
Qed.

(** *** [convertMapToPaper] and [parseBatchData] *)

Section WithCollaborators.
Context {S Item : Type}.
Variable clock : S -> Z.
Variable RFC3339 : Z -> string.
Variable newUUID : S -> string * S.
Variable UnmarshalArray : string -> list (gmap string JSON) + error.
Variable UnmarshalObject : string -> gmap string JSON + error.
Implicit Types w : World S Item.

(** X20: [convertMapToPaper] leaves the world as it is and fails, with
    "missing or invalid paper_id", exactly when neither "paper_id" nor
    "id" holds a non-empty string; otherwise the paper carries the
    non-empty string of "paper_id", or else that of "id", the trace id
    and the batch timestamp of the call and the status "processed", the
    source "unknown" when the map has no string for it, and of the
    authors and categories the elements that are strings. *)
Theorem convertMapToPaper_requires_id (data : gmap string JSON)
    (traceID : string) (batchTimestamp : Z) w :
  exists paper err,
    convertMapToPaper (Item:=Item) clock RFC3339 data traceID batchTimestamp w
    = (Ret (paper, err), w)
    /\ match err with
       | Some e =>
           e = "missing or invalid paper_id"
           /\ (stringAt data "paper_id" = None \/ stringAt data "paper_id" = Some "")
           /\ (stringAt data "id" = None \/ stringAt data "id" = Some "")
       | None =>
           stamped RFC3339 traceID batchTimestamp paper
           /\ (stringAt data "paper_id" = Some (PaperID paper)
               \/ ((stringAt data "paper_id" = None
                    \/ stringAt data "paper_id" = Some "")
                   /\ stringAt data "id" = Some (PaperID paper)))
           /\ Source paper = default "unknown" (stringAt data "source")
           /\ Title paper = default "" (stringAt data "title")
           /\ Abstract paper = default "" (stringAt data "abstract")
           /\ Authors paper = stringsAt data "authors"
           /\ Categories paper = stringsAt data "categories"
           /\ CreatedAt paper = RFC3339 (clock (ext w))
           /\ UpdatedAt paper = CreatedAt paper
       end.
Proof.
  unfold convertMapToPaper.
  erewrite bind_Ret by apply CoordinatorProps.ask_run. cbv zeta.
  destruct (stringAt data "paper_id") as [id|];
    [destruct (isEmpty id) eqn:He; cbn [negb];
     [apply isEmpty_true in He; subst id|apply isEmpty_false in He]|];
    try (destruct (stringAt data "id") as [id'|];
         [destruct (isEmpty id') eqn:He'; cbn [negb];
          [apply isEmpty_true in He'; subst id'|apply isEmpty_false in He']|]);
    eexists _, _; (split; [reflexivity|]); cbn; unfold stamped; cbn;
    repeat split;
    first [done
          |by destruct (stringAt data "source")
          |by left
          |by right
          |right; split; [by left|done]
          |right; split; [by right|done]].
Qed.

(** A paper that was converted carries an id and the stamps of the
    call. *)
Lemma convertMapToPaper_run (data : gmap string JSON) (traceID : string)
    (batchTimestamp : Z) w :
  exists paper err,
    convertMapToPaper (Item:=Item) clock RFC3339 data traceID batchTimestamp w
    = (Ret (paper, err), w)
    /\ (err = None -> stamped RFC3339 traceID batchTimestamp paper).
Proof.
  unfold convertMapToPaper.
  erewrite bind_Ret by apply CoordinatorProps.ask_run. cbv zeta.
  assert (Hid : forall id,
             isEmpty id = false ->
             stamped RFC3339 traceID batchTimestamp
               (mkPaper id
                  match stringAt data "source" with
                  | Some source => source
                  | None => "unknown"
                  end
                  (default "" (stringAt data "title"))
                  (default "" (stringAt data "abstract"))
                  (stringsAt data "authors")
                  (default "" (stringAt data "published_date"))
                  (stringsAt data "categories")
                  (default "" (stringAt data "raw_xml"))
                  traceID (RFC3339 batchTimestamp) "processed"
                  (RFC3339 (clock (ext w))) (RFC3339 (clock (ext w))))).
  { intros id He. apply isEmpty_false in He. by repeat split. }
  destruct (stringAt data "paper_id") as [id|];
    [destruct (isEmpty id) eqn:He; cbn [negb]|];
    try (destruct (stringAt data "id") as [id'|];
         [destruct (isEmpty id') eqn:He'; cbn [negb]|]);
    eexists _, _; (split; [reflexivity|]); try done; intros _; by apply Hid.
Qed.

Lemma arrayLoop_run (jsonPapers : list (gmap string JSON)) (traceID : string)
    (batchTimestamp : Z) : forall papers w,
  exists new entries,
    arrayLoop clock RFC3339 jsonPapers traceID batchTimestamp papers w
    = (Ret (papers ++ new)%list, addLogs w entries)
    /\ Forall (stamped RFC3339 traceID batchTimestamp) new
    /\ len new <= len jsonPapers.
Proof.
  induction jsonPapers as [|paperData jsonPapers IH]; intros papers w.
  - exists [], []. rewrite app_nil_r, addLogs_nil. by repeat split.
  - cbn [arrayLoop].
    destruct (convertMapToPaper_run paperData traceID batchTimestamp w)
      as (paper & err & Hc & Hgood).
    erewrite bind_Ret by apply Hc. cbn beta iota. rewrite len_cons.
    destruct err as [e|].
    + erewrite bind_Ret by apply log_run.
      edestruct IH as (new & entries & -> & Hnew & Hlen).
      eexists new, (_ :: entries). rewrite addLogs_addLogs.
      split; [reflexivity|]. split; [done|lia].
    + edestruct IH as (new & entries & -> & Hnew & Hlen).
      exists (paper :: new), entries. rewrite <- app_assoc.
      split; [reflexivity|]. split; [constructor; auto|].
      rewrite len_cons. lia.
Qed.

Lemma lineLoop_run (lines : list string) (traceID : string)
    (batchTimestamp : Z) : forall papers w,
  exists new entries,
    lineLoop clock RFC3339 UnmarshalObject lines traceID batchTimestamp papers w
    = (Ret (papers ++ new)%list, addLogs w entries)
    /\ Forall (stamped RFC3339 traceID batchTimestamp) new
    /\ len new <= len (filter (fun line => line <> "") lines).
Proof.
  induction lines as [|line lines IH]; intros papers w.
  - exists [], []. rewrite app_nil_r, addLogs_nil. by repeat split.
  - cbn [lineLoop]. rewrite filter_cons.
    destruct (Z.eqb_spec (Z.of_nat (String.length line)) 0) as [Hz|Hnz].
    { assert (line = "") as -> by (destruct line; [done|simpl in Hz; lia]).
      destruct (decide _) as [?|_]; [done|]. apply IH. }
    destruct (decide (line <> "")) as [_|Hn].
    2:{ exfalso. apply Hn. intros ->. simpl in Hnz. lia. }
    rewrite len_cons.
    destruct (UnmarshalObject line) as [paperData|e].
    2:{ erewrite bind_Ret by apply log_run.
        edestruct IH as (new & entries & -> & Hnew & Hlen).
        eexists new, (_ :: entries). rewrite addLogs_addLogs.
        split; [reflexivity|]. split; [done|lia]. }
    destruct (convertMapToPaper_run paperData traceID batchTimestamp w)
      as (paper & err & Hc & Hgood).
    erewrite bind_Ret by apply Hc. cbn beta iota.
    destruct err as [e|].
    + erewrite bind_Ret by apply log_run.
      edestruct IH as (new & entries & -> & Hnew & Hlen).
      eexists new, (_ :: entries). rewrite addLogs_addLogs.
      split; [reflexivity|]. split; [done|lia].
    + edestruct IH as (new & entries & -> & Hnew & Hlen).
      exists (paper :: new), entries. rewrite <- app_assoc.
      split; [reflexivity|]. split; [constructor; auto|].
      rewrite len_cons. lia.
Qed.

Lemma parseBatchData_run (data traceID : string) (batchTimestamp : Z) w :
  exists papers err entries,
    parseBatchData clock RFC3339 UnmarshalArray UnmarshalObject data traceID
      batchTimestamp w
    = (Ret (papers, err), addLogs w entries)
    /\ Forall (stamped RFC3339 traceID batchTimestamp) papers
    /\ match UnmarshalArray data with
       | inl jsonPapers => err = None /\ len papers <= len jsonPapers
       | inr _ =>
           len papers <= len (filter (fun line => line <> "") (splitLines data))
           /\ ((err = None /\ papers <> [])
               \/ (err = Some "no valid papers found in data" /\ papers = []))
       end.
Proof.
  unfold parseBatchData. destruct (UnmarshalArray data) as [jsonPapers|e].
  - destruct (arrayLoop_run jsonPapers traceID batchTimestamp [] w)
      as (new & entries & Hrun & Hnew & Hlen).
    erewrite bind_Ret by apply Hrun. cbn [app].
    exists new, None, entries. by repeat split.
  - destruct (lineLoop_run (splitLines data) traceID batchTimestamp [] w)
      as (new & entries & Hrun & Hnew & Hlen).
    erewrite bind_Ret by apply Hrun. cbn [app].
    destruct (Z.eqb_spec (len new) 0) as [Hz|Hnz].
    + apply len_zero in Hz. subst new. exists [], (Some "no valid papers found in data"), entries.
      split; [reflexivity|]. split; [done|]. split; [done|]. by right.
    + exists new, None, entries. split; [reflexivity|]. split; [done|].
      split; [done|]. left. split; [done|]. intros ->. by rewrite len_nil in Hnz.
Qed.

(** X21: [parseBatchData] always returns, having written to the log
    only; every paper it returns carries a non-empty paper id, the trace
    id and the batch timestamp of the call and the status "processed".
    Data that parses as a JSON array never gives an error, also when no
    element of the array converts and no paper is returned; data read
    line by line gives the error "no valid papers found in data"
    exactly when no line yields a paper, and at most one paper for each
    non-empty line. *)
Theorem parseBatchData_papers_carry_an_id (data traceID : string)
    (batchTimestamp : Z) w :
  exists papers err entries,
    parseBatchData clock RFC3339 UnmarshalArray UnmarshalObject data traceID
      batchTimestamp w
    = (Ret (papers, err), addLogs w entries)
    /\ Forall (fun paper =>
                 PaperID paper <> "" /\ TraceID paper = traceID
                 /\ BatchTimestamp paper = RFC3339 batchTimestamp
                 /\ ProcessingStatus paper = "processed") papers
    /\ (forall jsonPapers,
          UnmarshalArray data = inl jsonPapers ->
          err = None /\ len papers <= len jsonPapers)
    /\ (forall e,
          UnmarshalArray data = inr e ->
          len papers <= len (filter (fun line => line <> "") (splitLines data))
          /\ (err = None <-> papers <> [])
          /\ (err <> None -> err = Some "no valid papers found in data")).
Proof.
  destruct (parseBatchData_run data traceID batchTimestamp w)
    as (papers & err & entries & Hrun & Hgood & Hcases).
  exists papers, err, entries. split; [done|]. split; [exact Hgood|].
  destruct (UnmarshalArray data) as [jsonPapers|e].
  - split; [|done]. by intros ? [= <-].
  - split; [done|]. intros ? _. destruct Hcases as (Hlen & Hcases).
    split; [done|]. destruct Hcases as [[-> Hne]|[-> ->]]; by repeat split.
Qed.

(** *** [ProcessS3Event] *)

Variable p : S3EventProcessor S Item.

Lemma append_nonempty_r (a b : string) : b <> "" -> (a ++ b)%string <> "".
Proof. by destruct a. Qed.

Lemma recordLoop_spec (records : list S3EventRecord) (traceID : string)
    (batchTimestamp : Z) : forall allPapers lastError w allPapers' lastError' w',
  recordLoop clock RFC3339 UnmarshalArray UnmarshalObject p records traceID
    batchTimestamp allPapers lastError w
  = (Ret (allPapers', lastError'), w') ->
  exists new,
    allPapers' = (allPapers ++ new)%list
    /\ Forall (stamped RFC3339 traceID batchTimestamp) new
    /\ (lastError' = None -> lastError = None)
    /\ ((forall e, lastError = Some e -> e <> "") ->
        forall e, lastError' = Some e -> e <> "").
Proof.
  induction records as [|record records IH];
    intros allPapers lastError w allPapers' lastError' w' Hrun.
  - injection Hrun as <- <- <-. exists []. rewrite app_nil_r. by repeat split.
  - cbn [recordLoop] in Hrun. cbv zeta in Hrun.
    erewrite bind_Ret in Hrun by apply log_run.
    apply bind_inv in Hrun as ([data err] & w1 & Hd & Hrun).
    destruct err as [e|].
    { erewrite bind_Ret in Hrun by apply log_run.
      apply IH in Hrun as (new & -> & Hnew & Hnone & Hne).
      exists new. split; [done|]. split; [done|]. split; [by intros H%Hnone|].
      intros _. apply Hne. by intros ? [= <-]. }
    destruct (parseBatchData_run data traceID batchTimestamp w1)
      as (papers & err & entries & Hp & Hgood & _).
    erewrite bind_Ret in Hrun by apply Hp. cbn beta iota in Hrun.
    destruct err as [e|].
    { erewrite bind_Ret in Hrun by apply log_run.
      apply IH in Hrun as (new & -> & Hnew & Hnone & Hne).
      exists new. split; [done|]. split; [done|]. split; [by intros H%Hnone|].
      intros _. apply Hne. by intros ? [= <-]. }
    erewrite bind_Ret in Hrun by apply log_run.
    apply IH in Hrun as (new & -> & Hnew & Hnone & Hne).
    exists (papers ++ new)%list. rewrite app_assoc. split; [done|].
    split; [by apply Forall_app|]. by split.
Qed.

Lemma handleErrors_status (lastError : option error) (result : ProcessResult) :
  isStatus (Status result) ->
  (Status result = "success" <-> ErrorMessage result = "") ->
  (Status result = "failed" -> ProcessedCount result = 0 /\ lastError <> None) ->
  (forall e, lastError = Some e -> e <> "") ->
  let result' := handleErrors lastError result in
  isStatus (Status result')
  /\ (Status result' = "success" <-> ErrorMessage result' = "")
  /\ (Status result' = "failed" -> ProcessedCount result' = 0)
  /\ (lastError = None -> result' = result)
  /\ Result_TraceID result' = Result_TraceID result
  /\ Timestamp result' = Timestamp result
  /\ ProcessedCount result' = ProcessedCount result
  /\ Result_DeduplicationStats result' = Result_DeduplicationStats result
  /\ Result_UpsertStats result' = Result_UpsertStats result.
Proof.
  intros Hst Hmsg Hfailed Hne. unfold handleErrors.
  destruct lastError as [e|].
  2:{ repeat split; try done; try apply Hmsg. intros H. by apply Hfailed. }
  specialize (Hne e eq_refl).
  destruct (Z.eqb_spec (ProcessedCount result) 0) as [Hz|Hnz];
    cbn [ErrorMessage setStatus]; destruct (isEmpty (ErrorMessage result)) eqn:He;
    cbn; unfold isStatus; repeat split; try done; auto; try (by intros [=]);
    try (intros H; by apply isEmpty_false in He).
Qed.

(** What an invocation of [ProcessS3Event] on a non-empty event returns. *)
Lemma ProcessS3Event_spec (records : list S3EventRecord) w out w' :
  records <> [] ->
  ProcessS3Event clock RFC3339 newUUID UnmarshalArray UnmarshalObject p records w
  = (Ret out, w') ->
  let traceID := fst (newUUID (ext w)) in
  let batchTimestamp := clock (snd (newUUID (ext w))) in
  exists result allPapers,
    out = (Some result, None)
    /\ Result_TraceID result = traceID
    /\ Timestamp result = batchTimestamp
    /\ Forall (stamped RFC3339 traceID batchTimestamp) allPapers
    /\ isStatus (Status result)
    /\ (Status result = "success" <-> ErrorMessage result = "")
    /\ (Status result = "failed" -> ProcessedCount result = 0)
    /\ Result_DeduplicationStats result
       = (if len allPapers >? 0 then Some (snd (deduplicator p allPapers))
          else None)
    /\ match Result_UpsertStats result with
       | Some upsertStats =>
           0 < len allPapers
           /\ 0 < len (fst (deduplicator p allPapers))
           /\ (exists w0 w1,
                 dynamoWriter p (fst (deduplicator p allPapers)) w0
                 = (Ret (Some upsertStats, None), w1))
           /\ ProcessedCount result = SuccessItems upsertStats
           /\ (0 < Processor.FailedItems upsertStats -> Status result <> "success")
       | None => ProcessedCount result = 0
       end.
Proof.
  intros Hne Hrun traceID batchTimestamp. unfold ProcessS3Event in Hrun.
  destruct (Z.eqb_spec (len records) 0) as [Hz|_]; [by apply len_zero in Hz|].
  unfold draw in Hrun. unfold mbind at 1, M_bind at 1, bind at 1 in Hrun.
  destruct (newUUID (ext w)) as [uuid s1] eqn:Huuid.
  cbn [fst snd] in traceID, batchTimestamp.
  erewrite bind_Ret in Hrun by apply CoordinatorProps.ask_run.
  erewrite bind_Ret in Hrun by apply CoordinatorProps.ask_run.
  erewrite bind_Ret in Hrun by apply log_run.
  cbn [ext] in Hrun. fold traceID batchTimestamp in Hrun.
  apply bind_inv in Hrun as ([allPapers lastError] & w2 & Hloop & Hrun).
  apply recordLoop_spec in Hloop as (new & Hall & Hgood & _ & Hlast).
  cbn [app] in Hall. subst new. specialize (Hlast ltac:(done)).
  cbn beta iota in Hrun.
  apply bind_inv in Hrun as ([result1 lastError1] & w3 & Hblock & Hrun).
  cbn beta iota in Hrun.
  erewrite bind_Ret in Hrun by apply CoordinatorProps.ask_run.
  erewrite bind_Ret in Hrun by apply log_run.
  erewrite bind_Ret in Hrun by apply log_run.
  injection Hrun as <- <-.
  set (result0 := mkProcessResult traceID 0 batchTimestamp "success" "" None None)
    in Hblock.
  assert (Hinv :
            Result_TraceID result1 = traceID
            /\ Timestamp result1 = batchTimestamp
            /\ isStatus (Status result1)
            /\ (Status result1 = "success" <-> ErrorMessage result1 = "")
            /\ (Status result1 = "failed" ->
                ProcessedCount result1 = 0 /\ lastError1 <> None)
            /\ (forall e, lastError1 = Some e -> e <> "")
            /\ Result_DeduplicationStats result1
               = (if len allPapers >? 0
                  then Some (snd (deduplicator p allPapers)) else None)
            /\ match Result_UpsertStats result1 with
               | Some upsertStats =>
                   0 < len allPapers
                   /\ 0 < len (fst (deduplicator p allPapers))
                   /\ (exists w0 w1,
                         dynamoWriter p (fst (deduplicator p allPapers)) w0
                         = (Ret (Some upsertStats, None), w1))
                   /\ ProcessedCount result1 = SuccessItems upsertStats
                   /\ (0 < Processor.FailedItems upsertStats ->
                       Status result1 <> "success")
               | None => ProcessedCount result1 = 0
               end).
  { destruct (Z.gtb_spec (len allPapers) 0) as [Hpos|Hle].
    2:{ erewrite bind_Ret in Hblock by apply log_run.
        injection Hblock as <- <- <-. cbn. unfold isStatus.
        repeat split; try done; auto. }
    destruct (deduplicator p allPapers) as [uniquePapers dedupStats] eqn:Hd.
    cbn [fst snd]. erewrite bind_Ret in Hblock by apply log_run.
    destruct (Z.gtb_spec (len uniquePapers) 0) as [Hupos|Hule].
    2:{ erewrite bind_Ret in Hblock by apply log_run.
        injection Hblock as <- <- <-. cbn. unfold isStatus.
        repeat split; try done; auto. }
    apply bind_inv in Hblock as ([upsertStats err] & w4 & Hw & Hblock).
    destruct err as [e|].
    { erewrite bind_Ret in Hblock by apply log_run.
      injection Hblock as <- <- <-. cbn. unfold isStatus.
      repeat split; try done; auto; try (by intros [=]).
      by intros ? [= <-]. }
    erewrite bind_Ret in Hblock by apply log_run.
    destruct upsertStats as [upsertStats|].
    2:{ erewrite bind_Panic in Hblock by reflexivity. done. }
    erewrite bind_Ret in Hblock by reflexivity.
    destruct (Z.gtb_spec (Processor.FailedItems upsertStats) 0) as [Hf|Hf].
    - injection Hblock as <- <- <-. cbn. unfold isStatus.
      split; [done|]. split; [done|]. split; [auto|].
      split.
      { split; [by intros [=]|]. intros H. exfalso.
        by apply (append_nonempty_r (itoa (Processor.FailedItems upsertStats))
                    " items failed to upsert"). }
      split; [by intros [=]|]. split; [done|]. split; [done|].
      split; [done|]. split; [done|]. split; [by eexists _, _|].
      split; [done|]. by intros _ [=].
    - injection Hblock as <- <- <-. cbn. unfold isStatus.
      split; [done|]. split; [done|]. split; [auto|]. split; [done|].
      split; [by intros [=]|]. split; [done|]. split; [done|].
      split; [done|]. split; [done|]. split; [by eexists _, _|].
      split; [done|]. lia. }
  destruct Hinv as (Ht & Hts & Hst & Hmsg & Hfailed & Hne1 & Hdd & Hup).
  destruct (handleErrors_status lastError1 result1 Hst Hmsg Hfailed Hne1)
    as (H1 & H2 & H3 & H4 & H5 & H6 & H7 & H8 & H9).
  exists (handleErrors lastError1 result1), allPapers.
  split; [done|]. rewrite H5, H6, H8, H9, H7.
  split; [done|]. split; [done|]. split; [done|]. split; [done|].
  split; [done|]. split; [rewrite <- H7; exact H3|]. split; [done|].
  destruct (Result_UpsertStats result1) as [u|]; [|done].
  destruct Hup as (Hu1 & Hu2 & Hu3 & Hu4 & Hu5).
  split; [done|]. split; [done|]. split; [done|]. split; [done|].
  intros Hf Hs. apply (Hu5 Hf).
  destruct lastError1 as [e|]; [|by rewrite (H4 eq_refl) in Hs].
  exfalso. unfold handleErrors in Hs.
  destruct (ProcessedCount result1 =? 0);
    destruct (isEmpty (ErrorMessage (setStatus _ result1))); cbn in Hs; done.
Qed.

(** X22: [ProcessS3Event] answers an event without records with the
    error "no S3 records to process" and does nothing else; for any
    other event, whenever it returns, it returns a result and no error:
    the failures of downloads, of parsing and of the writer are
    reported in the result only.  The result carries the trace id drawn
    for the batch; its status is "success", "partial_success" or
    "failed"; it is "success" exactly when the error message is empty,
    and "failed" only with nothing processed. *)
Theorem ProcessS3Event_reports_in_result (records : list S3EventRecord) w out w' :
  ProcessS3Event clock RFC3339 newUUID UnmarshalArray UnmarshalObject p records w
  = (Ret out, w') ->
  (records = [] -> out = (None, Some "no S3 records to process") /\ w' = w)
  /\ (records <> [] ->
      exists result,
        out = (Some result, None)
        /\ Result_TraceID result = fst (newUUID (ext w))
        /\ (Status result = "success" \/ Status result = "partial_success"
            \/ Status result = "failed")
        /\ (Status result = "success" <-> ErrorMessage result = "")
        /\ (Status result = "failed" -> ProcessedCount result = 0)
        /\ (forall upsertStats,
              Result_UpsertStats result = Some upsertStats ->
              ProcessedCount result = SuccessItems upsertStats
              /\ (0 < Processor.FailedItems upsertStats ->
                  Status result <> "success"))).
Proof.
  intros Hrun. split.
  - intros ->. by injection Hrun as <- <-.
  - intros Hne. apply ProcessS3Event_spec in Hrun; [|done]. cbv zeta in Hrun.
    destruct Hrun as (result & allPapers & -> & H1 & _ & _ & H2 & H3 & H4 & _ & H5).
    exists result. split; [done|]. split; [done|]. split; [exact H2|].
    split; [done|]. split; [done|]. intros u Hu. rewrite Hu in H5.
    by destruct H5 as (_ & _ & _ & ? & ?).
Qed.

End WithCollaborators.

(** *** [handleS3Event] *)

Section Deployment.
Context {S Item : Type}.
Variable downloadAndDecompress : string -> string -> M S Item (string * option error).
Variable store : DynamoDBAPI S Item.
Variable MarshalMap : Paper -> Item + error.
Variable PAPERS_TABLE_NAME : string.
Variable clock : S -> Z.
Variable RFC3339 : Z -> string.
Variable newUUID : S -> string * S.
Variable UnmarshalArray : string -> list (gmap string JSON) + error.
Variable UnmarshalObject : string -> gmap string JSON + error.
Implicit Types w : World S Item.

(** The statistics of the deduplication of papers that all carry an
    id. *)
Lemma DeduplicateWithStats_stamped (traceID : string) (batchTimestamp : Z)
    (papers : list Paper) :
  Forall (stamped RFC3339 traceID batchTimestamp) papers ->
  let '(unique, stats) := Deduplicator.DeduplicateWithStats papers in
  InvalidCount stats = 0
  /\ UniqueCount stats + DuplicateCount stats = OriginalCount stats
  /\ OriginalCount stats = len papers
  /\ UniqueCount stats = len unique
  /\ 0 <= DuplicateCount stats.
Proof.
  intros Hgood. rewrite DeduplicatorProps.DeduplicateWithStats_loop.
  destruct (DeduplicatorProps.run_counts papers papers) as (Hsum & Ho & Hi & _).
  destruct (DeduplicatorProps.run_positions papers papers) as [_ Hd].
  cbv zeta in *.
  cbn [InvalidCount UniqueCount DuplicateCount OriginalCount].
  assert (Hz : filter (fun q => PaperID q = "") papers = []).
  { clear -Hgood. induction Hgood as [|q l Hq _ IH]; [done|].
    rewrite filter_cons_False; [done|]. by destruct Hq. }
  rewrite Hz, len_nil in Hi.
  pose proof (len_nonneg (Deduplicator.laterOccurrences papers)).
  repeat split; lia.
Qed.

(** X23: in the ingestion stage as [handleS3Event] wires it, an event
    without records is answered with the error "no S3 records to
    process"; otherwise a result is returned without error, in which
    the deduplication has counted no invalid record (every parsed paper
    carries an id), the writer was asked to write exactly the unique
    papers (TotalItems = UniqueCount), and the processed count is the
    number of items the writer reports written, between 0 and the
    number of unique papers. *)
Theorem handleS3Event_counts (records : list S3EventRecord) w out w' :
  handleS3Event downloadAndDecompress store MarshalMap PAPERS_TABLE_NAME clock
    RFC3339 newUUID UnmarshalArray UnmarshalObject records w = (Ret out, w') ->
  (records = [] -> out = (None, Some "no S3 records to process"))
  /\ (records <> [] ->
      exists result,
        out = (Some result, None)
        /\ (forall dedupStats,
              Result_DeduplicationStats result = Some dedupStats ->
              InvalidCount dedupStats = 0
              /\ UniqueCount dedupStats + DuplicateCount dedupStats
                 = OriginalCount dedupStats
              /\ 0 < OriginalCount dedupStats)
        /\ (forall upsertStats,
              Result_UpsertStats result = Some upsertStats ->
              exists dedupStats,
                Result_DeduplicationStats result = Some dedupStats
                /\ TotalItems upsertStats = UniqueCount dedupStats
                /\ SuccessItems upsertStats + Processor.FailedItems upsertStats
                   = TotalItems upsertStats
                /\ ProcessedCount result = SuccessItems upsertStats
                /\ 0 <= ProcessedCount result <= UniqueCount dedupStats)
        /\ (Result_UpsertStats result = None -> ProcessedCount result = 0)).
Proof.
  unfold handleS3Event. intros Hrun.
  erewrite bind_Ret in Hrun by apply log_run.
  apply bind_inv in Hrun as ([result err] & w1 & Hp & Hrun).
  split.
  - intros ->. injection Hp as <- <- <-.
    erewrite bind_Ret in Hrun by apply log_run. by injection Hrun as <- <-.
  - intros Hne. apply ProcessS3Event_spec in Hp; [|done]. cbv zeta in Hp.
    destruct Hp as (res & allPapers & [= -> ->] & _ & _ & Hgood & _ & _ & _
                    & Hdd & Hup).
    erewrite bind_Ret in Hrun by apply log_run. injection Hrun as <- <-.
    exists res. split; [done|].
    cbn [deduplicator dynamoWriter eventProcessor] in Hdd, Hup.
    pose proof (DeduplicateWithStats_stamped _ _ _ Hgood) as Hstats.
    destruct (Deduplicator.DeduplicateWithStats allPapers) as [unique stats].
    cbn [fst snd] in *. destruct Hstats as (Hs1 & Hs2 & Hs3 & Hs4 & Hs5).
    split; [|split].
    + intros d Hd. rewrite Hd in Hdd.
      destruct (Z.gtb_spec (len allPapers) 0) as [Hpos|]; [|done].
      injection Hdd as ->. repeat split; try done. lia.
    + intros u Hu. rewrite Hu in Hup.
      destruct Hup as (Hpos & Hupos & (w2 & w3 & Hw) & Hpc & _).
      destruct (Z.gtb_spec (len allPapers) 0) as [_|]; [|lia].
      exists stats. split; [done|].
      apply WriterMore.BatchUpsertWithStats_stats in Hw as [_ Hw].
      destruct (Hw _ eq_refl) as (u' & [= <-] & Ht & Hsum & _ & _ & H0 & H1 & _).
      rewrite Hpc. repeat split; lia.
    + intros Hu. by rewrite Hu in Hup.
Qed.

End Deployment.

End EventProcessorProps.

(** ** Runs of the further properties on the fixtures *)

Module MoreExamples.
Import DynamoDB Client Runtime Spec Fixtures ServiceFixtures.

(** *** The deduplicator *)

(** X1 on the records of TestDeduplicator_DeduplicateWithStats_Success. *)
Lemma Deduplicate_agrees_witness :
  statsPapers <> []
  /\ Deduplicator.Deduplicate statsPapers
     = fst (Deduplicator.DeduplicateWithStats statsPapers)
  /\ Deduplicator.duplicateCount (Deduplicator.plainLoop statsPapers)
     = Processor.DuplicateCount (snd (Deduplicator.DeduplicateWithStats statsPapers)).
Proof.
  assert (H : statsPapers <> []) by discriminate.
  split; [exact H|]. split.
  - exact (proj1 (DeduplicatorMore.Deduplicate_agrees statsPapers)).
  - exact (proj2 (DeduplicatorMore.Deduplicate_agrees statsPapers) H).
Defined.

(** X3 on two papers with different ids. *)
Lemma DeduplicateWithStats_clean_witness :
  Deduplicator.DeduplicateWithStats [paper "paper-1" "Paper 1"; paper "paper-2" "Paper 2"]
  = ([paper "paper-1" "Paper 1"; paper "paper-2" "Paper 2"],
     Processor.mkDeduplicationStats 2 2 0 0).
Proof.
  apply (DeduplicatorMore.DeduplicateWithStats_clean
           [paper "paper-1" "Paper 1"; paper "paper-2" "Paper 2"]).
  - refine (bool_decide_unpack _ _). vm_compute. exact I.
  - repeat constructor; discriminate.
Defined.

(** *** The vector storage *)

(** X6 on three valid records and one without a paper id. *)
Lemma BatchStoreVectors_writes_valid_witness :
  exists x w',
    Storage.BatchStoreVectors marshalVector storage (invalidRecord :: threeRecords)
      world0 = (Ret x, w')
    /\ exists tr,
         callsBetween world0 w' tr
         /\ concat (batchWrites "test-vectors-table" tr)
            = StorageSpec.requestsOf marshalVector
                (StorageSpec.validOf (invalidRecord :: threeRecords)).
Proof.
  eexists _, _. split; [vm_compute; reflexivity|].
  eapply (StorageMore.BatchStoreVectors_writes_valid marshalVector storage
           (invalidRecord :: threeRecords) world0).
  vm_compute; reflexivity.
Defined.

(** X7 on the same records. *)
Lemma BatchStoreVectors_reports_invalid_witness :
  exists w',
    Storage.BatchStoreVectors marshalVector storage (invalidRecord :: threeRecords)
      world0
    = (Ret (Some (Storage.mkBatchWriteResult
                    (len (StorageSpec.validOf (invalidRecord :: threeRecords)))
                    (StorageSpec.invalidOf (invalidRecord :: threeRecords))
                    (StorageSpec.validationErrors (invalidRecord :: threeRecords))),
            None), w')
    /\ len (StorageSpec.validOf (invalidRecord :: threeRecords))
       + len (StorageSpec.invalidOf (invalidRecord :: threeRecords))
       = len (invalidRecord :: threeRecords)
    /\ len (StorageSpec.validationErrors (invalidRecord :: threeRecords))
       = len (StorageSpec.invalidOf (invalidRecord :: threeRecords)).
Proof.
  apply (StorageMore.BatchStoreVectors_reports_invalid marshalVector storage
           (invalidRecord :: threeRecords) world0).
  - apply Examples.writingStore_alwaysWritesAll.
  - repeat constructor.
Defined.

(** *** The writer *)

(** X8 against the store that leaves the last item of every batch
    unprocessed: both batches of the 30 papers fail. *)
Lemma BatchUpsertWithStats_accounts_witness :
  exists r w',
    Writer.BatchUpsertWithStats marshalPaper throttledWriter thirtyPapers world0
    = (r, w')
    /\ r <> OutOfFuel
    /\ forall x, r = Ret x ->
         exists stats,
           x = (Some stats, None)
           /\ Processor.TotalItems stats = len thirtyPapers
           /\ Processor.SuccessItems stats + Processor.FailedItems stats
              = Processor.TotalItems stats
           /\ Processor.BatchCount stats = ceilDiv (len thirtyPapers) 25
           /\ Processor.SuccessBatches stats + Processor.FailedBatches stats
              = Processor.BatchCount stats
           /\ 0 <= Processor.SuccessItems stats /\ 0 <= Processor.FailedItems stats
           /\ 0 <= Processor.SuccessBatches stats
           /\ 0 <= Processor.FailedBatches stats.
Proof.
  eexists _, _. split; [vm_compute; reflexivity|].
  eapply (WriterMore.BatchUpsertWithStats_accounts marshalPaper throttledWriter
           thirtyPapers world0).
  vm_compute; reflexivity.
Defined.


(** *** The retriever *)

(** X10 against the store whose every query has a next cursor. *)
Lemma GetCombinedTextsByTraceID_follows_cursor_witness :
  exists res w',
    Retriever.GetCombinedTextsByTraceID unmarshal TrimSpace endlessRetriever
      "test-trace-123" world0 = (res, w')
    /\ exists tr,
         callsBetween world0 w' tr
         /\ RetrieverSpec.cursorChain "papers-table" "trace-id-index"
              "test-trace-123" None tr.
Proof.
  eexists _, _. split; [vm_compute; reflexivity|].
  eapply (RetrieverMore.GetCombinedTextsByTraceID_follows_cursor unmarshal TrimSpace
           endlessRetriever "test-trace-123" world0).
  vm_compute; reflexivity.
Defined.

(** X11 against the store whose query fails. *)
Lemma GetCombinedTextsByTraceID_all_or_nothing_witness :
  exists texts e w',
    Retriever.GetCombinedTextsByTraceID unmarshal TrimSpace failingRetriever
      "test-trace-123" world0 = (Ret (texts, Some e), w')
    /\ e = "failed to query papers by traceID on page 1: database connection failed"
    /\ texts = []
    /\ exists tr input output err,
         callsBetween world0 w' tr
         /\ last tr = Some (CallQuery input output err)
         /\ ((exists e0,
                err = Some e0
                /\ e = ("failed to query papers by traceID on page "
                        ++ itoa (Z.of_nat (length tr)) ++ ": " ++ e0)%string)
             \/ (exists out e0,
                   err = None /\ output = Some out
                   /\ unmarshal (Items out) = inr e0
                   /\ e = ("failed to unmarshal papers on page "
                           ++ itoa (Z.of_nat (length tr)) ++ ": " ++ e0)%string)).
Proof.
  eexists _, _, _. split; [vm_compute; reflexivity|].
  split; [reflexivity|].
  eapply (RetrieverMore.GetCombinedTextsByTraceID_all_or_nothing unmarshal TrimSpace
           failingRetriever "test-trace-123" world0).
  - discriminate.
  - vm_compute; reflexivity.
Defined.

(** X12 against the store with one page of three papers. *)
Lemma GetCombinedTextsByTraceID_one_text_per_valid_paper_witness :
  exists texts w',
    Retriever.GetCombinedTextsByTraceID unmarshal TrimSpace pipelineRetriever
      "test-trace-123" world0 = (Ret (texts, None), w')
    /\ map Retriever.CombinedText_PaperID texts = ["paper1"; "paper2"; "paper3"]
    /\ exists tr,
         callsBetween world0 w' tr
         /\ length (pages tr) = length tr
         /\ texts = RetrieverSpec.combineOf TrimSpace
                      (RetrieverSpec.papersOf unmarshal (pages tr))
         /\ map Retriever.CombinedText_PaperID texts
            = map Retriever.PaperID (RetrieverSpec.papersOf unmarshal (pages tr))
         /\ Forall (fun t => Retriever.CombinedText_PaperID t <> "") texts.
Proof.
  eexists _, _. split; [vm_compute; reflexivity|].
  split; [reflexivity|].
  eapply (RetrieverMore.GetCombinedTextsByTraceID_one_text_per_valid_paper unmarshal
           TrimSpace pipelineRetriever "test-trace-123" world0).
  - discriminate.
  - vm_compute; reflexivity.
Defined.

(** *** The HTTP client *)

(** X13 against the service that answers with an embedding. *)
Lemma GenerateEmbedding_one_exchange_witness :
  exists res w',
    APIClient.GenerateEmbedding marshalRequest unmarshalAPIError
      unmarshalEmbeddingResponse urlError httpService "Title paper1. Abstract"
      world0 = (res, w')
    /\ ext w' = 1%nat
    /\ calls w' = calls world0
    /\ ("Title paper1. Abstract" = "" ->
        res = Ret (None, Some "text cannot be empty") /\ w' = world0)
    /\ (ext w' = ext world0
        \/ exists requestBody,
             "Title paper1. Abstract" <> ""
             /\ marshalRequest (APIClient.sentText "Title paper1. Abstract")
                = inl requestBody
             /\ ext w'
                = snd (APIClient.httpClient httpService
                         (APIClient.embeddingRequest httpService requestBody)
                         (ext world0))
             /\ APIClient.Method (APIClient.embeddingRequest httpService requestBody)
                = "POST"
             /\ APIClient.URL (APIClient.embeddingRequest httpService requestBody)
                = APIClient.baseURL httpService
             /\ APIClient.RequestBody
                  (APIClient.embeddingRequest httpService requestBody)
                = requestBody
             /\ APIClient.Header (APIClient.embeddingRequest httpService requestBody)
                !! "Content-Type" = Some ["application/json"]
             /\ APIClient.Header (APIClient.embeddingRequest httpService requestBody)
                !! "Accept" = Some ["application/json"])
    /\ String.prefix (APIClient.sentText "Title paper1. Abstract")
         "Title paper1. Abstract" = true
    /\ Z.of_nat (String.length (APIClient.sentText "Title paper1. Abstract"))
       <= APIClient.maxTextLength
    /\ (Z.of_nat (String.length "Title paper1. Abstract") <= APIClient.maxTextLength ->
        APIClient.sentText "Title paper1. Abstract" = "Title paper1. Abstract").
Proof.
  eexists _, _. split; [vm_compute; reflexivity|].
  split; [reflexivity|].
  eapply (APIClientProps.GenerateEmbedding_one_exchange marshalRequest
            unmarshalAPIError unmarshalEmbeddingResponse urlError httpService
            "Title paper1. Abstract" world0).
  vm_compute; reflexivity.
Defined.

(** X14 against the same service. *)
Lemma GenerateEmbedding_returns_validated_witness :
  exists response err w',
    APIClient.GenerateEmbedding marshalRequest unmarshalAPIError
      unmarshalEmbeddingResponse urlError httpService "Title paper1. Abstract"
      world0 = (Ret (response, err), w')
    /\ response = Some embeddingResponse
    /\ (response = None <-> err <> None)
    /\ forall er, response = Some er ->
         Embedding er <> [] /\ Dimension er = len (Embedding er)
         /\ ModelVersion er <> "" /\ StorageSpec.noNaN (Embedding er)
         /\ exists requestBody resp payload,
             marshalRequest (APIClient.sentText "Title paper1. Abstract")
             = inl requestBody
             /\ fst (APIClient.httpClient httpService
                       (APIClient.embeddingRequest httpService requestBody)
                       (ext world0))
                = (Some resp, None)
             /\ APIClient.StatusCode resp = 200
             /\ APIClient.Body resp = Some (inl payload)
             /\ unmarshalEmbeddingResponse payload = inl er.
Proof.
  eexists _, _, _. split; [vm_compute; reflexivity|].
  split; [reflexivity|].
  eapply (APIClientProps.GenerateEmbedding_returns_validated marshalRequest
            unmarshalAPIError unmarshalEmbeddingResponse urlError httpService
            "Title paper1. Abstract" world0).
  vm_compute; reflexivity.
Defined.

(** X15 on the response of the service. *)
Lemma validated_response_gives_valid_record_witness :
  exists record,
    Storage.CreateVectorRecord clock RFC3339 "paper1" "Title paper1. Abstract"
      "test-trace-123" (Embedding embeddingResponse) (ModelVersion embeddingResponse)
      150 world0 = (Ret record, world0)
    /\ Storage.validateVectorRecord record = None.
Proof.
  apply (APIClientProps.validated_response_gives_valid_record clock RFC3339
           embeddingResponse "paper1" "Title paper1. Abstract" "test-trace-123" 150
           world0).
  - vm_compute; reflexivity.
  - discriminate.
  - discriminate.
Defined.

(** *** The coordinator *)

(** X16 on the run of TestProcessVectorization_PartialEmbeddingFailure. *)
Lemma processVectorization_counts_papers_witness :
  exists res err w',
    Coordinator.processVectorization clock RFC3339 (deployed pipelineStore)
      "test-trace-123" world0 = (Ret (Some res, err), w')
    /\ Coordinator.TotalPapers res = 3
    /\ Coordinator.EmbeddingsGenerated res + Coordinator.FailedEmbeddings res
       = Coordinator.TotalPapers res
    /\ 0 <= Coordinator.EmbeddingsGenerated res
    /\ 0 <= Coordinator.FailedEmbeddings res
    /\ (Coordinator.EmbeddingsGenerated res = 0 ->
        Coordinator.VectorsStored res = 0 /\ Coordinator.FailedStorage res = 0).
Proof.
  eexists _, _, _. split; [vm_compute; reflexivity|].
  split; [reflexivity|].
  eapply (CoordinatorMore.processVectorization_counts_papers clock RFC3339
            (deployed pipelineStore) "test-trace-123" world0).
  vm_compute; reflexivity.
Defined.

(** X17 on the same run. *)
Lemma processVectorization_accounts_for_every_paper_witness :
  exists res err w',
    Coordinator.processVectorization clock RFC3339 (deployed pipelineStore)
      "test-trace-123" world0 = (Ret (Some res, err), w')
    /\ Coordinator.VectorsStored res + Coordinator.FailedStorage res
       = Coordinator.EmbeddingsGenerated res
    /\ Coordinator.VectorsStored res + Coordinator.FailedStorage res
       + Coordinator.FailedEmbeddings res = Coordinator.TotalPapers res
    /\ 0 <= Coordinator.VectorsStored res /\ 0 <= Coordinator.FailedStorage res.
Proof.
  eexists _, _, _. split; [vm_compute; reflexivity|].
  eapply (CoordinatorMore.processVectorization_accounts_for_every_paper clock
            RFC3339 (deployed pipelineStore) marshalVector
            (Storage.mkVectorStorage pipelineStore "vectors-table")
            "test-trace-123" world0).
  - intros records. reflexivity.
  - intros r. reflexivity.
  - vm_compute; reflexivity.
Defined.

Lemma pipelineStore_alwaysWritesAll table : alwaysWritesAll pipelineStore table.
Proof. intros input s. eexists. split; [reflexivity|]. reflexivity. Qed.

(** X18 on the coordinator with the HTTP client, over the store with one
    page of three papers. *)
Lemma wired_stage_stores_every_embedding_witness :
  exists res err w',
    Coordinator.processVectorization clock RFC3339 wired "test-trace-123" world0
    = (Ret (Some res, err), w')
    /\ Coordinator.VectorsStored res = 3
    /\ Coordinator.FailedStorage res = 0
    /\ Coordinator.VectorsStored res = Coordinator.EmbeddingsGenerated res
    /\ (0 < Coordinator.EmbeddingsGenerated res ->
        (Coordinator.Status res = Coordinator.StatusCompleted
         <-> Coordinator.FailedEmbeddings res = 0)
        /\ (Coordinator.Status res = Coordinator.StatusPartial
            <-> 0 < Coordinator.FailedEmbeddings res)
        /\ Coordinator.Status res <> Coordinator.StatusFailed).
Proof.
  eexists _, _, _. split; [vm_compute; reflexivity|].
  split; [reflexivity|].
  eapply (CoordinatorMore.wired_stage_stores_every_embedding clock RFC3339
            pipelineStore marshalRequest unmarshalAPIError
            unmarshalEmbeddingResponse urlError httpService unmarshal TrimSpace
            marshalVector "papers-table" "trace-id-index" "vectors-table"
            "test-trace-123" world0).
  - apply pipelineStore_alwaysWritesAll.
  - intros r. reflexivity.
  - vm_compute; reflexivity.
Defined.

(** *** The event processor *)

(** X22 on an event of two records: the object of the first holds three
    entries, the second object is missing. *)
Lemma ProcessS3Event_reports_in_result_witness :
  exists out w',
    EventProcessor.ProcessS3Event clock RFC3339 newUUID unmarshalArray
      unmarshalObject processor s3Records world0 = (Ret out, w')
    /\ (s3Records = [] ->
        out = (None, Some "no S3 records to process") /\ w' = world0)
    /\ (s3Records <> [] ->
        exists result,
          out = (Some result, None)
          /\ EventProcessor.Result_TraceID result = fst (newUUID (ext world0))
          /\ (EventProcessor.Status result = "success"
              \/ EventProcessor.Status result = "partial_success"
              \/ EventProcessor.Status result = "failed")
          /\ (EventProcessor.Status result = "success"
              <-> EventProcessor.ErrorMessage result = "")
          /\ (EventProcessor.Status result = "failed" ->
              EventProcessor.ProcessedCount result = 0)
          /\ (forall upsertStats,
                EventProcessor.Result_UpsertStats result = Some upsertStats ->
                EventProcessor.ProcessedCount result
                = Processor.SuccessItems upsertStats
                /\ (0 < Processor.FailedItems upsertStats ->
                    EventProcessor.Status result <> "success"))).
Proof.
  eexists _, _. split; [vm_compute; reflexivity|].
  eapply (EventProcessorProps.ProcessS3Event_reports_in_result clock RFC3339
            newUUID unmarshalArray unmarshalObject processor s3Records world0).
  vm_compute; reflexivity.
Defined.

(** X23 on the same event: three entries, one without an id, two with the
    same id; one paper is written. *)
Lemma handleS3Event_counts_witness :
  exists result w',
    EventProcessor.handleS3Event download writingStore marshalPaper "" clock RFC3339
      newUUID unmarshalArray unmarshalObject s3Records world0
    = (Ret (Some result, None), w')
    /\ EventProcessor.ProcessedCount result = 1
    /\ EventProcessor.Status result = "partial_success"
    /\ (s3Records = [] -> (Some result, None) = (None, Some "no S3 records to process"))
    /\ (s3Records <> [] ->
        exists result',
          (Some result, @None error) = (Some result', None)
          /\ (forall dedupStats,
                EventProcessor.Result_DeduplicationStats result' = Some dedupStats ->
                Processor.InvalidCount dedupStats = 0
                /\ Processor.UniqueCount dedupStats + Processor.DuplicateCount dedupStats
                   = Processor.OriginalCount dedupStats
                /\ 0 < Processor.OriginalCount dedupStats)
          /\ (forall upsertStats,
                EventProcessor.Result_UpsertStats result' = Some upsertStats ->
                exists dedupStats,
                  EventProcessor.Result_DeduplicationStats result' = Some dedupStats
                  /\ Processor.TotalItems upsertStats = Processor.UniqueCount dedupStats
                  /\ Processor.SuccessItems upsertStats
                     + Processor.FailedItems upsertStats
                     = Processor.TotalItems upsertStats
                  /\ EventProcessor.ProcessedCount result'
                     = Processor.SuccessItems upsertStats
                  /\ 0 <= EventProcessor.ProcessedCount result'
                     <= Processor.UniqueCount dedupStats)
          /\ (EventProcessor.Result_UpsertStats result' = None ->
              EventProcessor.ProcessedCount result' = 0)).
Proof.
  eexists _, _. split; [vm_compute; reflexivity|].
  split; [reflexivity|]. split; [reflexivity|].
  eapply (EventProcessorProps.handleS3Event_counts download writingStore
            marshalPaper "" clock RFC3339 newUUID unmarshalArray unmarshalObject
            s3Records world0).
  vm_compute; reflexivity.
Defined.

End MoreExamples.
